(** * Credit-risk pipeline (Altman Z-Score + Merton): model and properties

    A shallow embedding of the analytical core of the repository:
    [classifier.py], [calculators.py], [decisions.py], [zscore_fetcher.py],
    [base_fetcher.py], [merton_fetcher.py] and [risk_analyzer.py], the
    reading of the tickers and the choice between a single run and a
    batch of [main.py], and the look-up tables of [report_generator.py].

    Conventions of the embedding.
    - A Python [float] is an IEEE-754 binary64 value: [spec_float] with
      precision 53 and maximal exponent 1024, and the arithmetic of
      [SpecFloat] (correctly rounded [+ - * /] and [sqrt], comparisons
      that are false on NaN).
    - A raised exception is a value of [exn]; code that can raise returns
      a [result].
    - [print] and [warnings.warn] calls have no effect on any returned
      value and are left out.
    - Built-ins and library functions that are not part of the repository
      ([round], [math.log], [math.erf], the C [pow], float formatting)
      are the fields of the class [Builtins]; every statement holds for
      all implementations of them.  [np.mean] and [np.std] are the fields
      of the class [Numpy] in the same way.
    - A [str] is the string of the bytes of its UTF-8 encoding.
      [str.lower], which the classifier applies to any industry text, is
      a field of [Builtins] of which only the action on ASCII text is
      known.  [str.upper], [str.strip] and [str.split], which the code
      applies to the symbols of tickers, are written out as they act on
      ASCII text, and what is stated of them is stated of ASCII text. *)

From Stdlib Require Import ZArith Bool List Ascii String Lia DecimalString.
From Stdlib Require Import Floats.SpecFloat.
From stdpp Require Import base option list gmap strings.

Local Open Scope string_scope.
Local Open Scope list_scope.

(* ================================================================== *)
(** * Exceptions and results *)

Inductive exn : Type :=
  | ValueError (msg : string)
  | ZeroDivisionError (msg : string)
  | OverflowError (msg : string)
  | TypeError (msg : string)
  | KeyError (key : string).

Inductive result (A : Type) : Type :=
  | Ok (a : A)
  | Raise (e : exn).
Arguments Ok {A} a.
Arguments Raise {A} e.

#[global] Instance result_ret : MRet result := fun A a => Ok a.
#[global] Instance result_bind : MBind result := fun A B k r =>
  match r with
  | Ok a => k a
  | Raise e => Raise e
  end.

(** [str(e)] of an exception: the message, or for [KeyError] the [repr]
    of the key. *)
Definition exn_str (e : exn) : string :=
  match e with
  | ValueError m | ZeroDivisionError m | OverflowError m | TypeError m => m
  | KeyError k => "'" ++ k ++ "'"
  end.

(* ================================================================== *)
(** * Python floats *)

Module PyFloat.

Definition prec : Z := 53.
Definition emax : Z := 1024.

Definition float : Type := spec_float.

Definition fadd : float -> float -> float := SFadd prec emax.
Definition fsub : float -> float -> float := SFsub prec emax.
Definition fmul : float -> float -> float := SFmul prec emax.
Definition fdiv : float -> float -> float := SFdiv prec emax.
Definition fsqrt : float -> float := SFsqrt prec emax.
Definition feqb : float -> float -> bool := SFeqb.
Definition fltb : float -> float -> bool := SFltb.
Definition fleb : float -> float -> bool := SFleb.
Definition fgtb (x y : float) : bool := SFltb y x.

(** Python floats are the values that satisfy [valid]. *)
Definition valid (x : float) : bool := valid_binary prec emax x.

Definition is_nan (x : float) : bool :=
  match x with S754_nan => true | _ => false end.
Definition is_inf (x : float) : bool :=
  match x with S754_infinity _ => true | _ => false end.

(** The float of an integer, and of a decimal literal [n / d] (both
    correctly rounded, as the Python parser does). *)
Definition of_Z (n : Z) : float := binary_normalize prec emax n 0 false.
Definition lit (n d : Z) : float := fdiv (of_Z n) (of_Z d).

Definition zero : float := S754_zero false.
Definition neg_zero : float := S754_zero true.
Definition one : float := Eval vm_compute in of_Z 1.
Definition two : float := Eval vm_compute in of_Z 2.

(** [x / y] on floats raises when the divisor compares equal to zero. *)
Definition truediv (x y : float) : result float :=
  if feqb y zero then Raise (ZeroDivisionError "float division by zero")
  else Ok (fdiv x y).

End PyFloat.
Import PyFloat.

Declare Scope pyfloat_scope.
Delimit Scope pyfloat_scope with F.
Infix "+" := fadd : pyfloat_scope.
Infix "-" := fsub : pyfloat_scope.
Infix "*" := fmul : pyfloat_scope.
Infix "/" := fdiv : pyfloat_scope.
Infix "==" := feqb (at level 70, no associativity) : pyfloat_scope.
Infix "<?" := fltb : pyfloat_scope.
Infix "<=?" := fleb : pyfloat_scope.
Infix ">?" := fgtb : pyfloat_scope.

(* ================================================================== *)
(** * Strings: ASCII text and the [in] operator

    A [str] is the string of the bytes of its UTF-8 encoding: equality,
    concatenation and the occurrence of one string in another are the
    same on the bytes as on the characters. *)

Module PyStr.

(** Text of ASCII characters only. *)
Fixpoint is_ascii (s : string) : bool :=
  match s with
  | EmptyString => true
  | String c s' => (N_of_ascii c <? 128)%N && is_ascii s'
  end.

(** What [str.lower] does to ASCII text: the letters [A]..[Z] are mapped
    to [a]..[z], every other character is kept. *)
Definition lower_ascii (c : ascii) : ascii :=
  let n := N_of_ascii c in
  if ((65 <=? n) && (n <=? 90))%N then ascii_of_N (n + 32) else c.

Fixpoint lower_ascii_text (s : string) : string :=
  match s with
  | EmptyString => EmptyString
  | String c s' => String (lower_ascii c) (lower_ascii_text s')
  end.

(** [kw in s] on strings: [kw] occurs in [s] as a contiguous run. *)
Fixpoint contains (kw s : string) : bool :=
  if String.prefix kw s then true
  else match s with
       | EmptyString => false
       | String _ s' => contains kw s'
       end.

(** [str.upper] and [str.strip] as they act on ASCII text, which the
    symbol of a ticker is: the letters [a]..[z] are mapped to [A]..[Z],
    and the white space is that of ASCII. *)
Definition upper_ascii (c : ascii) : ascii :=
  let n := N_of_ascii c in
  if ((97 <=? n) && (n <=? 122))%N then ascii_of_N (n - 32) else c.

Fixpoint upper (s : string) : string :=
  match s with
  | EmptyString => EmptyString
  | String c s' => String (upper_ascii c) (upper s')
  end.

Definition is_whitespace (c : ascii) : bool :=
  let n := N_of_ascii c in
  ((n =? 32) || ((9 <=? n) && (n <=? 13)) || ((28 <=? n) && (n <=? 31)))%N.

Fixpoint lstrip (s : string) : string :=
  match s with
  | EmptyString => EmptyString
  | String c s' => if is_whitespace c then lstrip s' else s
  end.

Definition strip (s : string) : string :=
  String.rev (lstrip (String.rev (lstrip s))).

(** [repr] of a list of strings, as an f-string prints it. *)
Fixpoint join_quoted (l : list string) : string :=
  match l with
  | [] => ""
  | [x] => "'" ++ x ++ "'"
  | x :: l' => "'" ++ x ++ "', " ++ join_quoted l'
  end.

Definition repr_list (l : list string) : string := "[" ++ join_quoted l ++ "]".

(** [any(kw in s for kw in keywords)]. *)
Definition any_in (keywords : list string) (s : string) : bool :=
  existsb (fun kw => contains kw s) keywords.

End PyStr.

(* ================================================================== *)
(** * Built-ins *)

(** Built-ins and C library functions the code calls. *)
Class Builtins : Type := {
  (** [round(x, ndigits)] on a float. *)
  round : float -> Z -> float;
  (** [math.log] on its domain, [math.erf], and C's [pow]. *)
  libm_log : float -> float;
  libm_erf : float -> float;
  libm_pow : float -> float -> float;
  (** [f"{x:.nf}"] and [str(x)]. *)
  format_fixed : nat -> float -> string;
  float_str : float -> string;
  (** [s.lower()].  The case mapping of Python covers all of Unicode and
      depends on the version of its tables; it is not programmed here.
      What is known of it is how it acts on ASCII text. *)
  lower : string -> string;
  lower_ascii_text_eq :
    forall s : string, PyStr.is_ascii s = true -> lower s = PyStr.lower_ascii_text s;
}.

(* ================================================================== *)
(** * classifier.py *)

Module CompanyClassifier.
Import PyStr.

Definition MANUFACTURING_KEYWORDS : list string :=
  [ "manufactur"; "auto"; "aerospace"; "defense"; "steel"; "chemical";
    "semiconductor"; "electronic"; "machinery"; "equipment"; "textile";
    "paper"; "packaging"; "rubber"; "plastic"; "metal"; "mining";
    "oil"; "gas"; "energy"; "pharmaceutical"; "drug"; "food"; "beverage";
    "tobacco"; "furniture"; "appliance"; "vehicle"; "aircraft"; "ship" ].

Definition FINANCIAL_KEYWORDS : list string :=
  [ "bank"; "insurance"; "financial"; "asset management"; "investment";
    "credit"; "mortgage"; "reit"; "fund"; "brokerage"; "capital markets" ].

(** The object: its four attributes. *)
Record t : Type := {
  industry : string;
  total_liabilities : float;
  company_type : string;
  model_version : string;
}.

(** [CompanyClassifier(industry, total_liabilities)]; the industry may
    be [None], which [(industry or "")] turns into the empty string. *)
Definition __init__ `{Builtins} (industry : option string)
    (total_liabilities : float) : t :=
  {| industry := lower (default "" industry);
     total_liabilities := total_liabilities;
     company_type := "";
     model_version := "" |}.

Definition _is_manufacturing (self : t) : bool :=
  any_in MANUFACTURING_KEYWORDS (industry self).

Definition _is_financial (self : t) : bool :=
  any_in FINANCIAL_KEYWORDS (industry self).

Definition set_type (self : t) (ty mv : string) : t :=
  {| industry := industry self;
     total_liabilities := total_liabilities self;
     company_type := ty;
     model_version := mv |}.

(** [classify]: sets both attributes and returns the company type. *)
Definition classify (self : t) : string * t :=
  let self' :=
    if bool_decide (industry self = "") then
      set_type self "non_manufacturing" "Z_double_prime"
    else if _is_financial self then
      set_type self "financial" "Z_double_prime"
    else if _is_manufacturing self then
      set_type self "manufacturing" "Z"
    else
      set_type self "non_manufacturing" "Z_double_prime" in
  (company_type self', self').

Definition get_model_version (self : t) : string := model_version self.

Definition get_merton_applicability (self : t) : bool :=
  if (total_liabilities self <=? zero)%F then false else true.

End CompanyClassifier.

(* ================================================================== *)
(** * calculators.py *)

(** The [data] dict of the Z-Score calculator. *)
Record FinancialFacts : Type := {
  working_capital : float;
  total_assets : float;
  retained_earnings : float;
  ebit : float;
  market_cap : float;
  total_liabilities : float;
  sales : float;
}.

Module ZScoreCalculator.

(** One entry of [COEFFICIENTS]: the dict with keys [x1] .. [x5]. *)
Record coefficients : Type := {
  c_x1 : float; c_x2 : float; c_x3 : float; c_x4 : float; c_x5 : float;
}.

Definition COEFFICIENTS : gmap string coefficients :=
  {[ "Z" :=
       {| c_x1 := lit 12 10; c_x2 := lit 14 10; c_x3 := lit 33 10;
          c_x4 := lit 6 10; c_x5 := lit 10 10 |};
     "Z_double_prime" :=
       {| c_x1 := lit 656 100; c_x2 := lit 326 100; c_x3 := lit 672 100;
          c_x4 := lit 105 100; c_x5 := lit 0 10 |} ]}.

Record t : Type := {
  data : FinancialFacts;
  model_version : string;
  coeffs : coefficients;
}.

(** The dict returned by [calculate]. *)
Record ratios : Type := {
  r_model_version : string;
  x1 : float; x2 : float; x3 : float; x4 : float; x5 : float;
  z_score : float;
}.

Definition __init__ (data : FinancialFacts) (model_version : string) : result t :=
  match COEFFICIENTS !! model_version with
  | None => Raise (ValueError ("Versión inválida: '" ++ model_version ++ "'."))
  | Some c => Ok {| data := data; model_version := model_version; coeffs := c |}
  end.

Section Calculate.
Context `{Builtins}.

Definition calculate (self : t) : result ratios :=
  let ta := total_assets (data self) in
  let tl := total_liabilities (data self) in
  if (ta == zero)%F then Raise (ZeroDivisionError "Total Assets es 0.")
  else if (tl == zero)%F then Raise (ZeroDivisionError "Total Liabilities es 0.")
  else
    x1 ← truediv (working_capital (data self)) ta;
    x2 ← truediv (retained_earnings (data self)) ta;
    x3 ← truediv (ebit (data self)) ta;
    x4 ← truediv (market_cap (data self)) tl;
    x5 ← (if bool_decide (model_version self = "Z")
          then truediv (sales (data self)) ta else Ok zero);
    let c := coeffs self in
    let z_score :=
      (c_x1 c * x1 + c_x2 c * x2 + c_x3 c * x3 + c_x4 c * x4 + c_x5 c * x5)%F in
    Ok {| r_model_version := model_version self;
          x1 := round x1 4; x2 := round x2 4; x3 := round x3 4;
          x4 := round x4 4; x5 := round x5 4;
          z_score := round z_score 4 |}.

End Calculate.
End ZScoreCalculator.

(** [math.log], [math.sqrt] and [x ** 2] on floats, with the errors
    CPython raises. *)
Module PyMath.
Section PyMath.
Context `{Builtins}.

Definition math_domain_error : exn := ValueError "math domain error".

Definition log (x : float) : result float :=
  if is_nan x then Ok x
  else if (x >? zero)%F then Ok (if is_inf x then x else libm_log x)
  else Raise math_domain_error.

Definition sqrt (x : float) : result float :=
  let r := fsqrt x in
  if is_nan r && negb (is_nan x) then Raise math_domain_error else Ok r.

Definition erf (x : float) : float := libm_erf x.

(** [x ** 2]: NaN and infinities are answered directly, a finite base
    goes through C's [pow], and an overflow there is an error. *)
Definition pow2 (x : float) : result float :=
  if is_nan x then Ok x
  else if is_inf x then Ok (SFabs x)
  else
    let r := libm_pow x two in
    if is_inf r then Raise (OverflowError "(34, 'Numerical result out of range')")
    else Ok r.

End PyMath.
End PyMath.

(** The [data] dict of the Merton calculator. *)
Record AssetDynamicsFacts : Type := {
  V_A : float;
  D : float;
  mu : float;
  sigma : float;
  risk_free_rate : float;
  T : float;
}.

Module MertonCalculator.

Record t : Type := { data : AssetDynamicsFacts }.

Definition __init__ (data : AssetDynamicsFacts) : t := {| data := data |}.

(** The dict returned by [calculate]. *)
Record outputs : Type := {
  r_V_A : float; r_D : float; r_mu : float; r_sigma : float; r_T : float;
  DD : float; PD : float; PD_pct : float;
}.

Section Calculate.
Context `{Builtins}.

Definition _normal_cdf (x : float) : result float :=
  s ← PyMath.sqrt two;
  q ← truediv x s;
  truediv (one + PyMath.erf q)%F two.

(** [self.DD], computed left to right as Python does. *)
Definition distance_to_default (V_A D mu sigma T : float) : result float :=
  q ← truediv V_A D;
  l ← PyMath.log q;
  s2 ← PyMath.pow2 sigma;
  h ← truediv s2 two;
  let num := (l + (mu - h) * T)%F in
  r ← PyMath.sqrt T;
  truediv num (sigma * r)%F.

Definition probability_of_default (DD : float) : result float :=
  p ← _normal_cdf DD;
  Ok (one - p)%F.

Definition calculate (self : t) : result outputs :=
  let V_A := V_A (data self) in
  let D := D (data self) in
  let mu := mu (data self) in
  let sigma := sigma (data self) in
  let T := T (data self) in
  if (D <=? zero)%F then Raise (ValueError "D (pasivos) debe ser mayor que 0.")
  else if (V_A <=? zero)%F then Raise (ValueError "V_A (activos) debe ser mayor que 0.")
  else if (sigma <=? zero)%F then Raise (ValueError "σ debe ser mayor que 0.")
  else
    DD ← distance_to_default V_A D mu sigma T;
    PD ← probability_of_default DD;
    Ok {| r_V_A := round V_A 2; r_D := round D 2;
          r_mu := round mu 4; r_sigma := round sigma 4;
          r_T := T;
          DD := round DD 4;
          PD := round PD 6;
          PD_pct := round (PD * of_Z 100)%F 4 |}.

End Calculate.
End MertonCalculator.

(* ================================================================== *)
(** * decisions.py *)

Module Decision.

Definition APPROVED : string := "APPROVED".
Definition APPROVED_WARNING : string := "APPROVED WITH WARNING".
Definition DENIED : string := "DENIED".

Definition ZONE_SAFE : string := "SAFE".
Definition ZONE_GREY : string := "GREY ZONE".
Definition ZONE_DISTRESS : string := "DISTRESS".

(** The dict returned by [get_summary]. After [evaluate] the decision is
    never empty, so [get_summary] does not raise there. *)
Record summary : Type := {
  zone : string;
  decision : string;
  reasoning : string;
}.

End Decision.

Module ZScoreDecision.
Import Decision.

Record thresholds : Type := { safe : float; distress : float }.

Definition Z_thresholds : thresholds :=
  {| safe := lit 299 100; distress := lit 181 100 |}.
Definition Z_double_prime_thresholds : thresholds :=
  {| safe := lit 260 100; distress := lit 110 100 |}.

Definition THRESHOLDS : gmap string thresholds :=
  {[ "Z" := Z_thresholds; "Z_double_prime" := Z_double_prime_thresholds ]}.

Record t : Type := {
  z_score : float;
  model_version : string;
}.

(** The constructor stores its two arguments; it has no [raise]. *)
Definition __init__ (z_score : float) (model_version : string) : result t :=
  Ok {| z_score := z_score; model_version := model_version |}.

Section Evaluate.
Context `{Builtins}.

(** [THRESHOLDS.get(model_version, THRESHOLDS["Z_double_prime"])]; the
    entry under ["Z_double_prime"] is [Z_double_prime_thresholds]. *)
Definition thresholds_of (model_version : string) : thresholds :=
  default Z_double_prime_thresholds (THRESHOLDS !! model_version).

Definition evaluate (self : t) : summary :=
  let t := thresholds_of (model_version self) in
  let '(zone, decision) :=
    if (z_score self >? safe t)%F then (ZONE_SAFE, APPROVED)
    else if (z_score self <? distress t)%F then (ZONE_DISTRESS, DENIED)
    else (ZONE_GREY, APPROVED_WARNING) in
  let label :=
    if bool_decide (model_version self = "Z") then "Z-Score" else "Z''-Score" in
  {| zone := zone;
     decision := decision;
     reasoning :=
       label ++ " = " ++ format_fixed 4 (z_score self) ++ " | " ++
       "Zona segura: >" ++ float_str (safe t) ++ " | " ++
       "Zona distress: <" ++ float_str (distress t) ++ " | " ++
       "Resultado: " ++ zone |}.

End Evaluate.
End ZScoreDecision.

Module MertonDecision.
Import Decision.

Definition PD_SAFE : float := lit 2 100.
Definition PD_DISTRESS : float := lit 5 100.

Record t : Type := { PD : float; DD : float }.

Definition __init__ (PD DD : float) : t := {| PD := PD; DD := DD |}.

Section Evaluate.
Context `{Builtins}.

Definition evaluate (self : t) : summary :=
  let '(zone, decision) :=
    if (PD self <? PD_SAFE)%F then (ZONE_SAFE, APPROVED)
    else if (PD self >? PD_DISTRESS)%F then (ZONE_DISTRESS, DENIED)
    else (ZONE_GREY, APPROVED_WARNING) in
  {| zone := zone;
     decision := decision;
     reasoning :=
       "PD = " ++ format_fixed 4 (PD self * of_Z 100)%F ++ "% | DD = " ++
       format_fixed 4 (DD self) ++ " | " ++
       "Umbral seguro: <" ++ format_fixed 0 (PD_SAFE * of_Z 100)%F ++ "% | " ++
       "Umbral distress: >" ++ format_fixed 0 (PD_DISTRESS * of_Z 100)%F ++ "% | " ++
       "Resultado: " ++ zone |}.

End Evaluate.
End MertonDecision.

(* ================================================================== *)
(** * The market-data provider

    What the code reads from [yfinance]: for one ticker, the [info]
    dict and two statements.  A statement is a [DataFrame], here the list
    of its columns, most recent first, each a [Series] from row label to
    value; all columns of one frame have the same labels. *)

Module YFinance.

Abbreviation Series := (gmap string float).
Abbreviation DataFrame := (list (gmap string float)).

(** The entries of [info] the code reads; [None] is an absent key. *)
Record Info : Type := {
  longName : option string;
  info_industry : option string;
  marketCap : option float;
}.

Record Ticker : Type := {
  info : Info;
  balance_sheet : option DataFrame;
  income_stmt : option DataFrame;
}.

(** [df.empty]: no column or no row. *)
Definition empty (df : DataFrame) : bool :=
  match df with
  | [] => true
  | latest :: _ => bool_decide (size latest = 0%nat)
  end.

(** [label in series.index] and [series[label]]. *)
Definition has_label (label : string) (s : Series) : bool :=
  bool_decide (is_Some (s !! label)).

Definition getitem (s : Series) (label : string) : result float :=
  match s !! label with
  | Some v => Ok v
  | None => Raise (KeyError label)
  end.

End YFinance.

(* ================================================================== *)
(** * base_fetcher.py and zscore_fetcher.py *)

Module ZScoreDataFetcher.
Import PyStr YFinance.

Definition REQUIRED_FIELDS : list string :=
  [ "total_assets"; "ebit"; "market_cap"; "total_liabilities"; "sales" ].

(** The attributes of the fetcher ([BaseDataFetcher] ones first). *)
Record t : Type := {
  ticker : string;
  company_name : string;
  sic_code : Z;
  industry : string;
  working_capital : float;
  total_assets : option float;
  retained_earnings : float;
  ebit : option float;
  market_cap : option float;
  total_liabilities : option float;
  sales : option float;
}.

Definition __init__ (ticker : string) : t :=
  {| ticker := strip (upper ticker);
     company_name := "";
     sic_code := (-1);
     industry := "";
     working_capital := zero;
     total_assets := None;
     retained_earnings := zero;
     ebit := None;
     market_cap := None;
     total_liabilities := None;
     sales := None |}.

(** The [data] dict built by [fetch_all]; a value [None] is Python's. *)
Abbreviation dict := (list (string * option float)).

Definition dict_get (data : dict) (key : string) : option float :=
  match list_find (fun kv => bool_decide (kv.1 = key)) data with
  | Some (_, (_, v)) => v
  | None => None
  end.

(** [BaseDataFetcher._validate_data]. *)
Definition _validate_data (self_ticker : string) (data : dict)
    (required_fields : list string) : result unit :=
  let missing :=
    List.filter (fun f => negb (bool_decide (is_Some (dict_get data f))))
      required_fields in
  match missing with
  | [] => Ok tt
  | _ =>
      Raise (ValueError
        ("[" ++ self_ticker ++ "] Campos faltantes: " ++ repr_list missing ++ ". " ++
         "Verifique que el ticker sea correcto y tenga estados financieros disponibles."))
  end.

Definition _fetch_company_info (self : t) (stock : Ticker) : t :=
  {| ticker := ticker self;
     company_name := default (ticker self) (longName (info stock));
     sic_code := sic_code self;
     industry := default "" (info_industry (info stock));
     working_capital := working_capital self;
     total_assets := total_assets self;
     retained_earnings := retained_earnings self;
     ebit := ebit self;
     market_cap := market_cap self;
     total_liabilities := total_liabilities self;
     sales := sales self |}.

Definition no_statement (self : t) (what : string) : exn :=
  ValueError ("[" ++ ticker self ++ "] No se encontró " ++ what ++ ".").

(** The first column of a statement that is neither [None] nor empty. *)
Definition latest_column (self : t) (what : string) (df : option DataFrame)
    : result Series :=
  match df with
  | None => Raise (no_statement self what)
  | Some df =>
      if empty df then Raise (no_statement self what)
      else match df with
           | latest :: _ => Ok latest
           | [] => Raise (no_statement self what)
           end
  end.

Definition _fetch_balance_sheet (self : t) (stock : Ticker) : result t :=
  latest ← latest_column self "balance sheet" (balance_sheet stock);
  ta ← getitem latest "Total Assets";
  tl ← getitem latest "Total Liabilities Net Minority Interest";
  wc ← (if has_label "Working Capital" latest then
          getitem latest "Working Capital"
        else if has_label "Current Assets" latest
                && has_label "Current Liabilities" latest then
          ca ← getitem latest "Current Assets";
          cl ← getitem latest "Current Liabilities";
          Ok (ca - cl)%F
        else Ok zero);
  re ← (if has_label "Retained Earnings" latest then
          getitem latest "Retained Earnings"
        else Ok zero);
  Ok {| ticker := ticker self;
        company_name := company_name self;
        sic_code := sic_code self;
        industry := industry self;
        working_capital := wc;
        total_assets := Some ta;
        retained_earnings := re;
        ebit := ebit self;
        market_cap := market_cap self;
        total_liabilities := Some tl;
        sales := sales self |}.

Definition _fetch_income_statement (self : t) (stock : Ticker) : result t :=
  latest ← latest_column self "income statement" (income_stmt stock);
  e ← (if has_label "EBIT" latest then getitem latest "EBIT"
       else if has_label "Operating Income" latest then
         getitem latest "Operating Income"
       else if has_label "Pretax Income" latest then
         getitem latest "Pretax Income"
       else Raise (ValueError ("[" ++ ticker self ++
                               "] No se encontró EBIT ni alternativa válida.")));
  s ← (if has_label "Total Revenue" latest then getitem latest "Total Revenue"
       else if has_label "Operating Revenue" latest then
         getitem latest "Operating Revenue"
       else Raise (ValueError ("[" ++ ticker self ++
                               "] No se encontró Total Revenue.")));
  Ok {| ticker := ticker self;
        company_name := company_name self;
        sic_code := sic_code self;
        industry := industry self;
        working_capital := working_capital self;
        total_assets := total_assets self;
        retained_earnings := retained_earnings self;
        ebit := Some e;
        market_cap := market_cap self;
        total_liabilities := total_liabilities self;
        sales := Some s |}.

(** [float(info.get("marketCap"))]: [float(None)] is a [TypeError]. *)
Definition _fetch_market_data (self : t) (stock : Ticker) : result t :=
  mc ← match marketCap (info stock) with
       | Some v => Ok v
       | None =>
           Raise (TypeError
             "float() argument must be a string or a real number, not 'NoneType'")
       end;
  Ok {| ticker := ticker self;
        company_name := company_name self;
        sic_code := sic_code self;
        industry := industry self;
        working_capital := working_capital self;
        total_assets := total_assets self;
        retained_earnings := retained_earnings self;
        ebit := ebit self;
        market_cap := Some mc;
        total_liabilities := total_liabilities self;
        sales := sales self |}.

Definition data_dict (self : t) : dict :=
  [ ("working_capital", Some (working_capital self));
    ("total_assets", total_assets self);
    ("retained_earnings", Some (retained_earnings self));
    ("ebit", ebit self);
    ("market_cap", market_cap self);
    ("total_liabilities", total_liabilities self);
    ("sales", sales self) ].

(** The validated dict as the record the calculators read.  The five
    entries that can be [None] have been checked by [_validate_data]; a
    [None] left among them would make the first division of the
    calculator raise the [TypeError] below. *)
Definition facts_of_dict (data : dict) : result FinancialFacts :=
  match dict_get data "working_capital", dict_get data "total_assets",
        dict_get data "retained_earnings", dict_get data "ebit",
        dict_get data "market_cap", dict_get data "total_liabilities",
        dict_get data "sales" with
  | Some wc, Some ta, Some re, Some e, Some mc, Some tl, Some s =>
      Ok (Build_FinancialFacts wc ta re e mc tl s)
  | _, _, _, _, _, _, _ =>
      Raise (TypeError "unsupported operand type(s) for /: 'float' and 'NoneType'")
  end.

(** [fetch_all], given what [yf.Ticker(self.ticker)] answers; returns the
    data and the fetcher, whose attributes the caller reads afterwards. *)
Definition fetch_all (self : t) (stock : Ticker) : result (FinancialFacts * t) :=
  let self := _fetch_company_info self stock in
  self ← _fetch_balance_sheet self stock;
  self ← _fetch_income_statement self stock;
  self ← _fetch_market_data self stock;
  let data := data_dict self in
  _validate_data (ticker self) data REQUIRED_FIELDS;;
  facts ← facts_of_dict data;
  Ok (facts, self).

End ZScoreDataFetcher.

(* ================================================================== *)
(** * risk_analyzer.py *)

(** What the outside world answers for a ticker: the provider's data
    read by the Z-Score fetcher, and the outcome of
    [MertonDataFetcher(ticker).fetch_all()] (its estimators rely on
    [numpy] and on a second provider call). *)
Record World : Type := {
  yf_Ticker : string -> YFinance.Ticker;
  merton_fetch_all : string -> result AssetDynamicsFacts;
}.

Module RiskAnalyzer.
Import PyStr Decision.

Record final_decision : Type := {
  fd_decision : string;
  fd_basis : string;
}.

Record zscore_block : Type := {
  zs_model_version : string;
  zs_ratios : ZScoreCalculator.ratios;
  zs_decision : summary;
}.

Record merton_block : Type := {
  applicable : bool;
  results : option MertonCalculator.outputs;
  m_decision : option summary;
}.

(** The dict returned by [run]. *)
Record analysis : Type := {
  a_ticker : string;
  a_company_name : string;
  a_industry : string;
  a_company_type : string;
  a_zscore : zscore_block;
  a_merton : merton_block;
  a_final_decision : final_decision;
}.

(** An element of the list returned by [analyze_multiple]: the dict of
    [run], or the dict with the keys [ticker] and [error]. *)
Inductive entry : Type :=
  | Analysis (a : analysis)
  | ErrorRecord (ticker : string) (error : string).

Record t : Type := { ticker : string }.

Definition __init__ (ticker : string) : t := {| ticker := strip (upper ticker) |}.

(** [_combine_decisions]; [merton_dec] is [None] when the Merton stage
    was skipped. *)
Definition _combine_decisions (z_dec : summary) (merton_dec : option summary)
  : final_decision :=
  match merton_dec with
  | None =>
      {| fd_decision := decision z_dec;
         fd_basis := "Z-Score únicamente (Merton no aplicable)" |}
  | Some m_dec =>
      let decisions : gset string := {[ decision z_dec; decision m_dec ]} in
      let final :=
        if decide ("DENIED" ∈ decisions) then "DENIED"
        else if decide (decisions = {[ "APPROVED" ]}) then "APPROVED"
        else "APPROVED WITH WARNING" in
      {| fd_decision := final;
         fd_basis := "Z-Score: " ++ decision z_dec ++ " | Merton: " ++ decision m_dec |}
  end.

Section Run.
Context `{Builtins} (world : World).

(** Steps 4 and 5 of [run]: the Merton data, model and decision. *)
Definition merton_stage (self : t)
    : result (MertonCalculator.outputs * summary) :=
  m_data ← merton_fetch_all world (ticker self);
  let m_calc := MertonCalculator.__init__ m_data in
  merton_results ← MertonCalculator.calculate m_calc;
  let m_dec_obj :=
    MertonDecision.__init__ (MertonCalculator.PD merton_results)
                            (MertonCalculator.DD merton_results) in
  Ok (merton_results, MertonDecision.evaluate m_dec_obj).

Definition run (self : t) : result analysis :=
  (* step 1 *)
  let z_fetcher := ZScoreDataFetcher.__init__ (ticker self) in
  '(z_data, z_fetcher) ←
    ZScoreDataFetcher.fetch_all z_fetcher
      (yf_Ticker world (ZScoreDataFetcher.ticker z_fetcher));
  (* step 2 *)
  let classifier :=
    CompanyClassifier.__init__ (Some (ZScoreDataFetcher.industry z_fetcher))
                               (total_liabilities z_data) in
  let '(company_type, classifier) := CompanyClassifier.classify classifier in
  let model_version := CompanyClassifier.get_model_version classifier in
  (* step 3 *)
  z_calc ← ZScoreCalculator.__init__ z_data model_version;
  z_results ← ZScoreCalculator.calculate z_calc;
  z_dec_obj ←
    ZScoreDecision.__init__ (ZScoreCalculator.z_score z_results) model_version;
  let z_dec := ZScoreDecision.evaluate z_dec_obj in
  (* steps 4 and 5 *)
  let merton_applicable := CompanyClassifier.get_merton_applicability classifier in
  '(merton_results, merton_dec) ←
    (if merton_applicable then
       '(r, d) ← merton_stage self; Ok (Some r, Some d)
     else Ok (None, None));
  Ok {| a_ticker := ticker self;
        a_company_name := ZScoreDataFetcher.company_name z_fetcher;
        a_industry := ZScoreDataFetcher.industry z_fetcher;
        a_company_type := company_type;
        a_zscore :=
          {| zs_model_version := model_version;
             zs_ratios := z_results;
             zs_decision := z_dec |};
        a_merton :=
          {| applicable := merton_applicable;
             results := merton_results;
             m_decision := merton_dec |};
        a_final_decision := _combine_decisions z_dec merton_dec |}.

(** One iteration of the loop of [analyze_multiple]: the [try] body
    appends the analysis, the [except Exception] clause the error dict. *)
Definition analyze_step (all_results : list entry) (ticker : string) : list entry :=
  match run (__init__ ticker) with
  | Ok r => all_results ++ [Analysis r]
  | Raise e => all_results ++ [ErrorRecord ticker (exn_str e)]
  end.

Definition analyze_multiple (tickers : list string) : list entry :=
  fold_left analyze_step tickers [].

End Run.
End RiskAnalyzer.

(* ================================================================== *)
(** * merton_fetcher.py *)

(** The fetcher of the Merton data indexes an array from its end, which
    raises an [IndexError] on an empty array: its outcomes are the
    exceptions above and that one. *)
Inductive exception : Type :=
  | Builtin (e : exn)
  | IndexError (msg : string).

Inductive attempt (A : Type) : Type :=
  | Returned (a : A)
  | Raised (e : exception).
Arguments Returned {A} a.
Arguments Raised {A} e.

#[global] Instance attempt_ret : MRet attempt := fun A a => Returned a.
#[global] Instance attempt_bind : MBind attempt := fun A B k r =>
  match r with
  | Returned a => k a
  | Raised e => Raised e
  end.

Definition lift {A : Type} (r : result A) : attempt A :=
  match r with
  | Ok a => Returned a
  | Raise e => Raised (Builtin e)
  end.

(** [numpy], as far as the fetcher uses it. *)
Class Numpy : Type := {
  (** [np.mean(xs)] and [np.std(xs, ddof=d)] on a list of floats. *)
  np_mean : list float -> float;
  np_std : list float -> nat -> float;
}.

(** What the fetcher reads of the provider.  The balance sheet comes
    with the labels of its columns, the closing dates (as day numbers,
    all different); a missing value of the frame is a NaN. *)
Module History.

Abbreviation DatedFrame := (list (Z * gmap string float)).
Abbreviation DatedSeries := (list (Z * float)).

Record Info : Type := {
  longName : option string;
  (** The SIC code, an integer when the provider has one. *)
  sic : option Z;
}.

Record Ticker : Type := {
  info : Info;
  balance_sheet : option DatedFrame;
}.

(** The entries of the [info] of [^TNX] that the fetcher reads. *)
Record Quote : Type := {
  regularMarketPrice : option float;
  previousClose : option float;
}.

(** The frame without the column labels, as [zscore_fetcher.py] reads it. *)
Definition undated (df : DatedFrame) : YFinance.DataFrame := map snd df.

Definition empty (df : DatedFrame) : bool := YFinance.empty (undated df).

(** [df.loc[label]]: the row of the label, a series indexed by date. *)
Fixpoint loc (df : DatedFrame) (label : string) : result DatedSeries :=
  match df with
  | [] => Ok []
  | (date, column) :: df' =>
      v ← YFinance.getitem column label;
      row ← loc df' label;
      Ok ((date, v) :: row)
  end.

(** [series.dropna()]. *)
Definition dropna (s : DatedSeries) : DatedSeries :=
  List.filter (fun dv => negb (is_nan dv.2)) s.

(** [series.sort_index()]: by date, oldest first. *)
Fixpoint insert_by_date (x : Z * float) (s : DatedSeries) : DatedSeries :=
  match s with
  | [] => [x]
  | y :: s' => if (x.1 <=? y.1)%Z then x :: s else y :: insert_by_date x s'
  end.

Definition sort_index (s : DatedSeries) : DatedSeries :=
  foldr insert_by_date [] s.

(** [series.values]. *)
Definition values (s : DatedSeries) : list float := map snd s.

End History.

Module MertonDataFetcher.
Import PyStr History.

Definition MIN_YEARS_WARNING : nat := 3.
Definition MIN_YEARS_ERROR : nat := 2.

(** The attributes of the fetcher ([BaseDataFetcher] ones first). *)
Record t : Type := {
  ticker : string;
  company_name : string;
  sic_code : Z;
  V_A : float;
  D : float;
  mu : float;
  sigma : float;
  risk_free_rate : float;
  T : float;
  n_years_used : nat;
  assets_history : list float;
}.

Definition __init__ (ticker : string) : t :=
  {| ticker := strip (upper ticker);
     company_name := "";
     sic_code := (-1);
     V_A := zero;
     D := zero;
     mu := zero;
     sigma := zero;
     risk_free_rate := zero;
     T := one;
     n_years_used := 0;
     assets_history := [] |}.

(** [int(info.get("sic", -1)) if info.get("sic") else -1]: an absent
    code and the code 0 both give -1. *)
Definition _fetch_company_info (self : t) (stock : Ticker) : t :=
  {| ticker := ticker self;
     company_name := default (ticker self) (longName (info stock));
     sic_code := match sic (info stock) with
                 | Some n => if (n =? 0)%Z then (-1)%Z else n
                 | None => (-1)%Z
                 end;
     V_A := V_A self;
     D := D self;
     mu := mu self;
     sigma := sigma self;
     risk_free_rate := risk_free_rate self;
     T := T self;
     n_years_used := n_years_used self;
     assets_history := assets_history self |}.

(** [str(n)] of a natural number. *)
Definition str_nat (n : nat) : string := NilZero.string_of_uint (Nat.to_uint n).

Definition no_balance_sheet (self : t) : exn :=
  ValueError ("[" ++ ticker self ++ "] No se encontró balance sheet.").

Definition too_few_years (self : t) (n_years_used : nat) : exn :=
  ValueError ("[" ++ ticker self ++ "] Solo " ++ str_nat n_years_used ++
              " años disponibles. " ++
              "Mínimo requerido: " ++ str_nat MIN_YEARS_ERROR ++ ".").

(** [xs[-1]] on a list and on an array. *)
Definition list_last (xs : list float) : attempt float :=
  match last xs with
  | Some v => Returned v
  | None => Raised (IndexError "list index out of range")
  end.

Definition array_last (xs : list float) : attempt float :=
  match last xs with
  | Some v => Returned v
  | None => Raised (IndexError "index -1 is out of bounds for axis 0 with size 0")
  end.

(** The history and the number of years are set before the check of
    the number of years; the fetcher being local to [run], what it holds
    when it raises is seen by nobody, and the model keeps the attributes
    of a fetcher that returns only. *)
Definition _fetch_historical_balance (self : t) (stock : Ticker) : attempt t :=
  match balance_sheet stock with
  | None => Raised (Builtin (no_balance_sheet self))
  | Some bs =>
      if empty bs then Raised (Builtin (no_balance_sheet self))
      else
        assets_row ← lift (loc bs "Total Assets");
        let assets_series := sort_index (dropna assets_row) in
        liab_row ← lift (loc bs "Total Liabilities Net Minority Interest");
        let liab_series := sort_index (dropna liab_row) in
        let assets_history := values assets_series in
        let n_years_used := length assets_history in
        if (n_years_used <? MIN_YEARS_ERROR)%nat then
          Raised (Builtin (too_few_years self n_years_used))
        else
          V_A' ← list_last assets_history;
          D' ← array_last (values liab_series);
          Returned
            {| ticker := ticker self;
               company_name := company_name self;
               sic_code := sic_code self;
               V_A := V_A';
               D := D';
               mu := mu self;
               sigma := sigma self;
               risk_free_rate := risk_free_rate self;
               T := T self;
               n_years_used := n_years_used;
               assets_history := assets_history |}
  end.

(** The loop of [_calculate_mu_and_sigma]: one relative variation for
    every year whose predecessor is not zero. *)
Fixpoint pct_changes (assets : list float) : result (list float) :=
  match assets with
  | prev :: ((curr :: _) as rest) =>
      if (prev == zero)%F then pct_changes rest
      else
        p ← truediv (curr - prev)%F (SFabs prev);
        ps ← pct_changes rest;
        Ok (p :: ps)
  | _ => Ok []
  end.

Definition no_variations : exn :=
  ValueError "No hay suficientes variaciones para calcular μ y σ.".

Definition _calculate_mu_and_sigma `{Numpy} (self : t) : attempt t :=
  pct ← lift (pct_changes (assets_history self));
  if (length pct <? 1)%nat then Raised (Builtin no_variations)
  else
    sigma' ← (if (1 <? length pct)%nat then Returned (np_std pct 1)
              else match pct with
                   | p :: _ => Returned (SFabs p)
                   | [] => Raised (IndexError "list index out of range")
                   end);
    Returned
      {| ticker := ticker self;
         company_name := company_name self;
         sic_code := sic_code self;
         V_A := V_A self;
         D := D self;
         mu := np_mean pct;
         sigma := sigma';
         risk_free_rate := risk_free_rate self;
         T := T self;
         n_years_used := n_years_used self;
         assets_history := assets_history self |}.

(** The truth value of a price that may be [None], and [a or b]. *)
Definition truthy (v : option float) : bool :=
  match v with
  | Some x => negb (x == zero)%F
  | None => false
  end.

Definition or_else (a b : option float) : option float :=
  if truthy a then a else b.

(** The body of the [try] of [_fetch_risk_free_rate]; [tnx] is what
    [yf.Ticker("^TNX").info] answers, or the exception it raises. *)
Definition tnx_rate (tnx : result Quote) : result float :=
  info ← tnx;
  let rate := or_else (regularMarketPrice info) (previousClose info) in
  match rate with
  | Some r =>
      if truthy rate then truediv r (of_Z 100)
      else Raise (ValueError "^TNX no retornó precio.")
  | None => Raise (ValueError "^TNX no retornó precio.")
  end.

Definition _fetch_risk_free_rate (self : t) (tnx : result Quote) : t :=
  {| ticker := ticker self;
     company_name := company_name self;
     sic_code := sic_code self;
     V_A := V_A self;
     D := D self;
     mu := mu self;
     sigma := sigma self;
     risk_free_rate := match tnx_rate tnx with
                       | Ok r => r
                       | Raise _ => lit 4 100
                       end;
     T := T self;
     n_years_used := n_years_used self;
     assets_history := assets_history self |}.

Definition data_dict (self : t) : list (string * option float) :=
  [ ("V_A", Some (V_A self));
    ("D", Some (D self));
    ("mu", Some (mu self));
    ("sigma", Some (sigma self));
    ("risk_free_rate", Some (risk_free_rate self));
    ("T", Some (T self)) ].

(** [fetch_all], given what the provider answers for the ticker and for
    [^TNX]; returns the data and the fetcher, whose [n_years_used] the
    caller reads afterwards. *)
Definition fetch_all `{Numpy} (self : t) (stock : Ticker) (tnx : result Quote)
  : attempt (AssetDynamicsFacts * t) :=
  let self := _fetch_company_info self stock in
  self ← _fetch_historical_balance self stock;
  self ← _calculate_mu_and_sigma self;
  let self := _fetch_risk_free_rate self tnx in
  let data := data_dict self in
  lift (ZScoreDataFetcher._validate_data (ticker self) data (map fst data));;
  Returned (Build_AssetDynamicsFacts (V_A self) (D self) (mu self) (sigma self)
              (risk_free_rate self) (T self), self).

End MertonDataFetcher.

(* ================================================================== *)
(** * main.py *)

Module Main.
Import PyStr RiskAnalyzer.

(** [s.replace(old, new)] for one-character [old] and [new]. *)
Fixpoint str_replace (old new : ascii) (s : string) : string :=
  match s with
  | EmptyString => EmptyString
  | String c s' =>
      String (if Ascii.eqb c old then new else c) (str_replace old new s')
  end.

(** [s.split()] on ASCII text: the maximal runs without white space;
    [word] is the run being read. *)
Fixpoint split_from (word s : string) : list string :=
  match s with
  | EmptyString => if bool_decide (word = "") then [] else [word]
  | String c s' =>
      if is_whitespace c then
        if bool_decide (word = "") then split_from "" s'
        else word :: split_from "" s'
      else split_from (word ++ String c "") s'
  end.

Definition str_split (s : string) : list string := split_from "" s.

(** [get_tickers_interactively], given the line that [input] returns,
    ASCII text. *)
Definition get_tickers_interactively (line : string) : result (list string) :=
  let raw := strip line in
  if bool_decide (raw = "") then
    Raise (ValueError "Debes ingresar al menos un ticker.")
  else
    Ok (map (fun t => upper (strip t))
          (List.filter (fun t => negb (bool_decide (strip t = "")))
             (str_split (str_replace "," " " raw)))).

(** The tickers of [main]: those of the command line when there are
    any, otherwise those typed in. *)
Definition tickers_of (args_tickers : option (list string)) (line : string)
  : result (list string) :=
  match args_tickers with
  | Some (t :: ts) => Ok (t :: ts)
  | _ => get_tickers_interactively line
  end.

(** [results_list] of [main]: a single ticker is run directly, several go
    through [analyze_multiple]. *)
Definition results_list `{Builtins} (world : World) (tickers : list string)
  : result (list entry) :=
  match tickers with
  | [t] => r ← run world (__init__ t); Ok [Analysis r]
  | _ => Ok (analyze_multiple world tickers)
  end.

End Main.

(* ================================================================== *)
(** * report_generator.py: the tables of the report

    The report prints and draws; what it decides from its input are
    three look-ups: the colour of a decision on the console, the colour
    of the panel of the final decision, and the thresholds of the gauge
    of the Z-Score. *)

Module ReportGenerator.

Definition ESC : string := String (ascii_of_nat 27) "".

Definition GREEN : string := ESC +:+ "[92m".
Definition YELLOW : string := ESC +:+ "[93m".
Definition RED : string := ESC +:+ "[91m".
Definition RESET : string := ESC +:+ "[0m".

Definition DECISION_COLORS : gmap string string :=
  {[ "APPROVED" := GREEN;
     "APPROVED WITH WARNING" := YELLOW;
     "DENIED" := RED ]}.

(** [DECISION_COLORS.get(decision, "")] of [generate_console]. *)
Definition console_color (decision : string) : string :=
  default "" (DECISION_COLORS !! decision).

(** [color_map] and [bg_color] of [_plot_final_decision]. *)
Definition color_map : gmap string string :=
  {[ "APPROVED" := "#27ae60";
     "APPROVED WITH WARNING" := "#f39c12";
     "DENIED" := "#e74c3c" ]}.

Definition bg_color (decision : string) : string :=
  default "#7f8c8d" (color_map !! decision).

(** [thresholds] and [(t_low, t_high)] of [_plot_zscore_gauge]. *)
Definition gauge_thresholds : gmap string (float * float) :=
  {[ "Z" := (lit 181 100, lit 299 100);
     "Z_double_prime" := (lit 110 100, lit 260 100) ]}.

Definition gauge_limits (mv : string) : float * float :=
  default (lit 110 100, lit 260 100) (gauge_thresholds !! mv).

(** [merton_ok] and [n_rows] of [generate_charts]. *)
Definition merton_ok (r : RiskAnalyzer.analysis) : bool :=
  RiskAnalyzer.applicable (RiskAnalyzer.a_merton r)
  && bool_decide (is_Some (RiskAnalyzer.results (RiskAnalyzer.a_merton r))).

Definition n_rows (r : RiskAnalyzer.analysis) : nat :=
  if merton_ok r then 3 else 2.

End ReportGenerator.

(* ================================================================== *)
(** * An executable implementation of the built-ins

    [round] and the fixed-point format are computed from the exact value
    of the float: the decimal is rounded half-to-even and, for [round],
    converted back to the nearest float.  [str] is the shortest decimal
    that reads back as the same float, in positional notation.  [x ** 2]
    is computed as the correctly rounded product [x * x], which the C
    [pow] behind Python's operator returns on the inputs of the examples
    but not on every input.  [lower] is the mapping of the ASCII
    letters.  No approximation of [log] or [erf] is programmed here:
    their values are supplied by whoever runs the model.  No statement
    below depends on this module except the examples that name it. *)

Module Reference.

(** [p / q] rounded to the nearest integer, ties to even ([0 <= p], [0 < q]). *)
Definition div_half_even (p q : Z) : Z :=
  let d := (p / q)%Z in
  match (2 * (p mod q) ?= q)%Z with
  | Lt => d
  | Gt => (d + 1)%Z
  | Eq => if Z.even d then d else (d + 1)%Z
  end.

(** [m * 2^e * 10^n] rounded to an integer. *)
Definition scaled_digits (m : positive) (e n : Z) : Z :=
  if (0 <=? e)%Z then (Zpos m * 2 ^ e * 10 ^ n)%Z
  else div_half_even (Zpos m * 10 ^ n) (2 ^ (- e)).

(** The float nearest to [k / 10^n], with sign [s]. *)
Definition of_decimal (s : bool) (k n : Z) : float :=
  match k, (10 ^ n)%Z with
  | Zpos k', Zpos d => SFdiv prec emax (S754_finite s k' 0) (S754_finite false d 0)
  | _, _ => S754_zero s
  end.

Definition py_round (x : float) (n : Z) : float :=
  match x with
  | S754_finite s m e => of_decimal s (scaled_digits m e n) n
  | _ => x
  end.

Definition digits_of (k : Z) : string := NilZero.string_of_uint (N.to_uint (Z.to_N k)).

Fixpoint zeros (n : nat) : string :=
  match n with
  | O => ""
  | S n' => String "0" (zeros n')
  end.

Definition fixed_digits (s : bool) (k : Z) (n : nat) : string :=
  (if s then "-" else "") ++ digits_of (k / 10 ^ Z.of_nat n) ++
  match n with
  | O => ""
  | _ =>
      let frac := digits_of (k mod 10 ^ Z.of_nat n) in
      "." ++ zeros (n - String.length frac) ++ frac
  end.

Definition py_format_fixed (n : nat) (x : float) : string :=
  match x with
  | S754_nan => "nan"
  | S754_infinity s => if s then "-inf" else "inf"
  | S754_zero s => fixed_digits s 0 n
  | S754_finite s m e => fixed_digits s (scaled_digits m e (Z.of_nat n)) n
  end.

Fixpoint shortest_fixed (fuel n : nat) (x : float) : string :=
  match fuel, x with
  | S fuel', S754_finite s m e =>
      if SFeqb (of_decimal s (scaled_digits m e (Z.of_nat n)) (Z.of_nat n)) x
      then py_format_fixed n x
      else shortest_fixed fuel' (S n) x
  | _, _ => py_format_fixed n x
  end.

Definition py_float_str (x : float) : string := shortest_fixed 20 1 x.

Definition square (x _ : float) : float := (x * x)%F.

(** The built-ins, given the values that [log] and [erf] return on the
    one call a run makes to each. *)
Definition builtins_with (log_value erf_value : float) : Builtins :=
  {| round := py_round;
     libm_log := fun _ => log_value;
     libm_erf := fun _ => erf_value;
     libm_pow := square;
     format_fixed := py_format_fixed;
     float_str := py_float_str;
     lower := PyStr.lower_ascii_text;
     lower_ascii_text_eq := fun s _ => eq_refl |}.

Definition builtins : Builtins := builtins_with zero zero.

End Reference.

(* ================================================================== *)
(** * Vocabulary of the statements *)

(** Two floats are the same number when they are identical or compare
    equal under [==] (which identifies the two zeros). *)
Definition same_number (a b : float) : Prop := a = b \/ (a == b)%F = true.

(** Floats in the interval from 0 to [2^K], by mantissa and exponent. *)
Definition in_unit (K : Z) (x : spec_float) : Prop :=
  match x with
  | S754_zero _ => True
  | S754_finite false m e => (Zpos m <= 2 ^ (K - e))%Z /\ (e <= K - 52)%Z
  | _ => False
  end.

(** The Z-Score computation: construction for a variant, then [calculate]. *)
Definition zscore_compute `{Builtins} (facts : FinancialFacts) (variant : string)
  : result ZScoreCalculator.ratios :=
  self ← ZScoreCalculator.__init__ facts variant; ZScoreCalculator.calculate self.

(** The three errors raised by the precondition checks of the Merton
    calculator. *)
Definition D_error : exn := ValueError "D (pasivos) debe ser mayor que 0.".
Definition V_A_error : exn := ValueError "V_A (activos) debe ser mayor que 0.".
Definition sigma_error : exn := ValueError "σ debe ser mayor que 0.".

Definition precondition_error (e : exn) : Prop :=
  e = D_error \/ e = V_A_error \/ e = sigma_error.

(** The errors that the arithmetic of the Merton formula can raise. *)
Definition arithmetic_error (e : exn) : Prop :=
  e = ZeroDivisionError "float division by zero"
  \/ e = PyMath.math_domain_error
  \/ e = OverflowError "(34, 'Numerical result out of range')".

(** The zone and the decision of a summary follow the three-way rule
    with the tests [is_safe] and [is_distress]. *)
Definition three_zones (s : Decision.summary) (is_safe is_distress : bool) : Prop :=
  (Decision.zone s = Decision.ZONE_SAFE <-> is_safe = true)
  /\ (Decision.zone s = Decision.ZONE_DISTRESS <-> is_distress = true)
  /\ (Decision.zone s = Decision.ZONE_GREY
      <-> is_safe = false /\ is_distress = false)
  /\ (Decision.decision s = Decision.APPROVED
      <-> Decision.zone s = Decision.ZONE_SAFE)
  /\ (Decision.decision s = Decision.APPROVED_WARNING
      <-> Decision.zone s = Decision.ZONE_GREY)
  /\ (Decision.decision s = Decision.DENIED
      <-> Decision.zone s = Decision.ZONE_DISTRESS).

(** [kw] occurs in [s]: [s] is some text, then [kw], then some text. *)
Definition occurs_in (kw s : string) : Prop :=
  exists pre post : string, s = (pre ++ kw ++ post)%string.

(** [s] contains one of the keywords. *)
Definition mentions (keywords : list string) (s : string) : Prop :=
  exists kw, In kw keywords /\ occurs_in kw s.

(** The outcome of classification: the company type returned by
    [classify] and the model version read afterwards. *)
Definition classification `{Builtins} (industry : option string) (tl : float)
  : string * string :=
  let '(ty, self) :=
    CompanyClassifier.classify (CompanyClassifier.__init__ industry tl) in
  (ty, CompanyClassifier.get_model_version self).

(** The latest column of a statement that is present and not empty. *)
Definition statement (df : option (list (gmap string float)))
  : option (gmap string float) :=
  match df with
  | Some (latest :: _) => if bool_decide (size latest = 0%nat) then None else Some latest
  | _ => None
  end.

(** The statement has a row with this label. *)
Definition has_row (df : option (list (gmap string float))) (label : string) : Prop :=
  exists latest, statement df = Some latest /\ is_Some (latest !! label).

(** The provider's data from which the five required fields are read:
    total assets, total liabilities, EBIT or one of its two substitutes,
    revenue or its substitute, and the market capitalisation. *)
Definition required_available (stock : YFinance.Ticker) : Prop :=
  has_row (YFinance.balance_sheet stock) "Total Assets"
  /\ has_row (YFinance.balance_sheet stock) "Total Liabilities Net Minority Interest"
  /\ (has_row (YFinance.income_stmt stock) "EBIT"
      \/ has_row (YFinance.income_stmt stock) "Operating Income"
      \/ has_row (YFinance.income_stmt stock) "Pretax Income")
  /\ (has_row (YFinance.income_stmt stock) "Total Revenue"
      \/ has_row (YFinance.income_stmt stock) "Operating Revenue")
  /\ is_Some (YFinance.marketCap (YFinance.info stock)).

(** The values the fetcher takes from the two statements. *)
Definition working_capital_of (bs : gmap string float) : float :=
  match bs !! "Working Capital", bs !! "Current Assets", bs !! "Current Liabilities" with
  | Some v, _, _ => v
  | None, Some ca, Some cl => (ca - cl)%F
  | None, _, _ => zero
  end.

Definition retained_earnings_of (bs : gmap string float) : float :=
  default zero (bs !! "Retained Earnings").

Definition ebit_of (inc : gmap string float) : option float :=
  match inc !! "EBIT", inc !! "Operating Income", inc !! "Pretax Income" with
  | Some v, _, _ | None, Some v, _ | None, None, Some v => Some v
  | None, None, None => None
  end.

Definition sales_of (inc : gmap string float) : option float :=
  match inc !! "Total Revenue", inc !! "Operating Revenue" with
  | Some v, _ | None, Some v => Some v
  | None, None => None
  end.

(** The data the fetcher hands over, when it hands over any. *)
Definition fetched (stock : YFinance.Ticker) : option FinancialFacts :=
  bs ← statement (YFinance.balance_sheet stock);
  ta ← bs !! "Total Assets";
  tl ← bs !! "Total Liabilities Net Minority Interest";
  inc ← statement (YFinance.income_stmt stock);
  e ← ebit_of inc;
  s ← sales_of inc;
  mc ← YFinance.marketCap (YFinance.info stock);
  Some {| working_capital := working_capital_of bs;
          total_assets := ta;
          retained_earnings := retained_earnings_of bs;
          ebit := e;
          market_cap := mc;
          total_liabilities := tl;
          sales := s |}.

(** What the batch records for one ticker. *)
Definition outcome `{Builtins} (world : World) (ticker : string)
  : RiskAnalyzer.entry :=
  match RiskAnalyzer.run world (RiskAnalyzer.__init__ ticker) with
  | Ok r => RiskAnalyzer.Analysis r
  | Raise e => RiskAnalyzer.ErrorRecord ticker (exn_str e)
  end.

Fixpoint every_char (P : ascii -> bool) (s : string) : bool :=
  match s with
  | EmptyString => true
  | String c s' => P c && every_char P s'
  end.

Definition ascii_char (c : ascii) : bool := (N_of_ascii c <? 128)%N.

(** A character of a normalised ticker: an ASCII character that is
    neither white space, nor a comma, nor a lower-case letter. *)
Definition ticker_char (c : ascii) : bool :=
  ascii_char c && negb (PyStr.is_whitespace c) && negb (Ascii.eqb c ",")
  && bool_decide (PyStr.upper_ascii c = c).

Definition ticker_like (t : string) : Prop :=
  t <> "" /\ every_char ticker_char t = true.

(** A string that does not begin with white space. *)
Definition starts_clean (s : string) : Prop :=
  match s with
  | EmptyString => True
  | String c _ => PyStr.is_whitespace c = false
  end.

(** How severe a decision is: 0 for APPROVED, 1 for APPROVED WITH
    WARNING, 2 for DENIED. *)
Definition decision_rank (decision : string) : nat :=
  if bool_decide (decision = Decision.APPROVED) then 0
  else if bool_decide (decision = Decision.APPROVED_WARNING) then 1
  else 2.

Definition is_decision (decision : string) : Prop :=
  decision = Decision.APPROVED \/ decision = Decision.APPROVED_WARNING
  \/ decision = Decision.DENIED.

(** The attributes of the Z-Score fetcher after a [fetch_all] that has
    handed over [facts]. *)
Definition fetcher_after (self : ZScoreDataFetcher.t) (stock : YFinance.Ticker)
    (facts : FinancialFacts) : ZScoreDataFetcher.t :=
  {| ZScoreDataFetcher.ticker := ZScoreDataFetcher.ticker self;
     ZScoreDataFetcher.company_name :=
       default (ZScoreDataFetcher.ticker self) (YFinance.longName (YFinance.info stock));
     ZScoreDataFetcher.sic_code := ZScoreDataFetcher.sic_code self;
     ZScoreDataFetcher.industry :=
       default "" (YFinance.info_industry (YFinance.info stock));
     ZScoreDataFetcher.working_capital := working_capital facts;
     ZScoreDataFetcher.total_assets := Some (total_assets facts);
     ZScoreDataFetcher.retained_earnings := retained_earnings facts;
     ZScoreDataFetcher.ebit := Some (ebit facts);
     ZScoreDataFetcher.market_cap := Some (market_cap facts);
     ZScoreDataFetcher.total_liabilities := Some (total_liabilities facts);
     ZScoreDataFetcher.sales := Some (sales facts) |}.

(** The error of [fetch_all] for the first thing it cannot read. *)
Definition first_gap (ticker : string) (stock : YFinance.Ticker) : option exn :=
  match statement (YFinance.balance_sheet stock) with
  | None => Some (ValueError ("[" +:+ ticker +:+ "] No se encontró balance sheet."))
  | Some bs =>
      if bool_decide (bs !! "Total Assets" = None) then
        Some (KeyError "Total Assets")
      else if bool_decide (bs !! "Total Liabilities Net Minority Interest" = None) then
        Some (KeyError "Total Liabilities Net Minority Interest")
      else
        match statement (YFinance.income_stmt stock) with
        | None =>
            Some (ValueError ("[" +:+ ticker +:+ "] No se encontró income statement."))
        | Some inc =>
            if bool_decide (ebit_of inc = None) then
              Some (ValueError ("[" +:+ ticker +:+
                                "] No se encontró EBIT ni alternativa válida."))
            else if bool_decide (sales_of inc = None) then
              Some (ValueError ("[" +:+ ticker +:+ "] No se encontró Total Revenue."))
            else if bool_decide (YFinance.marketCap (YFinance.info stock) = None) then
              Some (TypeError
                "float() argument must be a string or a real number, not 'NoneType'")
            else None
        end
  end.

(** [v] is what the latest column of [bs] that has a value under [label]
    has there; a NaN is no value. *)
Definition latest_value (bs : History.DatedFrame) (label : string) (v : float)
  : Prop :=
  is_nan v = false
  /\ exists (date : Z) (column : gmap string float),
       In (date, column) bs /\ column !! label = Some v
       /\ forall (date' : Z) (column' : gmap string float) (v' : float),
            In (date', column') bs -> column' !! label = Some v' ->
            is_nan v' = false -> (date' <= date)%Z.

(** The dated values of [bs] under [label] that are not NaN, in the
    order of the columns. *)
Definition valued_years (bs : History.DatedFrame) (label : string)
  : History.DatedSeries :=
  omap (fun dc => match dc.2 !! label with
                  | Some v => if is_nan v then None else Some (dc.1, v)
                  | None => None
                  end) bs.

(** The number of columns of [bs] that have a value under [label]. *)
Definition years_available (bs : History.DatedFrame) (label : string) : nat :=
  length (List.filter
            (fun dc => match dc.2 !! label with
                       | Some v => negb (is_nan v)
                       | None => false
                       end) bs).

(** A series in the order of its dates. *)
Fixpoint ascending (s : History.DatedSeries) : Prop :=
  match s with
  | [] => True
  | x :: s' => (forall y, In y s' -> (x.1 <= y.1)%Z) /\ ascending s'
  end.

(** Some column of [bs] has no entry under [label]. *)
Definition row_missing (bs : History.DatedFrame) (label : string) : bool :=
  existsb (fun dc => match dc.2 !! label with Some _ => false | None => true end) bs.

(** The error of [_fetch_historical_balance] for the first thing it
    lacks. *)
Definition history_gap (self : MertonDataFetcher.t) (stock : History.Ticker)
  : option exception :=
  match History.balance_sheet stock with
  | None => Some (Builtin (MertonDataFetcher.no_balance_sheet self))
  | Some bs =>
      if History.empty bs then Some (Builtin (MertonDataFetcher.no_balance_sheet self))
      else if row_missing bs "Total Assets" then
        Some (Builtin (KeyError "Total Assets"))
      else if row_missing bs "Total Liabilities Net Minority Interest" then
        Some (Builtin (KeyError "Total Liabilities Net Minority Interest"))
      else if (years_available bs "Total Assets" <? 2)%nat then
        Some (Builtin (MertonDataFetcher.too_few_years self
                         (years_available bs "Total Assets")))
      else if (years_available bs "Total Liabilities Net Minority Interest" =? 0)%nat
      then Some (IndexError "index -1 is out of bounds for axis 0 with size 0")
      else None
  end.

(** The relative variations of a history: one for every two consecutive
    years of which the first is not zero, in the order of the years. *)
Definition variations (assets : list float) : list float :=
  map (fun pc => ((pc.2 - pc.1) / SFabs pc.1)%F)
    (List.filter (fun pc => negb (pc.1 == zero)%F) (zip assets (tail assets))).

(** The fetcher with new estimates of the drift and the volatility. *)
Definition with_estimates (self : MertonDataFetcher.t) (mu' sigma' : float)
  : MertonDataFetcher.t :=
  {| MertonDataFetcher.ticker := MertonDataFetcher.ticker self;
     MertonDataFetcher.company_name := MertonDataFetcher.company_name self;
     MertonDataFetcher.sic_code := MertonDataFetcher.sic_code self;
     MertonDataFetcher.V_A := MertonDataFetcher.V_A self;
     MertonDataFetcher.D := MertonDataFetcher.D self;
     MertonDataFetcher.mu := mu';
     MertonDataFetcher.sigma := sigma';
     MertonDataFetcher.risk_free_rate := MertonDataFetcher.risk_free_rate self;
     MertonDataFetcher.T := MertonDataFetcher.T self;
     MertonDataFetcher.n_years_used := MertonDataFetcher.n_years_used self;
     MertonDataFetcher.assets_history := MertonDataFetcher.assets_history self |}.



(* ================================================================== *)
(** * Sample data *)

Definition sample_facts : FinancialFacts :=
  {| working_capital := of_Z 250; total_assets := of_Z 1000;
     retained_earnings := of_Z 400; ebit := of_Z 150;
     market_cap := of_Z 1800; total_liabilities := of_Z 600;
     sales := of_Z 1200 |}.

(** A company whose balance sheet has neither working capital, current
    assets and liabilities, nor retained earnings. *)
Definition bare_balance_sheet : gmap string float :=
  {[ "Total Assets" := of_Z 1000;
     "Total Liabilities Net Minority Interest" := of_Z 600 ]}.

Definition bare_income_statement : gmap string float :=
  {[ "EBIT" := of_Z 150; "Total Revenue" := of_Z 1200 ]}.

Definition bare_stock : YFinance.Ticker :=
  {| YFinance.info :=
       {| YFinance.longName := Some "Acme Corp";
          YFinance.info_industry := Some "Steel";
          YFinance.marketCap := Some (of_Z 1800) |};
     YFinance.balance_sheet := Some [bare_balance_sheet];
     YFinance.income_stmt := Some [bare_income_statement] |}.

(** The same company without a market capitalisation. *)
Definition unlisted_stock : YFinance.Ticker :=
  {| YFinance.info :=
       {| YFinance.longName := Some "Acme Corp";
          YFinance.info_industry := Some "Steel";
          YFinance.marketCap := None |};
     YFinance.balance_sheet := Some [bare_balance_sheet];
     YFinance.income_stmt := Some [bare_income_statement] |}.

(** A company with negative total liabilities. *)
Definition shell_stock : YFinance.Ticker :=
  {| YFinance.info :=
       {| YFinance.longName := Some "Shell Holdings";
          YFinance.info_industry := Some "Auto Insurance";
          YFinance.marketCap := Some (of_Z 1800) |};
     YFinance.balance_sheet :=
       Some [ {[ "Total Assets" := of_Z 1000;
                 "Total Liabilities Net Minority Interest" := of_Z (-600);
                 "Working Capital" := of_Z 250;
                 "Retained Earnings" := of_Z 400 ]} ];
     YFinance.income_stmt := Some [bare_income_statement] |}.

(** A provider that knows three tickers: SHELL, NOCAP (the unlisted
    company) and, under every other name, the bare company; the Merton
    data are the same for all. *)
Definition sample_world : World :=
  {| yf_Ticker := fun ticker =>
       if bool_decide (ticker = "SHELL") then shell_stock
       else if bool_decide (ticker = "NOCAP") then unlisted_stock
       else bare_stock;
     merton_fetch_all := fun _ =>
       Ok {| V_A := of_Z 1000; D := of_Z 600; mu := lit 5 100;
             sigma := lit 20 100; risk_free_rate := lit 4 100; T := of_Z 1 |} |}.

(** The example of the specification: V_A = D, mu = 0, sigma = 0.3 and
    T = 1, where [log] returns 0.0 and [erf] the float
    -0.11923538474048502. *)
Definition par_facts : AssetDynamicsFacts :=
  {| V_A := of_Z 1000; D := of_Z 1000; mu := zero; sigma := lit 3 10;
     risk_free_rate := lit 4 100; T := of_Z 1 |}.

Definition par_builtins : Builtins :=
  Reference.builtins_with zero (S754_finite true 8591814948586017 (-56)).

(** The inputs V_A = 1000, D = 600, sigma = 0.2 at the horizon T = 0. *)
Definition zero_horizon_facts : AssetDynamicsFacts :=
  {| V_A := of_Z 1000; D := of_Z 600; mu := lit 5 100; sigma := lit 2 10;
     risk_free_rate := lit 4 100; T := zero |}.

(** Two years of a balance sheet, the later one listed first (the
    dates are days since 1970). *)
Definition sample_frame : History.DatedFrame :=
  [ (19722%Z, {[ "Total Assets" := of_Z 1000;
                 "Total Liabilities Net Minority Interest" := of_Z 600 ]});
    (19357%Z, {[ "Total Assets" := of_Z 800;
                 "Total Liabilities Net Minority Interest" := of_Z 500 ]}) ].

Definition sample_history : History.Ticker :=
  {| History.info := {| History.longName := Some "Acme Corp"; History.sic := None |};
     History.balance_sheet := Some sample_frame |}.

(** The same balance sheet as the Z-Score fetcher sees it. *)
Definition sample_stock : YFinance.Ticker :=
  {| YFinance.info :=
       {| YFinance.longName := Some "Acme Corp";
          YFinance.info_industry := Some "Steel";
          YFinance.marketCap := Some (of_Z 1800) |};
     YFinance.balance_sheet := Some (History.undated sample_frame);
     YFinance.income_stmt := Some [bare_income_statement] |}.

(** The Merton fetcher after it has read that balance sheet. *)
Definition sample_balance_fetcher : MertonDataFetcher.t :=
  {| MertonDataFetcher.ticker := "ACME";
     MertonDataFetcher.company_name := "";
     MertonDataFetcher.sic_code := (-1);
     MertonDataFetcher.V_A := of_Z 1000;
     MertonDataFetcher.D := of_Z 600;
     MertonDataFetcher.mu := zero;
     MertonDataFetcher.sigma := zero;
     MertonDataFetcher.risk_free_rate := zero;
     MertonDataFetcher.T := one;
     MertonDataFetcher.n_years_used := 2;
     MertonDataFetcher.assets_history := [of_Z 800; of_Z 1000] |}.

(** The Z-Score fetcher after it has read the balance sheet. *)
Definition sample_balance_zfetcher : ZScoreDataFetcher.t :=
  {| ZScoreDataFetcher.ticker := "ACME";
     ZScoreDataFetcher.company_name := "";
     ZScoreDataFetcher.sic_code := (-1);
     ZScoreDataFetcher.industry := "";
     ZScoreDataFetcher.working_capital := zero;
     ZScoreDataFetcher.total_assets := Some (of_Z 1000);
     ZScoreDataFetcher.retained_earnings := zero;
     ZScoreDataFetcher.ebit := None;
     ZScoreDataFetcher.market_cap := None;
     ZScoreDataFetcher.total_liabilities := Some (of_Z 600);
     ZScoreDataFetcher.sales := None |}.

(** A fetcher whose history is two years of unchanged total assets. *)
Definition flat_fetcher : MertonDataFetcher.t :=
  {| MertonDataFetcher.ticker := "ACME";
     MertonDataFetcher.company_name := "";
     MertonDataFetcher.sic_code := (-1);
     MertonDataFetcher.V_A := of_Z 1000;
     MertonDataFetcher.D := of_Z 600;
     MertonDataFetcher.mu := zero;
     MertonDataFetcher.sigma := zero;
     MertonDataFetcher.risk_free_rate := zero;
     MertonDataFetcher.T := one;
     MertonDataFetcher.n_years_used := 2;
     MertonDataFetcher.assets_history :=
       [S754_finite false 8796093022208000 (-43);
        S754_finite false 8796093022208000 (-43)] |}.

(** Mean and sample standard deviation summed from left to right, to
    run the estimator on short lists; [numpy] may order its sums
    otherwise. *)
Definition sample_numpy : Numpy :=
  {| np_mean := fun xs =>
       (fold_left fadd xs zero / of_Z (Z.of_nat (length xs)))%F;
     np_std := fun xs ddof =>
       let mean := (fold_left fadd xs zero / of_Z (Z.of_nat (length xs)))%F in
       fsqrt (fold_left fadd (map (fun x => (x - mean) * (x - mean))%F xs) zero
              / of_Z (Z.of_nat (length xs - ddof)))%F |}.

(** The sample company with total assets that are NaN. *)
Definition nan_facts : FinancialFacts :=
  {| working_capital := of_Z 250; total_assets := S754_nan;
     retained_earnings := of_Z 400; ebit := of_Z 150;
     market_cap := of_Z 1800; total_liabilities := of_Z 600;
     sales := of_Z 1200 |}.

(** Merton data at the fetcher's horizon. *)
Definition unit_horizon_facts : AssetDynamicsFacts :=
  {| V_A := of_Z 1000; D := of_Z 600; mu := lit 5 100; sigma := lit 2 10;
     risk_free_rate := lit 4 100; T := one |}.

(* ================================================================== *)
(** * Properties *)

(** ** risk_analyzer.py: the reconciler *)

Section ReconcilerProperties.
Import Decision RiskAnalyzer.

(** C1. Without a Merton decision the final decision is the Z-Score
    decision verbatim; with one, the final decision is DENIED when
    either input is DENIED, APPROVED when both are APPROVED, and
    APPROVED WITH WARNING in every remaining case. *)
Theorem combine_decisions_rule (z_dec : summary) :
  fd_decision (_combine_decisions z_dec None) = decision z_dec
  /\ fd_basis (_combine_decisions z_dec None)
     = "Z-Score únicamente (Merton no aplicable)"
  /\ forall m_dec : summary,
       fd_decision (_combine_decisions z_dec (Some m_dec)) =
         if bool_decide (decision z_dec = DENIED \/ decision m_dec = DENIED)
         then DENIED
         else if bool_decide (decision z_dec = APPROVED /\ decision m_dec = APPROVED)
         then APPROVED
         else APPROVED_WARNING.
Proof.
  split; [reflexivity|]. split; [reflexivity|].
  intros m_dec. unfold _combine_decisions, DENIED, APPROVED, APPROVED_WARNING.
  cbn [fd_decision].
  destruct (decide ("DENIED" ∈ ({[decision z_dec; decision m_dec]} : gset string)))
    as [Hd|Hd].
  - rewrite bool_decide_eq_true_2; [reflexivity|]. set_solver.
  - rewrite bool_decide_eq_false_2 by set_solver.
    destruct (decide (({[decision z_dec; decision m_dec]} : gset string) = {["APPROVED"]}))
      as [Ha|Ha].
    + rewrite bool_decide_eq_true_2; [reflexivity|]. set_solver.
    + rewrite bool_decide_eq_false_2; [reflexivity|].
      intros [Hz Hm]. apply Ha. rewrite Hz, Hm. set_solver.
Qed.

End ReconcilerProperties.

(** ** Comparisons of floats *)

Lemma fleb_not_feqb_fltb (x y : float) :
  (x <=? y)%F = true -> (x == y)%F = false -> (x <? y)%F = true.
Proof.
  unfold fleb, feqb, fltb, SFleb, SFeqb, SFltb.
  destruct (SFcompare x y) as [[ | | ]|]; congruence.
Qed.

Lemma fadd_zero_r (x : float) :
  (x + zero)%F = x \/ (x = neg_zero /\ (x + zero)%F = zero).
Proof.
  destruct x as [[|]| | |]; cbn; auto.
Qed.

(** ** The table of coefficients *)

Lemma COEFFICIENTS_Z :
  ZScoreCalculator.COEFFICIENTS !! "Z" =
  Some (ZScoreCalculator.Build_coefficients
          (lit 12 10) (lit 14 10) (lit 33 10) (lit 6 10) (lit 10 10)).
Proof. reflexivity. Qed.

Lemma COEFFICIENTS_Z_double_prime :
  ZScoreCalculator.COEFFICIENTS !! "Z_double_prime" =
  Some (ZScoreCalculator.Build_coefficients
          (lit 656 100) (lit 326 100) (lit 672 100) (lit 105 100) (lit 0 10)).
Proof. reflexivity. Qed.

Lemma COEFFICIENTS_other (v : string) :
  v <> "Z" -> v <> "Z_double_prime" -> ZScoreCalculator.COEFFICIENTS !! v = None.
Proof.
  intros H1 H2. unfold ZScoreCalculator.COEFFICIENTS.
  rewrite lookup_insert_ne by congruence.
  apply lookup_singleton_ne. congruence.
Qed.

(** ** calculators.py: the Z-Score *)

Section ZScoreProperties.
Context `{Builtins}.
Import ZScoreCalculator.

(** C2. With non-zero total assets and liabilities and a variant in
    {Z, Z_double_prime}, the computation returns the five ratios
    X1 = working_capital/total_assets, X2 = retained_earnings/total_assets,
    X3 = ebit/total_assets, X4 = market_cap/total_liabilities, X5 =
    sales/total_assets for Z and 0 otherwise, and the score
    1.2 X1 + 1.4 X2 + 3.3 X3 + 0.6 X4 + 1.0 X5 for Z, respectively
    6.56 X1 + 3.26 X2 + 6.72 X3 + 1.05 X4 for Z_double_prime; each
    reported value is [round(., 4)] of the unrounded one, and the score
    is computed from the unrounded ratios. *)
Theorem zscore_calculate_formula (facts : FinancialFacts) (variant : string) :
  (total_assets facts == zero)%F = false ->
  (total_liabilities facts == zero)%F = false ->
  variant = "Z" \/ variant = "Z_double_prime" ->
  let X1 := (working_capital facts / total_assets facts)%F in
  let X2 := (retained_earnings facts / total_assets facts)%F in
  let X3 := (ebit facts / total_assets facts)%F in
  let X4 := (market_cap facts / total_liabilities facts)%F in
  let X5 := if bool_decide (variant = "Z")
            then (sales facts / total_assets facts)%F else zero in
  let score :=
    if bool_decide (variant = "Z") then
      (lit 12 10 * X1 + lit 14 10 * X2 + lit 33 10 * X3 + lit 6 10 * X4
       + lit 10 10 * X5)%F
    else
      (lit 656 100 * X1 + lit 326 100 * X2 + lit 672 100 * X3
       + lit 105 100 * X4)%F in
  exists s : float,
    same_number s score /\
    zscore_compute facts variant =
      Ok {| r_model_version := variant;
            x1 := round X1 4; x2 := round X2 4; x3 := round X3 4;
            x4 := round X4 4; x5 := round X5 4;
            z_score := round s 4 |}.
Proof.
  intros Hta Htl Hv X1 X2 X3 X4 X5 score.
  destruct Hv as [-> | ->].
  - exists score. split; [left; reflexivity|].
    unfold zscore_compute, __init__. rewrite COEFFICIENTS_Z. cbn.
    unfold calculate, truediv. cbn. rewrite Hta, Htl. reflexivity.
  - exists (score + zero)%F. split.
    + destruct (fadd_zero_r score) as [-> | [-> ->]];
        [left; reflexivity | right; reflexivity].
    + unfold zscore_compute, __init__. rewrite COEFFICIENTS_Z_double_prime. cbn.
      unfold calculate, truediv. cbn. rewrite Hta, Htl. reflexivity.
Qed.

End ZScoreProperties.

Lemma zscore_calculate_formula_witness :
  exists s : float,
    same_number s
      (lit 12 10 * (of_Z 250 / of_Z 1000) + lit 14 10 * (of_Z 400 / of_Z 1000)
       + lit 33 10 * (of_Z 150 / of_Z 1000) + lit 6 10 * (of_Z 1800 / of_Z 600)
       + lit 10 10 * (of_Z 1200 / of_Z 1000))%F /\
    zscore_compute (H := Reference.builtins) sample_facts "Z" =
      Ok {| ZScoreCalculator.r_model_version := "Z";
            ZScoreCalculator.x1 := Reference.py_round (of_Z 250 / of_Z 1000)%F 4;
            ZScoreCalculator.x2 := Reference.py_round (of_Z 400 / of_Z 1000)%F 4;
            ZScoreCalculator.x3 := Reference.py_round (of_Z 150 / of_Z 1000)%F 4;
            ZScoreCalculator.x4 := Reference.py_round (of_Z 1800 / of_Z 600)%F 4;
            ZScoreCalculator.x5 := Reference.py_round (of_Z 1200 / of_Z 1000)%F 4;
            ZScoreCalculator.z_score := Reference.py_round s 4 |}.
Proof.
  apply (zscore_calculate_formula (H := Reference.builtins) sample_facts "Z");
    [reflexivity | reflexivity | left; reflexivity].
Defined.

(** ** calculators.py: degenerate inputs *)

Lemma arithmetic_not_precondition (e : exn) :
  arithmetic_error e -> ~ precondition_error e.
Proof.
  unfold arithmetic_error, precondition_error, D_error, V_A_error, sigma_error,
    PyMath.math_domain_error.
  intros [-> | [-> | ->]] [? | [? | ?]]; discriminate.
Qed.

Lemma bind_raise {A B} (r : result A) (k : A -> result B) (e : exn) :
  r ≫= k = Raise e ->
  r = Raise e \/ exists a, r = Ok a /\ k a = Raise e.
Proof. destruct r as [a|e']; cbn; intros Hr; [right; eauto | left; congruence]. Qed.

Lemma bind_ok {A B} (r : result A) (k : A -> result B) (b : B) :
  r ≫= k = Ok b -> exists a, r = Ok a /\ k a = Ok b.
Proof. destruct r as [a|e']; cbn; intros Hr; [eauto | discriminate]. Qed.

Lemma truediv_raise (x y : float) (e : exn) :
  truediv x y = Raise e -> arithmetic_error e.
Proof.
  unfold truediv. destruct (y == zero)%F; intros Hr; inversion Hr.
  left; reflexivity.
Qed.

Section MathErrors.
Context `{Builtins}.

Lemma log_raise (x : float) (e : exn) :
  PyMath.log x = Raise e -> arithmetic_error e.
Proof.
  unfold PyMath.log. destruct (is_nan x); [discriminate|].
  destruct (x >? zero)%F; intros Hr; inversion Hr. right; left; reflexivity.
Qed.

Lemma sqrt_raise (x : float) (e : exn) :
  PyMath.sqrt x = Raise e -> arithmetic_error e.
Proof.
  unfold PyMath.sqrt. destruct (is_nan (fsqrt x) && negb (is_nan x));
    intros Hr; inversion Hr. right; left; reflexivity.
Qed.

Lemma pow2_raise (x : float) (e : exn) :
  PyMath.pow2 x = Raise e -> arithmetic_error e.
Proof.
  unfold PyMath.pow2. destruct (is_nan x); [discriminate|].
  destruct (is_inf x); [discriminate|].
  destruct (is_inf (libm_pow x two)); intros Hr; inversion Hr.
  right; right; reflexivity.
Qed.

Lemma distance_to_default_raise (V_A D mu sigma T : float) (e : exn) :
  MertonCalculator.distance_to_default V_A D mu sigma T = Raise e ->
  arithmetic_error e.
Proof.
  unfold MertonCalculator.distance_to_default. intros Hr.
  apply bind_raise in Hr as [Hr | (q & _ & Hr)]; [eauto using truediv_raise|].
  apply bind_raise in Hr as [Hr | (l & _ & Hr)]; [eauto using log_raise|].
  apply bind_raise in Hr as [Hr | (s2 & _ & Hr)]; [eauto using pow2_raise|].
  apply bind_raise in Hr as [Hr | (h & _ & Hr)]; [eauto using truediv_raise|].
  apply bind_raise in Hr as [Hr | (r & _ & Hr)]; [eauto using sqrt_raise|].
  eauto using truediv_raise.
Qed.

Lemma probability_of_default_raise (DD : float) (e : exn) :
  MertonCalculator.probability_of_default DD = Raise e -> arithmetic_error e.
Proof.
  unfold MertonCalculator.probability_of_default, MertonCalculator._normal_cdf.
  intros Hr.
  apply bind_raise in Hr as [Hr | (p & _ & Hr)]; [|discriminate].
  apply bind_raise in Hr as [Hr | (s & _ & Hr)]; [eauto using sqrt_raise|].
  apply bind_raise in Hr as [Hr | (q & _ & Hr)]; eauto using truediv_raise.
Qed.

(** Past its three checks, the Merton calculator raises arithmetic
    errors only. *)
Lemma merton_body_raise (self : MertonCalculator.t) (e : exn) :
  (D (MertonCalculator.data self) <=? zero)%F = false ->
  (V_A (MertonCalculator.data self) <=? zero)%F = false ->
  (sigma (MertonCalculator.data self) <=? zero)%F = false ->
  MertonCalculator.calculate self = Raise e -> arithmetic_error e.
Proof.
  intros HD HV Hs. unfold MertonCalculator.calculate. rewrite HD, HV, Hs.
  intros Hr.
  apply bind_raise in Hr as [Hr | (DD & _ & Hr)];
    [eauto using distance_to_default_raise|].
  apply bind_raise in Hr as [Hr | (PD & _ & Hr)];
    [eauto using probability_of_default_raise | discriminate].
Qed.

(** C3. The Z-Score calculator raises exactly when total assets or total
    liabilities compare equal to zero, with the error naming the first
    zero denominator; the Merton calculator raises one of its three
    precondition errors exactly when D <= 0, V_A <= 0 or sigma <= 0, the
    error naming the first violated condition.  Each error is decided by
    the checks alone (the right-hand sides mention no built-in), and in
    these cases no value is returned. *)
Theorem degenerate_input_errors :
  (forall self : ZScoreCalculator.t,
     let ta := total_assets (ZScoreCalculator.data self) in
     let tl := total_liabilities (ZScoreCalculator.data self) in
     (ZScoreCalculator.calculate self = Raise (ZeroDivisionError "Total Assets es 0.")
        <-> (ta == zero)%F = true)
     /\ (ZScoreCalculator.calculate self
           = Raise (ZeroDivisionError "Total Liabilities es 0.")
        <-> (ta == zero)%F = false /\ (tl == zero)%F = true)
     /\ ((exists e, ZScoreCalculator.calculate self = Raise e)
        <-> (ta == zero)%F = true \/ (tl == zero)%F = true)
     /\ ((exists r, ZScoreCalculator.calculate self = Ok r)
        <-> (ta == zero)%F = false /\ (tl == zero)%F = false))
  /\
  (forall self : MertonCalculator.t,
     let D := D (MertonCalculator.data self) in
     let V_A := V_A (MertonCalculator.data self) in
     let sigma := sigma (MertonCalculator.data self) in
     (MertonCalculator.calculate self = Raise D_error <-> (D <=? zero)%F = true)
     /\ (MertonCalculator.calculate self = Raise V_A_error
        <-> (D <=? zero)%F = false /\ (V_A <=? zero)%F = true)
     /\ (MertonCalculator.calculate self = Raise sigma_error
        <-> (D <=? zero)%F = false /\ (V_A <=? zero)%F = false
            /\ (sigma <=? zero)%F = true)
     /\ ((exists e, MertonCalculator.calculate self = Raise e /\ precondition_error e)
        <-> (D <=? zero)%F = true \/ (V_A <=? zero)%F = true
            \/ (sigma <=? zero)%F = true)).
Proof.
  split.
  - intros self ta tl. subst ta tl.
    unfold ZScoreCalculator.calculate, truediv.
    destruct (total_assets (ZScoreCalculator.data self) == zero)%F;
      [|destruct (total_liabilities (ZScoreCalculator.data self) == zero)%F].
    + naive_solver.
    + naive_solver.
    + cbn. destruct (bool_decide _); cbn; naive_solver.
  - intros self D0 V0 s0.
    pose proof (merton_body_raise self) as Hbody.
    assert (Hne : forall e, precondition_error e ->
              (D0 <=? zero)%F = false -> (V0 <=? zero)%F = false ->
              (s0 <=? zero)%F = false ->
              MertonCalculator.calculate self <> Raise e).
    { intros e He HD HV Hs Hr.
      exact (arithmetic_not_precondition e (Hbody e HD HV Hs Hr) He). }
    assert (HeD : precondition_error D_error) by (left; reflexivity).
    assert (HeV : precondition_error V_A_error) by (right; left; reflexivity).
    assert (Hes : precondition_error sigma_error) by (right; right; reflexivity).
    assert (HDV : D_error <> V_A_error) by discriminate.
    assert (HDs : D_error <> sigma_error) by discriminate.
    assert (HVs : V_A_error <> sigma_error) by discriminate.
    clear Hbody. subst D0 V0 s0.
    destruct (D (MertonCalculator.data self) <=? zero)%F eqn:HD;
      [|destruct (V_A (MertonCalculator.data self) <=? zero)%F eqn:HV;
        [|destruct (sigma (MertonCalculator.data self) <=? zero)%F eqn:Hs]].
    + assert (Hc : MertonCalculator.calculate self = Raise D_error)
        by (unfold MertonCalculator.calculate; rewrite HD; reflexivity).
      rewrite Hc. naive_solver.
    + assert (Hc : MertonCalculator.calculate self = Raise V_A_error)
        by (unfold MertonCalculator.calculate; rewrite HD, HV; reflexivity).
      rewrite Hc. naive_solver.
    + assert (Hc : MertonCalculator.calculate self = Raise sigma_error)
        by (unfold MertonCalculator.calculate; rewrite HD, HV, Hs; reflexivity).
      rewrite Hc. naive_solver.
    + specialize (fun e He => Hne e He eq_refl eq_refl eq_refl).
      naive_solver.
Qed.

End MathErrors.

(** ** Bounds on rounded results

    What is needed of binary64 rounding to bound the probability of
    default: a value that is at most a power of two rounds to a float
    that is at most that power of two. *)

Section FloatBounds.
Local Open Scope Z_scope.

Lemma digits2_pos_bounds (m : positive) :
  2 ^ (Zpos (digits2_pos m) - 1) <= Zpos m < 2 ^ Zpos (digits2_pos m).
Proof.
  induction m as [m IH|m IH|]; cbn [digits2_pos].
  - rewrite Pos2Z.inj_succ, Pos2Z.inj_xI.
    replace (Z.succ (Zpos (digits2_pos m)) - 1) with (Z.succ (Zpos (digits2_pos m) - 1)) by lia.
    rewrite !Z.pow_succ_r by lia.
    revert IH. generalize (2 ^ (Zpos (digits2_pos m) - 1)), (2 ^ Zpos (digits2_pos m)).
    intros; lia.
  - rewrite Pos2Z.inj_succ. change (Zpos m~0) with (2 * Zpos m).
    replace (Z.succ (Zpos (digits2_pos m)) - 1) with (Z.succ (Zpos (digits2_pos m) - 1)) by lia.
    rewrite !Z.pow_succ_r by lia.
    revert IH. generalize (2 ^ (Zpos (digits2_pos m) - 1)), (2 ^ Zpos (digits2_pos m)).
    intros; lia.
  - cbn. lia.
Qed.

Lemma Zdigits2_le (M k : Z) :
  0 <= M -> 0 <= k -> M <= 2 ^ k -> Zdigits2 M <= k + 1.
Proof.
  intros HM Hk Hle. destruct M as [|m|m]; cbn; [lia| |lia].
  pose proof (digits2_pos_bounds m) as [Hlo _].
  assert (2 ^ (Zpos (digits2_pos m) - 1) <= 2 ^ k) by lia.
  apply Z.pow_le_mono_r_iff in H; lia.
Qed.

Lemma shr_1_spec (mrs : shr_record) :
  0 <= shr_m mrs ->
  shr_m (shr_1 mrs) = shr_m mrs / 2
  /\ (shr_r mrs = false -> shr_s mrs = false -> shr_m mrs mod 2 = 0 ->
      shr_r (shr_1 mrs) = false /\ shr_s (shr_1 mrs) = false).
Proof.
  destruct mrs as [m r s]. cbn [shr_m shr_r shr_s]. intros Hm.
  destruct m as [|[p|p|]|p]; cbn [shr_1 shr_m shr_r shr_s]; try lia.
  - split; [reflexivity|]. intros -> -> _. split; reflexivity.
  - split; [apply Z.div_unique with 1; rewrite ?Pos2Z.inj_xI; lia|].
    intros _ _ Hmod. exfalso. rewrite Pos2Z.inj_xI in Hmod.
    rewrite Z.add_comm, Z.mul_comm, Z.mod_add in Hmod by lia. discriminate.
  - split; [apply Z.div_unique with 0; change (Zpos p~0) with (2 * Zpos p); lia|].
    intros -> -> _. split; reflexivity.
  - split; [reflexivity|]. intros _ _ Hmod. discriminate.
Qed.

Lemma mod_mul_split (m a b : Z) :
  0 < a -> 0 < b -> m mod (a * b) = 0 -> m mod a = 0 /\ (m / a) mod b = 0.
Proof.
  intros Ha Hb Hm. apply Z.mod_divide in Hm; [|lia]. destruct Hm as [k ->].
  replace (k * (a * b)) with (k * b * a) by lia.
  rewrite Z.mod_mul, Z.div_mul, Z.mod_mul by lia. split; reflexivity.
Qed.

Lemma iter_shr_1 (p : positive) : forall mrs : shr_record,
  0 <= shr_m mrs ->
  shr_m (SpecFloat.iter_pos shr_1 p mrs) = shr_m mrs / 2 ^ Zpos p
  /\ (shr_r mrs = false -> shr_s mrs = false -> shr_m mrs mod 2 ^ Zpos p = 0 ->
      shr_r (SpecFloat.iter_pos shr_1 p mrs) = false /\ shr_s (SpecFloat.iter_pos shr_1 p mrs) = false).
Proof.
  induction p as [p IH|p IH|]; intros mrs Hm; cbn [SpecFloat.iter_pos].
  - destruct (shr_1_spec mrs Hm) as [E1 X1].
    assert (H1 : 0 <= shr_m (shr_1 mrs)) by (rewrite E1; apply Z.div_pos; lia).
    destruct (IH _ H1) as [E2 X2].
    assert (H2 : 0 <= shr_m (SpecFloat.iter_pos shr_1 p (shr_1 mrs)))
      by (rewrite E2; apply Z.div_pos; [lia | apply Z.pow_pos_nonneg; lia]).
    destruct (IH _ H2) as [E3 X3].
    assert (Hp : 0 < 2 ^ Zpos p) by (apply Z.pow_pos_nonneg; lia).
    assert (Hpow : 2 ^ Zpos p~1 = 2 * (2 ^ Zpos p * 2 ^ Zpos p)).
    { rewrite Pos2Z.inj_xI. rewrite Z.pow_add_r, Z.pow_mul_r by lia.
      change (2 ^ 2) with 4. change (2 ^ 1) with 2.
      rewrite <- Z.pow_mul_l. change (2 * 2) with 4.
      replace (4 ^ Zpos p) with ((2 * 2) ^ Zpos p) by reflexivity.
      rewrite Z.pow_mul_l. lia. }
    split.
    + rewrite E3, E2, E1, Hpow. rewrite !Z.div_div by lia. reflexivity.
    + intros Hr Hs Hmod. rewrite Hpow in Hmod.
      apply mod_mul_split in Hmod as [Hm1 Hmod]; [|lia|lia].
      apply mod_mul_split in Hmod as [Hm2 Hm3]; [|lia|lia].
      destruct (X1 Hr Hs Hm1) as [Hr1 Hs1].
      rewrite <- E1 in Hm2, Hm3.
      destruct (X2 Hr1 Hs1 Hm2) as [Hr2 Hs2].
      rewrite <- E2 in Hm3. exact (X3 Hr2 Hs2 Hm3).
  - destruct (IH _ Hm) as [E2 X2].
    assert (Hp : 0 < 2 ^ Zpos p) by (apply Z.pow_pos_nonneg; lia).
    assert (H2 : 0 <= shr_m (SpecFloat.iter_pos shr_1 p mrs))
      by (rewrite E2; apply Z.div_pos; lia).
    destruct (IH _ H2) as [E3 X3].
    assert (Hpow : 2 ^ Zpos p~0 = 2 ^ Zpos p * 2 ^ Zpos p).
    { change (Zpos p~0) with (2 * Zpos p).
      replace (2 * Zpos p) with (Zpos p + Zpos p) by lia.
      rewrite Z.pow_add_r by lia. reflexivity. }
    split.
    + rewrite E3, E2, Hpow. rewrite Z.div_div by lia. reflexivity.
    + intros Hr Hs Hmod. rewrite Hpow in Hmod.
      apply mod_mul_split in Hmod as [Hm2 Hm3]; [|lia|lia].
      destruct (X2 Hr Hs Hm2) as [Hr2 Hs2].
      rewrite <- E2 in Hm3. exact (X3 Hr2 Hs2 Hm3).
  - change (2 ^ 1) with 2. apply shr_1_spec. exact Hm.
Qed.

Lemma round_nearest_even_bounds (m : Z) (l : location) :
  m <= round_nearest_even m l <= m + 1
  /\ (l = loc_Exact -> round_nearest_even m l = m).
Proof.
  destruct l as [|[ | | ]]; cbn; try destruct (Z.even m); split; try lia;
    try reflexivity; intros; discriminate.
Qed.

Lemma loc_of_shr_record_of_loc (m : Z) (l : location) :
  loc_of_shr_record (shr_record_of_loc m l) = l
  /\ shr_m (shr_record_of_loc m l) = m.
Proof. destruct l as [|[ | | ]]; split; reflexivity. Qed.

Lemma loc_exact_flags (mrs : shr_record) :
  shr_r mrs = false -> shr_s mrs = false -> loc_of_shr_record mrs = loc_Exact.
Proof. destruct mrs as [m r s]; cbn; intros -> ->; reflexivity. Qed.

(** [shr_fexp] divides the mantissa by a power of two, rounding down,
    and moves the exponent up to [fexp] of the magnitude. *)
Lemma shr_fexp_spec (m e : Z) (l : location) :
  0 <= m ->
  let n := Z.max 0 (fexp prec emax (Zdigits2 m + e) - e) in
  let mrs := fst (shr_fexp prec emax m e l) in
  snd (shr_fexp prec emax m e l) = e + n
  /\ shr_m mrs = m / 2 ^ n
  /\ (n = 0 -> loc_of_shr_record mrs = l)
  /\ (l = loc_Exact -> m mod 2 ^ n = 0 -> loc_of_shr_record mrs = loc_Exact).
Proof.
  intros Hm n mrs. subst mrs. unfold shr_fexp, shr.
  destruct (loc_of_shr_record_of_loc m l) as [Hl Hmm].
  destruct (fexp prec emax (Zdigits2 m + e) - e) as [|p|p] eqn:En; subst n.
  - cbn [fst snd]. rewrite Z.max_id. change (2 ^ 0) with 1.
    rewrite Z.div_1_r, Z.add_0_r.
    split; [reflexivity|]. split; [exact Hmm|].
    split; [intros _; exact Hl|]. intros -> _. exact Hl.
  - cbn [fst snd]. rewrite Z.max_r by lia.
    assert (H0 : 0 <= shr_m (shr_record_of_loc m l)) by (rewrite Hmm; exact Hm).
    destruct (iter_shr_1 p _ H0) as [E X]. rewrite Hmm in E, X.
    split; [reflexivity|]. split; [exact E|]. split; [lia|].
    intros -> Hmod. destruct (X eq_refl eq_refl Hmod) as [Hr Hs].
    apply loc_exact_flags; assumption.
  - cbn [fst snd]. rewrite Z.max_l by lia. change (2 ^ 0) with 1.
    rewrite Z.div_1_r, Z.add_0_r.
    split; [reflexivity|]. split; [exact Hmm|].
    split; [intros _; exact Hl|]. intros -> _. exact Hl.
Qed.

Lemma fexp_le (M E K : Z) :
  -1022 <= K -> 0 <= M -> E <= K -> M <= 2 ^ (K - E) ->
  fexp prec emax (Zdigits2 M + E) <= K - 52.
Proof.
  intros HK HM HE Hle. unfold fexp, emin, prec, emax.
  pose proof (Zdigits2_le M (K - E) HM ltac:(lia) Hle). lia.
Qed.

Lemma pow2_split (a b : Z) : 0 <= a -> 0 <= b -> 2 ^ (a + b) = 2 ^ a * 2 ^ b.
Proof. intros. apply Z.pow_add_r; assumption. Qed.

(** Rounding a value that is at most [2^K] gives a float that is at
    most [2^K]; [l] says whether [M * 2^E] is the value or lies below it. *)
Lemma binary_round_aux_bound (K M E : Z) (l : location) :
  -1022 <= K <= 1023 -> 0 <= M -> E <= K - 52 ->
  M <= 2 ^ (K - E) ->
  (l <> loc_Exact -> M + 1 <= 2 ^ (K - E)) ->
  in_unit K (binary_round_aux prec emax false M E l).
Proof.
  intros HK HM HE Hle Hlt. unfold binary_round_aux.
  pose proof (shr_fexp_spec M E l HM) as H1. cbv zeta in H1.
  destruct (shr_fexp prec emax M E l) as [mrs' e'] eqn:E1. cbn [fst snd] in H1.
  destruct H1 as (He' & Hm' & Hl0 & Hlx).
  set (n := Z.max 0 (fexp prec emax (Zdigits2 M + E) - E)) in *.
  pose proof (fexp_le M E K ltac:(lia) HM ltac:(lia) Hle) as Hfexp.
  assert (Hn : 0 <= n) by (unfold n; lia).
  assert (He'K : e' <= K - 52) by (unfold n in He'; lia).
  set (m1 := round_nearest_even (shr_m mrs') (loc_of_shr_record mrs')).
  destruct (round_nearest_even_bounds (shr_m mrs') (loc_of_shr_record mrs'))
    as [Hb Hexact]. fold m1 in Hb, Hexact.
  assert (Hpos : 0 < 2 ^ n) by (apply Z.pow_pos_nonneg; lia).
  assert (Hsplit : 2 ^ (K - E) = 2 ^ n * 2 ^ (K - e')).
  { rewrite <- pow2_split by lia. f_equal. lia. }
  assert (Hm1 : 0 <= m1 <= 2 ^ (K - e')).
  { assert (0 <= M / 2 ^ n) by (apply Z.div_pos; lia).
    split; [lia|].
    destruct (Z.eq_dec (M mod 2 ^ n) 0) as [Hmod|Hmod].
    - destruct l as [|c].
      + rewrite (Hexact (Hlx eq_refl Hmod)), Hm'.
        apply Z.div_le_upper_bound; [lia|]. rewrite <- Hsplit. exact Hle.
      + assert (M / 2 ^ n < 2 ^ (K - e')).
        { apply Z.div_lt_upper_bound; [lia|]. rewrite <- Hsplit.
          specialize (Hlt ltac:(discriminate)). lia. }
        lia.
    - assert (M / 2 ^ n < 2 ^ (K - e')).
      { apply Z.div_lt_upper_bound; [lia|]. rewrite <- Hsplit.
        assert (M <> 2 ^ (K - E)); [|lia].
        intros ->. apply Hmod. rewrite Hsplit, Z.mul_comm. apply Z.mod_mul. lia. }
      lia. }
  pose proof (shr_fexp_spec m1 e' loc_Exact (proj1 Hm1)) as H2. cbv zeta in H2.
  destruct (shr_fexp prec emax m1 e' loc_Exact) as [mrs'' e''] eqn:E2.
  cbn [fst snd] in H2. destruct H2 as (He'' & Hm'' & _ & _).
  set (n2 := Z.max 0 (fexp prec emax (Zdigits2 m1 + e') - e')) in *.
  pose proof (fexp_le m1 e' K ltac:(lia) (proj1 Hm1) ltac:(lia) (proj2 Hm1)) as Hfexp2.
  assert (Hn2 : 0 <= n2) by (unfold n2; lia).
  assert (He''K : e'' <= K - 52) by (unfold n2 in He''; lia).
  assert (Hpos2 : 0 < 2 ^ n2) by (apply Z.pow_pos_nonneg; lia).
  assert (Hsplit2 : 2 ^ (K - e') = 2 ^ n2 * 2 ^ (K - e'')).
  { rewrite <- pow2_split by lia. f_equal. lia. }
  assert (Hm2 : 0 <= shr_m mrs'' <= 2 ^ (K - e'')).
  { rewrite Hm''. split; [apply Z.div_pos; lia|].
    apply Z.div_le_upper_bound; [lia|]. rewrite <- Hsplit2. lia. }
  destruct (shr_m mrs'') as [|m2|m2]; [exact I| |lia].
  replace (e'' <=? emax - prec) with true
    by (symmetry; apply Z.leb_le; unfold emax, prec; lia).
  cbn. split; [lia | exact He''K].
Qed.

Lemma iter_xO (d m : positive) : Zpos (Pos.iter xO m d) = Zpos m * 2 ^ Zpos d.
Proof.
  induction d as [|d IH] using Pos.peano_ind.
  - cbn. lia.
  - rewrite Pos.iter_succ, Pos2Z.inj_succ, Z.pow_succ_r by lia.
    change (Zpos (Pos.iter xO m d)~0) with (2 * Zpos (Pos.iter xO m d)).
    rewrite IH. lia.
Qed.

Lemma shl_align_spec (mx : positive) (ex ex' : Z) :
  snd (shl_align mx ex ex') = Z.min ex ex'
  /\ Zpos (fst (shl_align mx ex ex')) = Zpos mx * 2 ^ (ex - Z.min ex ex').
Proof.
  unfold shl_align. destruct (ex' - ex) as [|d|d] eqn:Ed; cbn [fst snd].
  - rewrite Z.min_l by lia. rewrite Z.sub_diag. cbn. lia.
  - rewrite Z.min_l by lia. rewrite Z.sub_diag. cbn. lia.
  - rewrite Z.min_r by lia. split; [reflexivity|].
    rewrite iter_xO. f_equal. f_equal. lia.
Qed.

Lemma binary_round_bound (K : Z) (M : positive) (E : Z) :
  -1022 <= K <= 1023 -> E <= K - 52 -> Zpos M <= 2 ^ (K - E) ->
  in_unit K (binary_round prec emax false M E).
Proof.
  intros HK HE Hle. unfold binary_round.
  destruct (shl_align_spec M E (fexp prec emax (Zpos (digits2_pos M) + E)))
    as [He Hm].
  destruct (shl_align M E _) as [mz ez]. cbn [fst snd] in He, Hm.
  rewrite <- He in Hm.
  apply binary_round_aux_bound; try lia; [|intros Hn; exfalso; apply Hn; reflexivity].
  rewrite Hm.
  replace (K - ez) with ((K - E) + (E - ez)) by lia.
  rewrite pow2_split by lia.
  apply Z.mul_le_mono_nonneg_r; [apply Z.pow_nonneg; lia | exact Hle].
Qed.

Lemma binary_normalize_bound (K S E : Z) :
  -1022 <= K <= 1023 -> E <= K - 52 -> 0 <= S <= 2 ^ (K - E) ->
  in_unit K (binary_normalize prec emax S E false).
Proof.
  intros HK HE [H0 Hle]. destruct S as [|M|M]; cbn [binary_normalize];
    [exact I | apply binary_round_bound; assumption | lia].
Qed.

Lemma pow2_52 : Zpos 4503599627370496 = 2 ^ 52.
Proof. reflexivity. Qed.

(** A valid float between -1 and 1, by mantissa and exponent. *)
Lemma unit_interval_mantissa (s : bool) (m : positive) (e : Z) :
  valid_binary prec emax (S754_finite s m e) = true ->
  SFleb (SFopp one) (S754_finite s m e) = true ->
  SFleb (S754_finite s m e) one = true ->
  e <= -52 /\ Zpos m <= 2 ^ (- e).
Proof.
  unfold valid_binary, bounded, canonical_mantissa, SFleb, SFcompare, one, SFopp.
  cbn [negb]. intros Hv Hlo Hhi.
  apply andb_prop in Hv as [Hc _]. apply Z.eqb_eq in Hc.
  pose proof (digits2_pos_bounds m) as [_ Hd].
  assert (Hd53 : Zpos (digits2_pos m) <= 53)
    by (unfold fexp, emin, prec, emax in Hc; lia).
  assert (Hm53 : Zpos m < 2 ^ 53).
  { eapply Z.lt_le_trans; [exact Hd|]. apply Z.pow_le_mono_r; lia. }
  assert (Hcase : e < -52 \/ (e = -52 /\ Zpos m <= 2 ^ 52)).
  { destruct s.
    - destruct (Z.compare_spec (-52) e) as [Heq|Hlt|Hgt]; try discriminate.
      + right. split; [lia|].
        rewrite Pos.compare_cont_spec, Pos2Z.inj_compare in Hlo.
        rewrite <- pow2_52. clear - Hlo.
        destruct (Z.compare_spec (Zpos 4503599627370496) (Zpos m)) as [Hx|Hx|Hx];
          cbn in Hlo; try discriminate;
          [rewrite <- Hx; apply Z.le_refl | apply Z.lt_le_incl; exact Hx].
      + left. lia.
    - destruct (Z.compare_spec e (-52)) as [Heq|Hlt|Hgt]; try discriminate.
      + right. split; [lia|].
        rewrite Pos.compare_cont_spec, Pos2Z.inj_compare in Hhi.
        rewrite <- pow2_52. clear - Hhi.
        destruct (Z.compare_spec (Zpos m) (Zpos 4503599627370496)) as [Hx|Hx|Hx];
          cbn in Hhi; try discriminate;
          [rewrite Hx; apply Z.le_refl | apply Z.lt_le_incl; exact Hx].
      + left. lia. }
  destruct Hcase as [Hlt | [-> Hle]].
  - split; [lia|]. apply Z.lt_le_incl. eapply Z.lt_le_trans; [exact Hm53|].
    apply Z.pow_le_mono_r; lia.
  - split; [lia | exact Hle].
Qed.

Lemma shl_align_one (e : Z) :
  e <= -52 -> Zpos (fst (shl_align 4503599627370496 (-52) e)) = 2 ^ (- e).
Proof.
  intros He. destruct (shl_align_spec 4503599627370496 (-52) e) as [_ Hm].
  rewrite Hm, Z.min_r, pow2_52, <- pow2_split by lia. f_equal. lia.
Qed.

Lemma shl_align_same (m : positive) (e : Z) : fst (shl_align m e e) = m.
Proof. unfold shl_align. rewrite Z.sub_diag. reflexivity. Qed.

Lemma SFadd_one_bound (x : spec_float) :
  valid_binary prec emax x = true ->
  SFleb (SFopp one) x = true -> SFleb x one = true ->
  in_unit 1 (SFadd prec emax one x).
Proof.
  intros Hv Hlo Hhi. destruct x as [s|s| |s m e]; try discriminate.
  - cbn. split; [vm_compute; discriminate | lia].
  - destruct s; discriminate.
  - destruct (unit_interval_mantissa s m e Hv Hlo Hhi) as [He Hm].
    unfold SFadd, one. rewrite Z.min_r by lia.
    rewrite shl_align_one, shl_align_same by lia.
    apply binary_normalize_bound; [lia | lia |].
    replace (1 - e) with (1 + - e) by lia. rewrite pow2_split by lia.
    change (2 ^ 1) with 2.
    destruct s; cbn [cond_Zopp]; lia.
Qed.

Lemma SFsub_one_bound (x : spec_float) :
  in_unit 0 x -> in_unit 0 (SFsub prec emax one x).
Proof.
  destruct x as [s|s| |[|] m e]; cbn [in_unit]; try contradiction.
  - intros _. cbn. split; [vm_compute; discriminate | lia].
  - intros [Hm He]. unfold SFsub, one. rewrite Z.min_r by lia.
    rewrite shl_align_one, shl_align_same by lia.
    apply binary_normalize_bound; [lia | lia |].
    cbn [cond_Zopp]. replace (0 - e) with (- e) in * by lia. lia.
Qed.

Lemma SFdiv_two_bound (x : spec_float) :
  in_unit 1 x -> in_unit 0 (SFdiv prec emax x two).
Proof.
  destruct x as [s|s| |[|] m e]; cbn [in_unit]; try contradiction.
  - intros _. exact I.
  - intros [Hm He]. unfold SFdiv, two, SFdiv_core_binary.
    change (Zdigits2 (Zpos 4503599627370496)) with 53.
    set (d1 := Zdigits2 (Zpos m)).
    set (e' := Z.min (fexp prec emax (d1 + e - (53 + -51))) (e - -51)).
    assert (Hd1 : d1 <= 1 - e + 1)
      by (apply Zdigits2_le; lia).
    assert (He' : e' <= -53)
      by (unfold e', fexp, emin, prec, emax; lia).
    set (s := e - -51 - e').
    assert (Hs : 0 <= s) by (unfold s, e'; lia).
    set (m' := match s with
               | 0 => Zpos m
               | Zpos _ => Z.shiftl (Zpos m) s
               | Zneg _ => 0
               end).
    assert (Hm' : m' = Zpos m * 2 ^ s).
    { unfold m'. destruct s as [|p|p] eqn:Es.
      - cbn. lia.
      - rewrite Z.shiftl_mul_pow2 by lia. reflexivity.
      - lia. }
    assert (Hbound : 0 < m' <= 2 ^ 52 * 2 ^ (0 - e')).
    { rewrite Hm'. split.
      - apply Z.mul_pos_pos; [lia | apply Z.pow_pos_nonneg; lia].
      - rewrite <- pow2_split by lia.
        replace (52 + (0 - e')) with ((1 - e) + s) by (unfold s; lia).
        rewrite pow2_split by lia.
        apply Z.mul_le_mono_nonneg_r; [apply Z.pow_nonneg; lia | exact Hm]. }
    pose proof (Z_div_mod_eq_full m' (2 ^ 52)) as Hdm.
    pose proof (Z.mod_pos_bound m' (2 ^ 52) ltac:(lia)) as Hr.
    assert (Hqr : Z.div_eucl m' (Zpos 4503599627370496)
                  = (m' / 2 ^ 52, m' mod 2 ^ 52)).
    { unfold Z.div, Z.modulo. rewrite pow2_52.
      destruct (Z.div_eucl m' (2 ^ 52)); reflexivity. }
    rewrite Hqr. cbn [xorb].
    assert (Hq : m' / 2 ^ 52 <= 2 ^ (0 - e'))
      by (apply Z.div_le_upper_bound; lia).
    apply binary_round_aux_bound;
      [lia | apply Z.div_pos; lia | lia | exact Hq |].
    intros Hl.
      assert (Hne : m' mod 2 ^ 52 <> 0).
      { intros Hz. apply Hl. unfold new_location. rewrite pow2_52.
        replace (Z.even (2 ^ 52)) with true by reflexivity.
        unfold new_location_even. rewrite Hz. reflexivity. }
      assert (m' / 2 ^ 52 < 2 ^ (0 - e')); [|lia].
      apply Z.div_lt_upper_bound; [lia|].
      assert (m' <> 2 ^ 52 * 2 ^ (0 - e')); [|lia].
    intros Heq. apply Hne. rewrite Heq, Z.mul_comm. apply Z.mod_mul. lia.
Qed.

Lemma in_unit_0_range (x : spec_float) :
  in_unit 0 x -> SFleb (S754_zero false) x = true /\ SFleb x one = true.
Proof.
  destruct x as [s|s| |[|] m e]; cbn [in_unit]; try contradiction.
  - intros _. split; reflexivity.
  - intros [Hm He]. split; [reflexivity|].
    unfold SFleb, SFcompare, one.
    destruct (Z.compare_spec e (-52)) as [-> | Hlt | Hgt]; [|reflexivity|lia].
    rewrite Pos.compare_cont_spec, Pos2Z.inj_compare.
    change (2 ^ (0 - -52)) with (Zpos 4503599627370496) in Hm.
    destruct (Z.compare_spec (Zpos m) (Zpos 4503599627370496)) as [Hx|Hx|Hx];
      cbn; try reflexivity.
    exfalso. apply (Z.lt_irrefl (Zpos m)). eapply Z.le_lt_trans; eassumption.
Qed.

(** The probability [1 - (1 + e) / 2] lies between 0 and 1 for every
    valid float [e] between -1 and 1. *)
Theorem unit_complement_range (e : spec_float) :
  valid_binary prec emax e = true ->
  SFleb (SFopp one) e = true -> SFleb e one = true ->
  let p := SFsub prec emax one (SFdiv prec emax (SFadd prec emax one e) two) in
  SFleb (S754_zero false) p = true /\ SFleb p one = true.
Proof.
  intros Hv Hlo Hhi p. apply in_unit_0_range, SFsub_one_bound, SFdiv_two_bound,
    SFadd_one_bound; assumption.
Qed.

End FloatBounds.

(** ** calculators.py: the Merton formula *)

Section FloatSigns.
Local Open Scope Z_scope.

Lemma binary_round_aux_not_nan (s : bool) (M E : Z) (l : location) :
  0 <= M -> is_nan (binary_round_aux prec emax s M E l) = false.
Proof.
  intros HM. unfold binary_round_aux.
  pose proof (shr_fexp_spec M E l HM) as H1. cbv zeta in H1.
  destruct (shr_fexp prec emax M E l) as [mrs' e']. cbn [fst snd] in H1.
  destruct H1 as (_ & Hm' & _).
  destruct (round_nearest_even_bounds (shr_m mrs') (loc_of_shr_record mrs'))
    as [Hb _].
  assert (H0 : 0 <= round_nearest_even (shr_m mrs') (loc_of_shr_record mrs')).
  { assert (0 <= M / 2 ^ Z.max 0 (fexp prec emax (Zdigits2 M + E) - E))
      by (apply Z.div_pos; [lia | apply Z.pow_pos_nonneg; lia]).
    lia. }
  pose proof (shr_fexp_spec _ e' loc_Exact H0) as H2. cbv zeta in H2.
  destruct (shr_fexp prec emax _ e' loc_Exact) as [mrs'' e'']. cbn [fst snd] in H2.
  destruct H2 as (_ & Hm'' & _).
  assert (0 <= shr_m mrs'').
  { rewrite Hm''. apply Z.div_pos; [lia | apply Z.pow_pos_nonneg; lia]. }
  destruct (shr_m mrs'') as [|m|m]; [reflexivity | | lia].
  destruct (e'' <=? emax - prec); reflexivity.
Qed.

Lemma fsqrt_not_nan (x : float) :
  (x <? zero)%F = false -> is_nan x = false -> is_nan (fsqrt x) = false.
Proof.
  destruct x as [s|[|]| |[|] m e]; cbn; try congruence.
  intros _ _. unfold SFsqrt_core_binary.
  set (m' := match _ - _ with 0 => Zpos m | Zpos _ => _ | Zneg _ => 0 end).
  assert (Hm' : 0 <= m').
  { unfold m'. destruct (_ - _); [lia | apply Z.shiftl_nonneg; lia | lia]. }
  pose proof (Z.sqrtrem_spec m' Hm') as Hs.
  destruct (Z.sqrtrem m') as [q r].
  apply binary_round_aux_not_nan. nia.
Qed.

End FloatSigns.

Lemma fleb_false_feqb_false (x y : float) :
  (x <=? y)%F = false -> (x == y)%F = false.
Proof.
  unfold fleb, feqb, SFleb, SFeqb. destruct (SFcompare x y) as [[| |]|]; congruence.
Qed.

Lemma fleb_zero_false_positive (x : float) :
  (x <=? zero)%F = false -> is_nan x = false -> (x >? zero)%F = true.
Proof. destruct x as [s|[|]| |[|] m e]; cbn; congruence. Qed.

Section MertonProperties.
Context `{Builtins}.
Import MertonCalculator.

Lemma log_defined (x : float) :
  (x <=? zero)%F = false -> exists v, PyMath.log x = Ok v.
Proof.
  intros Hx. unfold PyMath.log. destruct (is_nan x) eqn:Hn; [eauto|].
  rewrite (fleb_zero_false_positive x Hx Hn). eauto.
Qed.

Lemma pow2_defined (x : float) :
  is_inf (libm_pow x two) = false -> exists v, PyMath.pow2 x = Ok v.
Proof.
  intros Hx. unfold PyMath.pow2. destruct (is_nan x); [eauto|].
  destruct (is_inf x); [eauto|]. rewrite Hx. eauto.
Qed.

Lemma sqrt_defined (x : float) :
  (x <? zero)%F = false -> PyMath.sqrt x = Ok (fsqrt x).
Proof.
  intros Hx. unfold PyMath.sqrt. destruct (is_nan x) eqn:Hn.
  - rewrite andb_false_r. reflexivity.
  - rewrite (fsqrt_not_nan x Hx Hn). reflexivity.
Qed.

Lemma truediv_defined (x y : float) :
  (y == zero)%F = false -> truediv x y = Ok (x / y)%F.
Proof. intros Hy. unfold truediv. rewrite Hy. reflexivity. Qed.

Lemma normal_cdf_eq (x : float) :
  _normal_cdf x = Ok ((one + libm_erf (x / fsqrt two)) / two)%F.
Proof. reflexivity. Qed.

(** C4 (as the code has it). For V_A > 0, D > 0 and sigma > 0, when the
    arithmetic of the formula raises no error (the ratio V_A/D does not
    underflow to zero, sigma squared does not overflow, the horizon is
    not negative and sigma * sqrt(T) is not zero), the computation
    returns DD = (ln(V_A/D) + (mu - sigma^2/2) T) / (sigma sqrt(T)) and
    PD = 1 - Phi(DD) with Phi(x) = (1 + erf(x / sqrt 2)) / 2, DD rounded
    to 4 places, PD to 6 and PD in percent to 4; and PD lies between 0
    and 1 whenever erf returns a float between -1 and 1. *)
Theorem merton_calculate_formula (d : AssetDynamicsFacts) :
  (D d <=? zero)%F = false ->
  (V_A d <=? zero)%F = false ->
  (sigma d <=? zero)%F = false ->
  (V_A d / D d <=? zero)%F = false ->
  is_inf (libm_pow (sigma d) two) = false ->
  (T d <? zero)%F = false ->
  (sigma d * fsqrt (T d) == zero)%F = false ->
  exists ln_ratio sigma2 : float,
    PyMath.log (V_A d / D d)%F = Ok ln_ratio
    /\ PyMath.pow2 (sigma d) = Ok sigma2
    /\ let dd :=
         ((ln_ratio + (mu d - sigma2 / two) * T d) / (sigma d * fsqrt (T d)))%F in
       let erf_value := libm_erf (dd / fsqrt two)%F in
       let pd := (one - (one + erf_value) / two)%F in
       calculate (__init__ d) =
         Ok {| r_V_A := round (V_A d) 2; r_D := round (D d) 2;
               r_mu := round (mu d) 4; r_sigma := round (sigma d) 4;
               r_T := T d;
               DD := round dd 4;
               PD := round pd 6;
               PD_pct := round (pd * of_Z 100)%F 4 |}
       /\ (valid erf_value = true ->
           (SFopp one <=? erf_value)%F = true ->
           (erf_value <=? one)%F = true ->
           (zero <=? pd)%F = true /\ (pd <=? one)%F = true).
Proof.
  intros HD HV Hs Hq Hpow HT Hden.
  destruct (log_defined _ Hq) as [ln_ratio Hlog].
  destruct (pow2_defined _ Hpow) as [sigma2 Hp2].
  exists ln_ratio, sigma2. split; [exact Hlog|]. split; [exact Hp2|].
  intros dd erf_value pd. split.
  - unfold calculate, distance_to_default, probability_of_default. cbn [data __init__].
    rewrite HD, HV, Hs.
    rewrite (truediv_defined _ _ (fleb_false_feqb_false _ _ HD)). cbn [mbind result_bind].
    rewrite Hlog. cbn [mbind result_bind]. rewrite Hp2. cbn [mbind result_bind].
    rewrite (truediv_defined sigma2 two eq_refl). cbn [mbind result_bind].
    rewrite (sqrt_defined _ HT). cbn [mbind result_bind].
    rewrite (truediv_defined _ _ Hden). cbn [mbind result_bind].
    rewrite normal_cdf_eq. reflexivity.
  - intros Hvalid Hlo Hhi. apply unit_complement_range; assumption.
Qed.

End MertonProperties.

Lemma merton_calculate_formula_witness :
  exists pd : float,
    MertonCalculator.calculate (H := par_builtins) (MertonCalculator.__init__ par_facts)
    = Ok {| MertonCalculator.r_V_A := of_Z 1000; MertonCalculator.r_D := of_Z 1000;
            MertonCalculator.r_mu := zero; MertonCalculator.r_sigma := lit 3 10;
            MertonCalculator.r_T := of_Z 1;
            MertonCalculator.DD := SFopp (lit 15 100);
            MertonCalculator.PD := lit 559618 1000000;
            MertonCalculator.PD_pct := lit 559618 10000 |}
    /\ (zero <=? pd)%F = true /\ (pd <=? one)%F = true.
Proof.
  destruct (merton_calculate_formula (H := par_builtins) par_facts)
    as (ln_ratio & sigma2 & Hlog & Hpow & Hcalc & Hrange).
  1-7: vm_compute; reflexivity.
  vm_compute in Hlog, Hpow. injection Hlog as <-. injection Hpow as <-.
  eexists. split; [vm_compute; reflexivity|].
  apply Hrange; vm_compute; reflexivity.
Defined.

(** C4 as stated fails at the horizon T = 0: with V_A = 1000, D = 600
    and sigma = 0.2 the three preconditions hold, and the division by
    sigma * sqrt(0) = 0 raises instead of returning DD and PD, whatever
    the built-ins compute. *)
Lemma merton_zero_horizon_raises :
  (D zero_horizon_facts <=? zero)%F = false
  /\ (V_A zero_horizon_facts <=? zero)%F = false
  /\ (sigma zero_horizon_facts <=? zero)%F = false
  /\ MertonCalculator.calculate (H := Reference.builtins)
       (MertonCalculator.__init__ zero_horizon_facts)
     = Raise (ZeroDivisionError "float division by zero")
  /\ forall B : Builtins,
       exists e, MertonCalculator.calculate (H := B)
                   (MertonCalculator.__init__ zero_horizon_facts) = Raise e.
Proof.
  repeat apply conj; try reflexivity.
  intros B. unfold MertonCalculator.calculate, MertonCalculator.distance_to_default.
  cbn [MertonCalculator.data MertonCalculator.__init__].
  change ((D zero_horizon_facts <=? zero)%F) with false.
  change ((V_A zero_horizon_facts <=? zero)%F) with false.
  change ((sigma zero_horizon_facts <=? zero)%F) with false.
  cbv iota.
  change (truediv (V_A zero_horizon_facts) (D zero_horizon_facts))
    with (Ok (V_A zero_horizon_facts / D zero_horizon_facts)%F).
  cbn [mbind result_bind].
  destruct (PyMath.log _) as [l|e]; [|eauto]. cbn [mbind result_bind].
  destruct (PyMath.pow2 _) as [s2|e]; [|eauto]. cbn [mbind result_bind].
  change (truediv s2 two) with (Ok (s2 / two)%F). cbn [mbind result_bind].
  change (PyMath.sqrt (T zero_horizon_facts)) with (@Ok float zero).
  cbn [mbind result_bind]. eauto.
Qed.

(** ** decisions.py: zones *)

(** A float below a positive bound [lo] is not above a positive bound
    [hi] of larger exponent. *)
Lemma below_lo_not_above_hi (z : float) (ml mh : positive) (el eh : Z) :
  (el < eh)%Z ->
  (z <? S754_finite false ml el)%F = true ->
  (z >? S754_finite false mh eh)%F = false.
Proof.
  intros Hlt. unfold fgtb, fltb, SFltb.
  destruct z as [s|s| |s m e]; cbn; try congruence.
  - destruct s; congruence.
  - destruct s; [reflexivity|].
    destruct (Z.compare_spec e el), (Z.compare_spec eh e); try congruence; lia.
Qed.

(** The thresholds, as binary64 values. *)
Lemma threshold_values :
  lit 299 100 = S754_finite false 6732881442918892 (-51)
  /\ lit 181 100 = S754_finite false 8151515325540598 (-52)
  /\ lit 260 100 = S754_finite false 5854679515581645 (-51)
  /\ lit 110 100 = S754_finite false 4953959590107546 (-52)
  /\ lit 2 100 = S754_finite false 5764607523034235 (-58)
  /\ lit 5 100 = S754_finite false 7205759403792794 (-57).
Proof. vm_compute. repeat split. Qed.

Lemma THRESHOLDS_Z :
  ZScoreDecision.thresholds_of "Z" = ZScoreDecision.Z_thresholds.
Proof. reflexivity. Qed.

Lemma THRESHOLDS_Z_double_prime :
  ZScoreDecision.thresholds_of "Z_double_prime"
  = ZScoreDecision.Z_double_prime_thresholds.
Proof. reflexivity. Qed.

Lemma THRESHOLDS_other (v : string) :
  v <> "Z" -> v <> "Z_double_prime" ->
  ZScoreDecision.thresholds_of v = ZScoreDecision.Z_double_prime_thresholds.
Proof.
  intros H1 H2. unfold ZScoreDecision.thresholds_of, ZScoreDecision.THRESHOLDS.
  rewrite lookup_insert_ne by congruence.
  rewrite lookup_singleton_ne by congruence. reflexivity.
Qed.

Section DecisionProperties.
Context `{Builtins}.
Import Decision.

Lemma three_zones_intro (s : summary) (is_safe is_distress : bool) :
  (is_distress = true -> is_safe = false) ->
  (zone s, decision s) =
    (if is_safe then (ZONE_SAFE, APPROVED)
     else if is_distress then (ZONE_DISTRESS, DENIED)
     else (ZONE_GREY, APPROVED_WARNING)) ->
  three_zones s is_safe is_distress.
Proof.
  intros Hexcl Hs. unfold three_zones.
  destruct is_safe, is_distress; try (specialize (Hexcl eq_refl); discriminate);
    injection Hs as -> ->;
    unfold ZONE_SAFE, ZONE_GREY, ZONE_DISTRESS, APPROVED, APPROVED_WARNING, DENIED;
    repeat split; intros; try discriminate; try reflexivity;
    repeat match goal with Hc : _ /\ _ |- _ => destruct Hc end; try discriminate.
Qed.

Lemma zscore_zone_pair (self : ZScoreDecision.t) :
  let t := ZScoreDecision.thresholds_of (ZScoreDecision.model_version self) in
  (zone (ZScoreDecision.evaluate self), decision (ZScoreDecision.evaluate self)) =
    (if (ZScoreDecision.z_score self >? ZScoreDecision.safe t)%F
     then (ZONE_SAFE, APPROVED)
     else if (ZScoreDecision.z_score self <? ZScoreDecision.distress t)%F
     then (ZONE_DISTRESS, DENIED)
     else (ZONE_GREY, APPROVED_WARNING)).
Proof.
  cbv zeta. unfold ZScoreDecision.evaluate.
  destruct (_ >? _)%F; [reflexivity|]. destruct (_ <? _)%F; reflexivity.
Qed.

Lemma merton_zone_pair (self : MertonDecision.t) :
  (zone (MertonDecision.evaluate self), decision (MertonDecision.evaluate self)) =
    (if (MertonDecision.PD self <? MertonDecision.PD_SAFE)%F
     then (ZONE_SAFE, APPROVED)
     else if (MertonDecision.PD self >? MertonDecision.PD_DISTRESS)%F
     then (ZONE_DISTRESS, DENIED)
     else (ZONE_GREY, APPROVED_WARNING)).
Proof.
  unfold MertonDecision.evaluate.
  destruct (_ <? _)%F; [reflexivity|]. destruct (_ >? _)%F; reflexivity.
Qed.

(** C5. Z-Score zones: SAFE iff score > 2.99 (Z) or > 2.60
    (Z_double_prime), DISTRESS iff score < 1.81 or < 1.10, GREY ZONE
    otherwise, so the score 2.99 itself is GREY for Z.  Merton zones: SAFE
    iff PD < 0.02, DISTRESS iff PD > 0.05, GREY ZONE otherwise.  In both,
    SAFE gives APPROVED, GREY ZONE gives APPROVED WITH WARNING and
    DISTRESS gives DENIED. *)
Theorem decision_zone_rule :
  (forall z : float,
     three_zones
       (ZScoreDecision.evaluate
          {| ZScoreDecision.z_score := z; ZScoreDecision.model_version := "Z" |})
       (z >? lit 299 100)%F (z <? lit 181 100)%F)
  /\ (forall z : float,
     three_zones
       (ZScoreDecision.evaluate
          {| ZScoreDecision.z_score := z;
             ZScoreDecision.model_version := "Z_double_prime" |})
       (z >? lit 260 100)%F (z <? lit 110 100)%F)
  /\ zone (ZScoreDecision.evaluate
             {| ZScoreDecision.z_score := lit 299 100;
                ZScoreDecision.model_version := "Z" |}) = ZONE_GREY
  /\ (forall PD DD : float,
     three_zones
       (MertonDecision.evaluate {| MertonDecision.PD := PD; MertonDecision.DD := DD |})
       (PD <? lit 2 100)%F (PD >? lit 5 100)%F).
Proof.
  destruct threshold_values as (E299 & E181 & E260 & E110 & E2 & E5).
  split; [|split; [|split]].
  - intros z. apply three_zones_intro.
    + rewrite E299, E181. apply below_lo_not_above_hi. lia.
    + apply (zscore_zone_pair
               {| ZScoreDecision.z_score := z; ZScoreDecision.model_version := "Z" |}).
  - intros z. apply three_zones_intro.
    + rewrite E260, E110. apply below_lo_not_above_hi. lia.
    + apply (zscore_zone_pair
               {| ZScoreDecision.z_score := z;
                  ZScoreDecision.model_version := "Z_double_prime" |}).
  - vm_compute. reflexivity.
  - intros PD DD. apply three_zones_intro.
    + rewrite E2, E5. intros Hd.
      destruct (PD <? S754_finite false 5764607523034235 (-58))%F eqn:Hs;
        [|reflexivity].
      assert (Hc : (PD >? S754_finite false 7205759403792794 (-57))%F = false)
        by (eapply below_lo_not_above_hi; [|exact Hs]; lia).
      congruence.
    + apply (merton_zone_pair {| MertonDecision.PD := PD; MertonDecision.DD := DD |}).
Qed.

End DecisionProperties.

(** ** classifier.py *)

Section ClassifierProperties.
Context `{Builtins}.
Import PyStr CompanyClassifier.

Lemma prefix_spec (kw s : string) :
  String.prefix kw s = true <-> exists post, s = (kw ++ post)%string.
Proof.
  revert s. induction kw as [|c kw IH]; intros s.
  - split; [intros _; exists s; reflexivity | intros _; destruct s; reflexivity].
  - destruct s as [|c' s]; cbn;
      [split; [discriminate | intros [post Hp]; discriminate]|].
    destruct (Ascii.ascii_dec c c') as [->|Hne].
    + rewrite IH. split; intros [post Hp]; exists post.
      * rewrite Hp. reflexivity.
      * inversion Hp. reflexivity.
    + split; [discriminate | intros [post Hp]; inversion Hp; congruence].
Qed.

Lemma contains_unfold (kw s : string) :
  contains kw s =
  String.prefix kw s
  || match s with EmptyString => false | String _ s' => contains kw s' end.
Proof.
  destruct s as [|c s]; [destruct kw; reflexivity|].
  cbn [contains]. destruct (String.prefix _ _); reflexivity.
Qed.

Lemma contains_spec (kw s : string) :
  contains kw s = true <-> occurs_in kw s.
Proof.
  unfold occurs_in.
  induction s as [|c s IH]; rewrite contains_unfold, orb_true_iff, prefix_spec.
  - split.
    + intros [[post Hp] | Hf]; [|discriminate]. exists "", post. exact Hp.
    + intros (pre & post & Hs). left. exists post.
      destruct pre; [exact Hs | discriminate].
  - rewrite IH. split.
    + intros [[post Hp] | (pre & post & Hs)].
      * exists "", post. exact Hp.
      * exists (String c pre), post. rewrite Hs. reflexivity.
    + intros (pre & post & Hs). destruct pre as [|c' pre].
      * left. exists post. exact Hs.
      * right. exists pre, post. inversion Hs. reflexivity.
Qed.

Lemma any_in_spec (keywords : list string) (s : string) :
  any_in keywords s = true <-> mentions keywords s.
Proof.
  unfold any_in, mentions. rewrite existsb_exists.
  split; intros (kw & Hin & Hc); exists kw; (split; [exact Hin|]);
    apply contains_spec; exact Hc.
Qed.

(** C6. Classification works on the lower-cased industry string: empty
    (as it is for an industry that is absent or empty) gives
    non_manufacturing / Z_double_prime; a string that contains a
    financial keyword gives financial / Z_double_prime; otherwise a
    string that contains a manufacturing keyword gives manufacturing / Z;
    otherwise non_manufacturing / Z_double_prime.  The financial test
    comes first: a string with keywords of both kinds, such as
    "auto insurance", is financial. *)
Theorem classify_rule (industry : option string) (tl : float) :
  let s := lower (default "" industry) in
  (s = "" ->
   classification industry tl = ("non_manufacturing", "Z_double_prime"))
  /\ (s <> "" -> mentions FINANCIAL_KEYWORDS s ->
      classification industry tl = ("financial", "Z_double_prime"))
  /\ (s <> "" -> ~ mentions FINANCIAL_KEYWORDS s ->
      mentions MANUFACTURING_KEYWORDS s ->
      classification industry tl = ("manufacturing", "Z"))
  /\ (s <> "" -> ~ mentions FINANCIAL_KEYWORDS s ->
      ~ mentions MANUFACTURING_KEYWORDS s ->
      classification industry tl = ("non_manufacturing", "Z_double_prime"))
  /\ (mentions FINANCIAL_KEYWORDS s -> mentions MANUFACTURING_KEYWORDS s ->
      classification industry tl = ("financial", "Z_double_prime"))
  /\ (mentions FINANCIAL_KEYWORDS "auto insurance"
      /\ mentions MANUFACTURING_KEYWORDS "auto insurance"
      /\ classification (Some "auto insurance") tl
         = ("financial", "Z_double_prime"))
  /\ (default "" industry = "" ->
      classification industry tl = ("non_manufacturing", "Z_double_prime")).
Proof.
  intros s.
  assert (Hcl : classification industry tl =
    if bool_decide (s = "") then ("non_manufacturing", "Z_double_prime")
    else if any_in FINANCIAL_KEYWORDS s then ("financial", "Z_double_prime")
    else if any_in MANUFACTURING_KEYWORDS s then ("manufacturing", "Z")
    else ("non_manufacturing", "Z_double_prime")).
  { unfold classification, classify, _is_financial, _is_manufacturing, __init__.
    cbn [CompanyClassifier.industry]. fold s.
    destruct (bool_decide (s = "")); [reflexivity|].
    destruct (any_in FINANCIAL_KEYWORDS s); [reflexivity|].
    destruct (any_in MANUFACTURING_KEYWORDS s); reflexivity. }
  assert (Hfin_nonempty : mentions FINANCIAL_KEYWORDS s -> s <> "").
  { intros (kw & Hin & pre & post & Hs) ->.
    destruct pre; [|discriminate]. cbn in Hs.
    cbn in Hin. repeat (destruct Hin as [<- | Hin]; [discriminate|]).
    exact Hin. }
  pose proof (any_in_spec FINANCIAL_KEYWORDS s) as Hf.
  pose proof (any_in_spec MANUFACTURING_KEYWORDS s) as Hm.
  repeat apply conj.
  - intros Hs. rewrite Hcl, bool_decide_eq_true_2 by exact Hs. reflexivity.
  - intros Hs Hfin. rewrite Hcl, bool_decide_eq_false_2 by exact Hs.
    apply Hf in Hfin. rewrite Hfin. reflexivity.
  - intros Hs Hfin Hman. rewrite Hcl, bool_decide_eq_false_2 by exact Hs.
    destruct (any_in FINANCIAL_KEYWORDS s); [exfalso; apply Hfin, Hf; reflexivity|].
    apply Hm in Hman. rewrite Hman. reflexivity.
  - intros Hs Hfin Hman. rewrite Hcl, bool_decide_eq_false_2 by exact Hs.
    destruct (any_in FINANCIAL_KEYWORDS s); [exfalso; apply Hfin, Hf; reflexivity|].
    destruct (any_in MANUFACTURING_KEYWORDS s);
      [exfalso; apply Hman, Hm; reflexivity | reflexivity].
  - intros Hfin _. rewrite Hcl, bool_decide_eq_false_2 by auto.
    apply Hf in Hfin. rewrite Hfin. reflexivity.
  - apply any_in_spec. reflexivity.
  - apply any_in_spec. reflexivity.
  - unfold classification, classify, _is_financial, _is_manufacturing, __init__.
    cbn [CompanyClassifier.industry default from_option id].
    rewrite (lower_ascii_text_eq "auto insurance" eq_refl). reflexivity.
  - intros Hempty. rewrite Hcl. unfold s. rewrite Hempty.
    rewrite (lower_ascii_text_eq "" eq_refl). reflexivity.
Qed.

End ClassifierProperties.

Lemma classify_rule_witness :
  classification (H := Reference.builtins) (Some "Auto Insurance") zero
  = ("financial", "Z_double_prime").
Proof.
  apply (proj1 (proj2 (classify_rule (H := Reference.builtins)
                         (Some "Auto Insurance") zero))).
  - discriminate.
  - apply any_in_spec. reflexivity.
Defined.

(** ** Unknown model variants *)

Section VariantProperties.
Context `{Builtins}.
Import Decision.

(** C7 (as the code has it). A variant outside {Z, Z_double_prime} is
    rejected by the constructor of the Z-Score calculator, so that no
    ratio is computed; the Z-Score decision accepts it: its constructor
    stores it, and [evaluate] falls back to the Z_double_prime
    thresholds. *)
Theorem unknown_variant_handling (v : string) :
  v <> "Z" -> v <> "Z_double_prime" ->
  (forall facts : FinancialFacts,
     ZScoreCalculator.__init__ facts v
       = Raise (ValueError ("Versión inválida: '" ++ v ++ "'."))
     /\ zscore_compute facts v
       = Raise (ValueError ("Versión inválida: '" ++ v ++ "'.")))
  /\ (forall z : float,
     ZScoreDecision.__init__ z v
       = Ok {| ZScoreDecision.z_score := z; ZScoreDecision.model_version := v |}
     /\ three_zones
          (ZScoreDecision.evaluate
             {| ZScoreDecision.z_score := z; ZScoreDecision.model_version := v |})
          (z >? lit 260 100)%F (z <? lit 110 100)%F).
Proof.
  intros H1 H2. split.
  - intros facts. unfold zscore_compute, ZScoreCalculator.__init__.
    rewrite COEFFICIENTS_other by assumption. split; reflexivity.
  - intros z. split; [reflexivity|].
    apply three_zones_intro.
    + destruct threshold_values as (_ & _ & E260 & E110 & _).
      rewrite E260, E110. apply below_lo_not_above_hi. lia.
    + pose proof (zscore_zone_pair
        {| ZScoreDecision.z_score := z; ZScoreDecision.model_version := v |}) as Hp.
      cbv zeta in Hp. cbn [ZScoreDecision.model_version ZScoreDecision.z_score] in Hp.
      rewrite THRESHOLDS_other in Hp by assumption. exact Hp.
Qed.

End VariantProperties.

Lemma unknown_variant_handling_witness :
  (forall facts : FinancialFacts,
     ZScoreCalculator.__init__ facts "Z_prime"
       = Raise (ValueError "Versión inválida: 'Z_prime'.")
     /\ zscore_compute (H := Reference.builtins) facts "Z_prime"
       = Raise (ValueError "Versión inválida: 'Z_prime'."))
  /\ (forall z : float,
     ZScoreDecision.__init__ z "Z_prime"
       = Ok {| ZScoreDecision.z_score := z;
               ZScoreDecision.model_version := "Z_prime" |}
     /\ three_zones
          (ZScoreDecision.evaluate (H := Reference.builtins)
             {| ZScoreDecision.z_score := z;
                ZScoreDecision.model_version := "Z_prime" |})
          (z >? lit 260 100)%F (z <? lit 110 100)%F).
Proof.
  apply (unknown_variant_handling (H := Reference.builtins) "Z_prime");
    discriminate.
Defined.

(** C7 as stated fails: the variant "Z_prime" is in neither table, and
    the Z-Score decision stage is constructed for it and evaluates the
    score 3 to SAFE / APPROVED instead of rejecting the variant. *)
Lemma zscore_decision_accepts_unknown_variant :
  "Z_prime" <> "Z" /\ "Z_prime" <> "Z_double_prime"
  /\ ZScoreDecision.THRESHOLDS !! "Z_prime" = None
  /\ exists d : ZScoreDecision.t,
       ZScoreDecision.__init__ (of_Z 3) "Z_prime" = Ok d
       /\ Decision.zone (ZScoreDecision.evaluate (H := Reference.builtins) d) = "SAFE"
       /\ Decision.decision (ZScoreDecision.evaluate (H := Reference.builtins) d)
          = "APPROVED".
Proof.
  split; [discriminate|]. split; [discriminate|]. split; [reflexivity|].
  eexists. split; [reflexivity|]. split; vm_compute; reflexivity.
Qed.

(** ** zscore_fetcher.py: what must be present *)

Section FetcherProperties.
Import YFinance.
Local Abbreviation fetcher := ZScoreDataFetcher.t.

Lemma latest_column_statement (self : fetcher) (what : string) (df : option DataFrame) :
  ZScoreDataFetcher.latest_column self what df =
  match statement df with
  | Some latest => Ok latest
  | None => Raise (ZScoreDataFetcher.no_statement self what)
  end.
Proof.
  unfold ZScoreDataFetcher.latest_column, statement, empty.
  destruct df as [[|latest df]|]; try reflexivity.
  destruct (bool_decide (size latest = 0%nat)); reflexivity.
Qed.

Lemma has_label_lookup (label : string) (s : Series) :
  has_label label s = match s !! label with Some _ => true | None => false end.
Proof.
  unfold has_label. destruct (s !! label).
  - apply bool_decide_eq_true_2. eauto.
  - apply bool_decide_eq_false_2. intros [? ?]; discriminate.
Qed.

Lemma fetch_balance_sheet_eq (self : fetcher) (stock : Ticker) :
  ZScoreDataFetcher._fetch_balance_sheet self stock =
  match statement (balance_sheet stock) with
  | None => Raise (ZScoreDataFetcher.no_statement self "balance sheet")
  | Some bs =>
      match bs !! "Total Assets", bs !! "Total Liabilities Net Minority Interest" with
      | None, _ => Raise (KeyError "Total Assets")
      | Some _, None => Raise (KeyError "Total Liabilities Net Minority Interest")
      | Some ta, Some tl =>
          Ok {| ZScoreDataFetcher.ticker := ZScoreDataFetcher.ticker self;
                ZScoreDataFetcher.company_name := ZScoreDataFetcher.company_name self;
                ZScoreDataFetcher.sic_code := ZScoreDataFetcher.sic_code self;
                ZScoreDataFetcher.industry := ZScoreDataFetcher.industry self;
                ZScoreDataFetcher.working_capital := working_capital_of bs;
                ZScoreDataFetcher.total_assets := Some ta;
                ZScoreDataFetcher.retained_earnings := retained_earnings_of bs;
                ZScoreDataFetcher.ebit := ZScoreDataFetcher.ebit self;
                ZScoreDataFetcher.market_cap := ZScoreDataFetcher.market_cap self;
                ZScoreDataFetcher.total_liabilities := Some tl;
                ZScoreDataFetcher.sales := ZScoreDataFetcher.sales self |}
      end
  end.
Proof.
  unfold ZScoreDataFetcher._fetch_balance_sheet.
  rewrite latest_column_statement.
  destruct (statement (balance_sheet stock)) as [bs|]; [|reflexivity].
  unfold working_capital_of, retained_earnings_of.
  cbn -[has_label getitem].
  rewrite !has_label_lookup. unfold getitem.
  destruct (bs !! "Total Assets"); [|reflexivity].
  destruct (bs !! "Total Liabilities Net Minority Interest"); [|reflexivity].
  cbn.
  destruct (bs !! "Working Capital"), (bs !! "Current Assets"),
    (bs !! "Current Liabilities"), (bs !! "Retained Earnings"); reflexivity.
Qed.

Lemma fetch_income_statement_eq (self : fetcher) (stock : Ticker) :
  ZScoreDataFetcher._fetch_income_statement self stock =
  match statement (income_stmt stock) with
  | None => Raise (ZScoreDataFetcher.no_statement self "income statement")
  | Some inc =>
      match ebit_of inc, sales_of inc with
      | None, _ =>
          Raise (ValueError ("[" ++ ZScoreDataFetcher.ticker self ++
                             "] No se encontró EBIT ni alternativa válida."))
      | Some _, None =>
          Raise (ValueError ("[" ++ ZScoreDataFetcher.ticker self ++
                             "] No se encontró Total Revenue."))
      | Some e, Some s =>
          Ok {| ZScoreDataFetcher.ticker := ZScoreDataFetcher.ticker self;
                ZScoreDataFetcher.company_name := ZScoreDataFetcher.company_name self;
                ZScoreDataFetcher.sic_code := ZScoreDataFetcher.sic_code self;
                ZScoreDataFetcher.industry := ZScoreDataFetcher.industry self;
                ZScoreDataFetcher.working_capital := ZScoreDataFetcher.working_capital self;
                ZScoreDataFetcher.total_assets := ZScoreDataFetcher.total_assets self;
                ZScoreDataFetcher.retained_earnings :=
                  ZScoreDataFetcher.retained_earnings self;
                ZScoreDataFetcher.ebit := Some e;
                ZScoreDataFetcher.market_cap := ZScoreDataFetcher.market_cap self;
                ZScoreDataFetcher.total_liabilities :=
                  ZScoreDataFetcher.total_liabilities self;
                ZScoreDataFetcher.sales := Some s |}
      end
  end.
Proof.
  unfold ZScoreDataFetcher._fetch_income_statement.
  rewrite latest_column_statement.
  destruct (statement (income_stmt stock)) as [inc|]; [|reflexivity].
  unfold ebit_of, sales_of.
  cbn -[has_label getitem].
  rewrite !has_label_lookup. unfold getitem.
  destruct (inc !! "EBIT"), (inc !! "Operating Income"), (inc !! "Pretax Income"),
    (inc !! "Total Revenue"), (inc !! "Operating Revenue"); reflexivity.
Qed.

Lemma fetch_all_fetched (self : fetcher) (stock : Ticker) :
  match fetched stock with
  | Some facts => exists self', ZScoreDataFetcher.fetch_all self stock = Ok (facts, self')
  | None => exists e, ZScoreDataFetcher.fetch_all self stock = Raise e
  end.
Proof.
  unfold fetched, ZScoreDataFetcher.fetch_all.
  rewrite fetch_balance_sheet_eq.
  destruct (statement (balance_sheet stock)) as [bs|]; cbn; [|eauto].
  destruct (bs !! "Total Assets") as [ta|]; cbn; [|eauto].
  destruct (bs !! "Total Liabilities Net Minority Interest") as [tl|]; cbn; [|eauto].
  rewrite fetch_income_statement_eq.
  destruct (statement (income_stmt stock)) as [inc|]; cbn; [|eauto].
  destruct (ebit_of inc) as [e|]; cbn; [|eauto].
  destruct (sales_of inc) as [s|]; cbn; [|eauto].
  unfold ZScoreDataFetcher._fetch_market_data.
  destruct (marketCap (info stock)) as [mc|]; cbn; [|eauto].
  eexists. reflexivity.
Qed.

Lemma required_available_fetched (stock : Ticker) :
  required_available stock <-> is_Some (fetched stock).
Proof.
  unfold required_available, has_row, fetched, ebit_of, sales_of.
  destruct (statement (balance_sheet stock)) as [bs|]; cbn;
    [|split; [intros ((? & ? & _) & _); discriminate | intros [? ?]; discriminate]].
  destruct (bs !! "Total Assets") as [ta|] eqn:Eta; cbn;
    [|split; [intros ((? & [= <-] & [? ?]) & _); congruence
             | intros [? ?]; discriminate]].
  destruct (bs !! "Total Liabilities Net Minority Interest") as [tl|] eqn:Etl; cbn;
    [|split; [intros (_ & (? & [= <-] & [? ?]) & _); congruence
             | intros [? ?]; discriminate]].
  destruct (statement (income_stmt stock)) as [inc|]; cbn;
    [|split; [intros (_ & _ & [(? & ? & _)|[(? & ? & _)|(? & ? & _)]] & _);
                discriminate
             | intros [? ?]; discriminate]].
  split.
  - intros (_ & _ & He & Hs & [mc ->]).
    assert (He' : exists e, match inc !! "EBIT", inc !! "Operating Income",
                                  inc !! "Pretax Income" with
                            | Some v, _, _ | None, Some v, _ | None, None, Some v => Some v
                            | None, None, None => None
                            end = Some e).
    { destruct He as [(? & [= <-] & [? ->])|[(? & [= <-] & [? ->])|(? & [= <-] & [? ->])]];
        repeat case_match; eauto. }
    assert (Hs' : exists s, match inc !! "Total Revenue", inc !! "Operating Revenue" with
                            | Some v, _ | None, Some v => Some v
                            | None, None => None
                            end = Some s).
    { destruct Hs as [(? & [= <-] & [? ->])|(? & [= <-] & [? ->])];
        repeat case_match; eauto. }
    destruct He' as [e ->], Hs' as [s ->]. cbn. eauto.
  - intros Hsome.
    repeat apply conj; try (exists bs; split; [reflexivity | eauto]).
    + destruct (inc !! "EBIT") eqn:E1;
        [left; exists inc; split; [reflexivity | rewrite E1; eauto]|].
      destruct (inc !! "Operating Income") eqn:E2;
        [right; left; exists inc; split; [reflexivity | rewrite E2; eauto]|].
      destruct (inc !! "Pretax Income") eqn:E3;
        [right; right; exists inc; split; [reflexivity | rewrite E3; eauto]|].
      cbn in Hsome. destruct Hsome; discriminate.
    + destruct (match inc !! "EBIT" with Some _ => _ | None => _ end);
        [|cbn in Hsome; destruct Hsome; discriminate].
      cbn in Hsome.
      destruct (inc !! "Total Revenue") eqn:E1;
        [left; exists inc; split; [reflexivity | rewrite E1; eauto]|].
      destruct (inc !! "Operating Revenue") eqn:E2;
        [right; exists inc; split; [reflexivity | rewrite E2; eauto]|].
      cbn in Hsome. destruct Hsome; discriminate.
    + destruct (match inc !! "EBIT" with Some _ => _ | None => _ end);
        [|cbn in Hsome; destruct Hsome; discriminate].
      cbn in Hsome.
      destruct (match inc !! "Total Revenue" with Some _ => _ | None => _ end);
        [|cbn in Hsome; destruct Hsome; discriminate].
      cbn in Hsome.
      destruct (marketCap (info stock)); [eauto | destruct Hsome; discriminate].
Qed.

(** The conversion of a validated dict does not fail. *)
Lemma validated_dict_converts (self : fetcher) :
  ZScoreDataFetcher._validate_data (ZScoreDataFetcher.ticker self)
    (ZScoreDataFetcher.data_dict self) ZScoreDataFetcher.REQUIRED_FIELDS = Ok tt ->
  exists facts, ZScoreDataFetcher.facts_of_dict (ZScoreDataFetcher.data_dict self)
                = Ok facts.
Proof.
  destruct self as [tk cn sic ind wc [ta|] re [e|] [mc|] [tl|] [sl|]];
    intros Hv; try (vm_compute in Hv; discriminate); eexists; reflexivity.
Qed.

(** C8 (as the code has it). [fetch_all] fails exactly when one of the
    five required fields cannot be read: total assets, total liabilities,
    EBIT (or Operating Income, or Pretax Income), sales (Total Revenue or
    Operating Revenue) and the market capitalisation.  Working capital
    and retained earnings are not required: when it succeeds, a working
    capital that is absent is current assets minus current liabilities,
    or 0.0 without them, and absent retained earnings are 0.0. *)
Theorem fetch_all_required_fields (self : fetcher) (stock : Ticker) :
  ((exists e, ZScoreDataFetcher.fetch_all self stock = Raise e)
     <-> ~ required_available stock)
  /\ (forall (facts : FinancialFacts) (self' : fetcher),
      ZScoreDataFetcher.fetch_all self stock = Ok (facts, self') ->
      exists bs : Series,
        statement (balance_sheet stock) = Some bs
        /\ working_capital facts = working_capital_of bs
        /\ retained_earnings facts = retained_earnings_of bs
        /\ (bs !! "Working Capital" = None ->
            bs !! "Current Assets" = None \/ bs !! "Current Liabilities" = None ->
            working_capital facts = zero)
        /\ (bs !! "Retained Earnings" = None -> retained_earnings facts = zero)).
Proof.
  pose proof (fetch_all_fetched self stock) as Hf.
  pose proof (required_available_fetched stock) as Hav.
  split.
  - destruct (fetched stock) as [facts|].
    + destruct Hf as [self' Hf]. split.
      * intros [e He]. congruence.
      * intros Hn. exfalso. apply Hn, Hav. eauto.
    + split; [|intros _; exact Hf].
      intros _ Hr. apply Hav in Hr as [? ?]. discriminate.
  - intros facts self' Hok.
    destruct (fetched stock) as [facts0|] eqn:Efetched;
      [|destruct Hf as [e He]; congruence].
    destruct Hf as [self0 Hf]. rewrite Hf in Hok. injection Hok as <- <-.
    unfold fetched in Efetched.
    destruct (statement (balance_sheet stock)) as [bs|]; [|discriminate].
    exists bs. cbn in Efetched.
    repeat match type of Efetched with
           | context [?o ≫= _] =>
               destruct o; cbn in Efetched; [|discriminate]
           end.
    injection Efetched as <-. cbn.
    unfold working_capital_of, retained_earnings_of.
    repeat apply conj; try reflexivity.
    + intros -> [-> | ->]; [reflexivity|]. destruct (bs !! "Current Assets"); reflexivity.
    + intros ->. reflexivity.
Qed.

End FetcherProperties.

Lemma fetch_all_required_fields_witness :
  exists e, ZScoreDataFetcher.fetch_all (ZScoreDataFetcher.__init__ "acme")
              unlisted_stock = Raise e.
Proof.
  apply (proj1 (fetch_all_required_fields
                  (ZScoreDataFetcher.__init__ "acme") unlisted_stock)).
  intros (_ & _ & _ & _ & [mc Hmc]). discriminate.
Defined.

(** C8 as stated fails: working capital and retained earnings are
    missing from the provider's data (and so are current assets and
    liabilities), yet [fetch_all] succeeds and hands over 0.0 for both. *)
Lemma missing_fields_replaced_by_zero :
  bare_balance_sheet !! "Working Capital" = None
  /\ bare_balance_sheet !! "Current Assets" = None
  /\ bare_balance_sheet !! "Current Liabilities" = None
  /\ bare_balance_sheet !! "Retained Earnings" = None
  /\ exists (facts : FinancialFacts) (self' : ZScoreDataFetcher.t),
       ZScoreDataFetcher.fetch_all (ZScoreDataFetcher.__init__ "acme") bare_stock
         = Ok (facts, self')
       /\ working_capital facts = zero
       /\ retained_earnings facts = zero.
Proof.
  repeat apply conj; try reflexivity.
  eexists _, _. split; [vm_compute; reflexivity|]. split; reflexivity.
Qed.

(** ** risk_analyzer.py: the batch and the single run *)

Section AnalyzerProperties.
Context `{Builtins} (world : World).
Import RiskAnalyzer.

Lemma analyze_loop (tickers : list string) (all_results : list entry) :
  fold_left (analyze_step world) tickers all_results
  = all_results ++ map (outcome world) tickers.
Proof.
  revert all_results.
  induction tickers as [|ticker tickers IH]; intros all_results; cbn.
  - rewrite app_nil_r. reflexivity.
  - rewrite IH. unfold analyze_step, outcome.
    destruct (run world (__init__ ticker)); rewrite <- app_assoc; reflexivity.
Qed.

Lemma analyze_multiple_map (tickers : list string) :
  analyze_multiple world tickers = map (outcome world) tickers.
Proof. unfold analyze_multiple. rewrite analyze_loop. reflexivity. Qed.

(** C9. The batch returns one entry per ticker, in input order; the
    entry of a ticker is the analysis of that ticker when its run
    returns, and the error record with the ticker and the message when
    its run raises; the entries before and after a ticker are those of
    the batches before and after it, whatever that ticker does. *)
Theorem analyze_multiple_isolation (tickers : list string) :
  length (analyze_multiple world tickers) = length tickers
  /\ (forall (i : nat) (ticker : string),
        tickers !! i = Some ticker ->
        analyze_multiple world tickers !! i = Some (outcome world ticker))
  /\ (forall (ticker : string) (r : analysis),
        run world (__init__ ticker) = Ok r -> outcome world ticker = Analysis r)
  /\ (forall (ticker : string) (e : exn),
        run world (__init__ ticker) = Raise e ->
        outcome world ticker = ErrorRecord ticker (exn_str e))
  /\ (forall (before after : list string) (ticker : string),
        tickers = before ++ ticker :: after ->
        analyze_multiple world tickers
        = analyze_multiple world before ++ outcome world ticker
          :: analyze_multiple world after).
Proof.
  rewrite analyze_multiple_map. repeat apply conj.
  - apply length_map.
  - intros i ticker Hi. rewrite list_lookup_fmap, Hi. reflexivity.
  - intros ticker r Hr. unfold outcome. rewrite Hr. reflexivity.
  - intros ticker e Hr. unfold outcome. rewrite Hr. reflexivity.
  - intros before after ticker ->. rewrite !analyze_multiple_map, map_app.
    reflexivity.
Qed.

(** C10. A run that completes with the Merton stage skipped had
    strictly negative total liabilities: the Z-Score stage has already
    rejected zero, and the stage is skipped when they are not positive.
    The final decision is then the Z-Score decision. *)
Theorem merton_skipped_negative_liabilities (self : t) (r : analysis) :
  run world self = Ok r ->
  applicable (a_merton r) = false ->
  exists (facts : FinancialFacts) (z_fetcher : ZScoreDataFetcher.t),
    ZScoreDataFetcher.fetch_all
      (ZScoreDataFetcher.__init__ (ticker self))
      (yf_Ticker world
         (ZScoreDataFetcher.ticker (ZScoreDataFetcher.__init__ (ticker self))))
      = Ok (facts, z_fetcher)
    /\ (total_liabilities facts <? zero)%F = true
    /\ (total_liabilities facts == zero)%F = false
    /\ results (a_merton r) = None
    /\ m_decision (a_merton r) = None
    /\ fd_decision (a_final_decision r) = Decision.decision (zs_decision (a_zscore r))
    /\ fd_basis (a_final_decision r) = "Z-Score únicamente (Merton no aplicable)".
Proof.
  unfold run. intros Hrun Happl.
  apply bind_ok in Hrun as ([facts z_fetcher] & Hfetch & Hrun).
  exists facts, z_fetcher. split; [exact Hfetch|].
  destruct (CompanyClassifier.classify _) as [company_type classifier] eqn:Hcl
    in Hrun.
  assert (Htl : CompanyClassifier.total_liabilities classifier
                = total_liabilities facts).
  { unfold CompanyClassifier.classify in Hcl. injection Hcl as _ <-.
    repeat case_match; reflexivity. }
  apply bind_ok in Hrun as (z_calc & Hinit & Hrun).
  apply bind_ok in Hrun as (z_results & Hcalc & Hrun).
  apply bind_ok in Hrun as (z_dec_obj & _ & Hrun).
  assert (Hdata : ZScoreCalculator.data z_calc = facts).
  { unfold ZScoreCalculator.__init__ in Hinit.
    destruct (ZScoreCalculator.COEFFICIENTS !! _); [|discriminate].
    injection Hinit as <-. reflexivity. }
  assert (Hnz : (total_liabilities facts == zero)%F = false).
  { unfold ZScoreCalculator.calculate in Hcalc. rewrite Hdata in Hcalc.
    destruct (total_assets facts == zero)%F; [discriminate|].
    destruct (total_liabilities facts == zero)%F; [discriminate | reflexivity]. }
  unfold CompanyClassifier.get_merton_applicability in Hrun.
  rewrite Htl in Hrun.
  destruct (total_liabilities facts <=? zero)%F eqn:Hle.
  - cbn in Hrun. injection Hrun as <-. cbn.
    split; [apply fleb_not_feqb_fltb; assumption|].
    split; [exact Hnz|].
    repeat apply conj; reflexivity.
  - apply bind_ok in Hrun as ([mr md] & _ & Hrun).
    injection Hrun as <-. cbn in Happl. discriminate.
Qed.

End AnalyzerProperties.

Lemma analyze_multiple_isolation_witness :
  RiskAnalyzer.analyze_multiple (H := Reference.builtins) sample_world
    ["acme"; "nocap"; "shell"] !! 1%nat
  = Some (outcome (H := Reference.builtins) sample_world "nocap").
Proof.
  apply (proj1 (proj2 (analyze_multiple_isolation (H := Reference.builtins)
                         sample_world ["acme"; "nocap"; "shell"]))).
  reflexivity.
Defined.

Lemma merton_skipped_negative_liabilities_witness :
  exists (facts : FinancialFacts) (z_fetcher : ZScoreDataFetcher.t),
    ZScoreDataFetcher.fetch_all (ZScoreDataFetcher.__init__ "SHELL") shell_stock
      = Ok (facts, z_fetcher)
    /\ (total_liabilities facts <? zero)%F = true.
Proof.
  destruct (RiskAnalyzer.run (H := Reference.builtins) sample_world
              (RiskAnalyzer.__init__ " shell ")) as [r|e] eqn:Hrun;
    [|vm_compute in Hrun; discriminate].
  destruct (merton_skipped_negative_liabilities (H := Reference.builtins)
              sample_world (RiskAnalyzer.__init__ " shell ") r Hrun)
    as (facts & z_fetcher & Hfetch & Hneg & _).
  - vm_compute in Hrun. injection Hrun as <-. reflexivity.
  - exists facts, z_fetcher. split; [exact Hfetch | exact Hneg].
Defined.

(** ** Strings: ASCII text under [upper], [lower] and [strip] *)

Section StringProperties.
Import PyStr.

Lemma upper_ascii_whitespace (c : ascii) : is_whitespace (upper_ascii c) = is_whitespace c.
Proof. destruct c as [[] [] [] [] [] [] [] []]; reflexivity. Qed.

Lemma upper_ascii_idem (c : ascii) : upper_ascii (upper_ascii c) = upper_ascii c.
Proof. destruct c as [[] [] [] [] [] [] [] []]; reflexivity. Qed.

Lemma lower_upper_ascii (c : ascii) : lower_ascii (upper_ascii c) = lower_ascii c.
Proof. destruct c as [[] [] [] [] [] [] [] []]; reflexivity. Qed.

Lemma append_cons (c : ascii) (s t : string) : String c s +:+ t = String c (s +:+ t).
Proof. reflexivity. Qed.

Lemma append_nil_r (s : string) : s +:+ "" = s.
Proof. induction s as [|c s IH]; [reflexivity|]. rewrite append_cons, IH. reflexivity. Qed.

Lemma append_assoc (s t u : string) : (s +:+ t) +:+ u = s +:+ (t +:+ u).
Proof. induction s as [|c s IH]; [reflexivity|]. rewrite !append_cons, IH. reflexivity. Qed.

Lemma rev_app_spec (s acc : string) : String.rev_app s acc = String.rev s +:+ acc.
Proof.
  unfold String.rev. revert acc. induction s as [|c s IH]; intros acc; [reflexivity|].
  cbn [String.rev_app]. rewrite IH, (IH (String c "")), append_assoc. reflexivity.
Qed.

Lemma rev_cons (c : ascii) (s : string) : String.rev (String c s) = String.rev s +:+ String c "".
Proof. unfold String.rev at 1. cbn [String.rev_app]. apply rev_app_spec. Qed.

Lemma rev_append (s t : string) : String.rev (s +:+ t) = String.rev t +:+ String.rev s.
Proof.
  induction s as [|c s IH].
  - change ("" +:+ t) with t. rewrite append_nil_r. reflexivity.
  - rewrite append_cons, !rev_cons, IH, append_assoc. reflexivity.
Qed.

Lemma rev_involutive (s : string) : String.rev (String.rev s) = s.
Proof.
  induction s as [|c s IH]; [reflexivity|].
  rewrite rev_cons, rev_append, IH. reflexivity.
Qed.

Lemma lstrip_clean (s : string) : starts_clean (lstrip s).
Proof.
  induction s as [|c s IH]; [exact I|]. cbn [lstrip].
  destruct (is_whitespace c) eqn:E; [exact IH | exact E].
Qed.

Lemma lstrip_fixed (s : string) : starts_clean s -> lstrip s = s.
Proof. destruct s as [|c s]; [reflexivity|]. cbn. intros ->. reflexivity. Qed.

Lemma lstrip_suffix (s : string) : exists w, s = w +:+ lstrip s.
Proof.
  induction s as [|c s [w IH]]; [exists ""; reflexivity|]. cbn [lstrip].
  destruct (is_whitespace c).
  - exists (String c w). rewrite append_cons, <- IH. reflexivity.
  - exists "". reflexivity.
Qed.

Lemma starts_clean_append (s t : string) :
  starts_clean (s +:+ t) -> starts_clean s.
Proof. destruct s as [|c s]; [intros _; exact I|]. rewrite append_cons. exact id. Qed.

Lemma strip_clean (s : string) :
  starts_clean (strip s) /\ starts_clean (String.rev (strip s)).
Proof.
  unfold strip. rewrite rev_involutive. split; [|apply lstrip_clean].
  destruct (lstrip_suffix (String.rev (lstrip s))) as [w Hw].
  apply (starts_clean_append _ (String.rev w)).
  rewrite <- rev_append, <- Hw, rev_involutive. apply lstrip_clean.
Qed.

Lemma strip_fixed (s : string) :
  starts_clean s -> starts_clean (String.rev s) -> strip s = s.
Proof.
  intros H1 H2. unfold strip.
  rewrite (lstrip_fixed s H1), (lstrip_fixed _ H2). apply rev_involutive.
Qed.

Lemma strip_idempotent (s : string) : strip (strip s) = strip s.
Proof. apply strip_fixed; apply strip_clean. Qed.

Lemma upper_append (s t : string) : upper (s +:+ t) = upper s +:+ upper t.
Proof. induction s as [|c s IH]; [reflexivity|]. rewrite append_cons. cbn [upper]. rewrite IH. reflexivity. Qed.

Lemma upper_rev (s : string) : upper (String.rev s) = String.rev (upper s).
Proof.
  induction s as [|c s IH]; [reflexivity|].
  cbn [upper]. rewrite !rev_cons, upper_append, IH. reflexivity.
Qed.

Lemma upper_lstrip (s : string) : upper (lstrip s) = lstrip (upper s).
Proof.
  induction s as [|c s IH]; [reflexivity|]. cbn [upper lstrip].
  rewrite upper_ascii_whitespace. destruct (is_whitespace c); [exact IH | reflexivity].
Qed.

Lemma upper_strip (s : string) : upper (strip s) = strip (upper s).
Proof. unfold strip. rewrite upper_rev, upper_lstrip, upper_rev, upper_lstrip. reflexivity. Qed.

Lemma upper_idempotent (s : string) : upper (upper s) = upper s.
Proof. induction s as [|c s IH]; [reflexivity|]. cbn [upper]. rewrite upper_ascii_idem, IH. reflexivity. Qed.

Lemma lower_upper (s : string) : lower_ascii_text (upper s) = lower_ascii_text s.
Proof.
  induction s as [|c s IH]; [reflexivity|]. cbn [upper lower_ascii_text].
  rewrite lower_upper_ascii, IH. reflexivity.
Qed.

Lemma lower_ascii_idem (c : ascii) : lower_ascii (lower_ascii c) = lower_ascii c.
Proof. destruct c as [[] [] [] [] [] [] [] []]; reflexivity. Qed.

Lemma lower_idempotent (s : string) :
  lower_ascii_text (lower_ascii_text s) = lower_ascii_text s.
Proof.
  induction s as [|c s IH]; [reflexivity|]. cbn [lower_ascii_text].
  rewrite lower_ascii_idem, IH. reflexivity.
Qed.

Lemma is_ascii_upper_ascii (c : ascii) :
  (N_of_ascii (upper_ascii c) <? 128)%N = (N_of_ascii c <? 128)%N.
Proof. destruct c as [[] [] [] [] [] [] [] []]; reflexivity. Qed.

Lemma is_ascii_lower_ascii (c : ascii) :
  (N_of_ascii (lower_ascii c) <? 128)%N = (N_of_ascii c <? 128)%N.
Proof. destruct c as [[] [] [] [] [] [] [] []]; reflexivity. Qed.

Lemma is_ascii_upper (s : string) : is_ascii (upper s) = is_ascii s.
Proof.
  induction s as [|c s IH]; [reflexivity|]. cbn [upper is_ascii].
  rewrite is_ascii_upper_ascii, IH. reflexivity.
Qed.

Lemma is_ascii_lower (s : string) : is_ascii (lower_ascii_text s) = is_ascii s.
Proof.
  induction s as [|c s IH]; [reflexivity|]. cbn [lower_ascii_text is_ascii].
  rewrite is_ascii_lower_ascii, IH. reflexivity.
Qed.

Lemma normalise_idempotent (s : string) :
  strip (upper (strip (upper s))) = strip (upper s).
Proof. rewrite upper_strip, upper_idempotent. apply strip_idempotent. Qed.

End StringProperties.

(** ** main.py: the tickers typed in *)

Section TickerProperties.
Import PyStr Main.

Lemma every_char_append (P : ascii -> bool) (s t : string) :
  every_char P (s +:+ t) = every_char P s && every_char P t.
Proof.
  induction s as [|c s IH]; [reflexivity|].
  rewrite append_cons. cbn [every_char]. rewrite IH, andb_assoc. reflexivity.
Qed.

Lemma every_char_rev (P : ascii -> bool) (s : string) :
  every_char P (String.rev s) = every_char P s.
Proof.
  induction s as [|c s IH]; [reflexivity|].
  rewrite rev_cons, every_char_append, IH. cbn [every_char].
  rewrite andb_true_r. apply andb_comm.
Qed.

Lemma every_char_lstrip (P : ascii -> bool) (s : string) :
  every_char P s = true -> every_char P (lstrip s) = true.
Proof.
  induction s as [|c s IH]; [reflexivity|]. cbn [lstrip every_char].
  intros [Hc Hs]%andb_prop. destruct (is_whitespace c); [auto|].
  cbn [every_char]. rewrite Hc, Hs. reflexivity.
Qed.

Lemma every_char_strip (P : ascii -> bool) (s : string) :
  every_char P s = true -> every_char P (strip s) = true.
Proof.
  intros H. unfold strip. rewrite every_char_rev. apply every_char_lstrip.
  rewrite every_char_rev. apply every_char_lstrip. exact H.
Qed.

Lemma every_char_impl (P Q : ascii -> bool) (s : string) :
  (forall c, P c = true -> Q c = true) ->
  every_char P s = true -> every_char Q s = true.
Proof.
  intros HPQ. induction s as [|c s IH]; [reflexivity|]. cbn [every_char].
  intros [Hc Hs]%andb_prop. rewrite (HPQ c Hc), (IH Hs). reflexivity.
Qed.

Lemma is_ascii_every_char (s : string) : is_ascii s = every_char ascii_char s.
Proof. induction s as [|c s IH]; [reflexivity|]. cbn. rewrite IH. reflexivity. Qed.

Lemma is_ascii_strip (s : string) : is_ascii s = true -> is_ascii (strip s) = true.
Proof. rewrite !is_ascii_every_char. apply every_char_strip. Qed.

(** Without white space, [strip] has nothing to remove. *)
Lemma strip_no_whitespace (s : string) :
  every_char (fun c => negb (is_whitespace c)) s = true -> strip s = s.
Proof.
  intros H. apply strip_fixed.
  - destruct s as [|c s]; [exact I|]. cbn in *.
    apply andb_prop in H as [Hc _]. apply negb_true_iff in Hc. exact Hc.
  - rewrite <- every_char_rev in H.
    destruct (String.rev s) as [|c r]; [exact I|]. cbn in *.
    apply andb_prop in H as [Hc _]. apply negb_true_iff in Hc. exact Hc.
Qed.

Lemma upper_fixed (s : string) :
  every_char (fun c => bool_decide (upper_ascii c = c)) s = true -> upper s = s.
Proof.
  induction s as [|c s IH]; [reflexivity|]. cbn [every_char upper].
  intros [Hc Hs]%andb_prop. apply bool_decide_eq_true in Hc.
  rewrite Hc, (IH Hs). reflexivity.
Qed.

Lemma ticker_like_fixed (t : string) :
  ticker_like t -> strip (upper t) = t.
Proof.
  intros [_ Ht].
  rewrite (upper_fixed t), (strip_no_whitespace t); [reflexivity| |].
  - revert Ht. apply every_char_impl. intros c. unfold ticker_char.
    intros [[[_ H]%andb_prop _]%andb_prop _]%andb_prop. exact H.
  - revert Ht. apply every_char_impl. intros c. unfold ticker_char.
    intros [_ H]%andb_prop. exact H.
Qed.

Lemma ticker_like_ascii (t : string) : ticker_like t -> is_ascii t = true.
Proof.
  intros [_ Ht]. rewrite is_ascii_every_char. revert Ht. apply every_char_impl.
  intros c. unfold ticker_char.
  intros [[[H _]%andb_prop _]%andb_prop _]%andb_prop. exact H.
Qed.

(** The words of [split]: not empty, without white space, made of
    characters of the text. *)
Lemma split_from_words (P : ascii -> bool) (s : string) : forall word : string,
  every_char P s = true ->
  every_char (fun c => negb (is_whitespace c) && P c) word = true ->
  Forall (fun t => t <> "" /\
                   every_char (fun c => negb (is_whitespace c) && P c) t = true)
    (split_from word s).
Proof.
  induction s as [|c s IH]; intros word Hs Hw; cbn [split_from].
  - case_bool_decide; [constructor|]. constructor; [split; assumption | constructor].
  - cbn [every_char] in Hs. apply andb_prop in Hs as [Hc Hs].
    destruct (is_whitespace c) eqn:Ews.
    + case_bool_decide.
      * apply IH; [exact Hs | reflexivity].
      * constructor; [split; assumption|]. apply IH; [exact Hs | reflexivity].
    + apply IH; [exact Hs|]. rewrite every_char_append, Hw. cbn [every_char].
      rewrite Ews, Hc. reflexivity.
Qed.

Lemma split_from_blank (s : string) :
  every_char is_whitespace s = true -> split_from "" s = [].
Proof.
  induction s as [|c s IH]; [reflexivity|]. cbn [every_char split_from].
  intros [-> Hs]%andb_prop. rewrite bool_decide_eq_true_2 by reflexivity. auto.
Qed.

Lemma str_replace_comma (s : string) :
  every_char (fun c => negb (Ascii.eqb c ",")) (str_replace "," " " s) = true.
Proof.
  induction s as [|c s IH]; [reflexivity|]. cbn [str_replace every_char].
  rewrite IH, andb_true_r. destruct (Ascii.eqb c ",") eqn:E; [reflexivity|].
  rewrite E. reflexivity.
Qed.

Lemma str_replace_blank (s : string) :
  every_char (fun c => is_whitespace c || Ascii.eqb c ",") s = true ->
  every_char is_whitespace (str_replace "," " " s) = true.
Proof.
  induction s as [|c s IH]; [reflexivity|]. cbn [str_replace every_char].
  intros [Hc Hs]%andb_prop. rewrite (IH Hs), andb_true_r.
  destruct (Ascii.eqb c ",") eqn:E; [reflexivity|].
  rewrite orb_false_r in Hc. exact Hc.
Qed.

Lemma str_replace_ascii (s : string) :
  every_char ascii_char s = true ->
  every_char (fun c => negb (Ascii.eqb c ",") && ascii_char c)
    (str_replace "," " " s) = true.
Proof.
  induction s as [|c s IH]; [reflexivity|]. cbn [str_replace every_char].
  intros [Hc Hs]%andb_prop. rewrite (IH Hs), andb_true_r.
  destruct (Ascii.eqb c ",") eqn:E; [reflexivity|]. rewrite E, Hc. reflexivity.
Qed.

Lemma upper_ascii_ticker_char (c : ascii) :
  negb (is_whitespace c) && (negb (Ascii.eqb c ",") && ascii_char c) = true ->
  ticker_char (upper_ascii c) = true.
Proof. destruct c as [[] [] [] [] [] [] [] []]; intros H; try reflexivity; discriminate H. Qed.

Lemma upper_ticker_like (t : string) :
  t <> "" ->
  every_char (fun c => negb (is_whitespace c) && (negb (Ascii.eqb c ",") && ascii_char c))
    t = true ->
  ticker_like (upper t).
Proof.
  intros Hne Ht. split.
  - destruct t; [contradiction | discriminate].
  - clear Hne. induction t as [|c t IH]; [reflexivity|].
    cbn [every_char upper] in *. apply andb_prop in Ht as [Hc Ht].
    rewrite (upper_ascii_ticker_char c Hc), (IH Ht). reflexivity.
Qed.

(** X1. The ticker is normalised once and for all.  For a ticker given
    as ASCII text, the analyzer's ticker is ASCII text without white
    space at either end, and normalising it again changes nothing, so
    that the two fetchers that [run] builds from it query the provider
    under that very ticker. *)
Theorem ticker_normalised_once (s : string) :
  is_ascii s = true ->
  let ticker := RiskAnalyzer.ticker (RiskAnalyzer.__init__ s) in
  ticker = strip (upper s)
  /\ is_ascii ticker = true
  /\ strip (upper ticker) = ticker
  /\ RiskAnalyzer.ticker (RiskAnalyzer.__init__ ticker) = ticker
  /\ ZScoreDataFetcher.ticker (ZScoreDataFetcher.__init__ ticker) = ticker
  /\ MertonDataFetcher.ticker (MertonDataFetcher.__init__ ticker) = ticker
  /\ starts_clean ticker /\ starts_clean (String.rev ticker).
Proof.
  intros Hs. cbn.
  pose proof (normalise_idempotent s). pose proof (strip_clean (upper s)).
  assert (is_ascii (strip (upper s)) = true)
    by (apply is_ascii_strip; rewrite is_ascii_upper; exact Hs).
  tauto.
Qed.

(** X2. Reading the tickers typed in, for a line of ASCII text: the
    prompt fails exactly on a line that is blank; otherwise every ticker
    returned is not empty, is ASCII text without white space, comma or
    lower-case letter, and is left as it is by the analyzer's
    normalisation; a line of commas and blanks gives the empty list and
    no error. *)
Theorem get_tickers_interactively_rule (line : string) :
  is_ascii line = true ->
  (strip line = "" <->
   get_tickers_interactively line
   = Raise (ValueError "Debes ingresar al menos un ticker."))
  /\ (strip line <> "" ->
      exists tickers : list string,
        get_tickers_interactively line = Ok tickers
        /\ Forall ticker_like tickers
        /\ Forall (fun t => is_ascii t = true) tickers
        /\ Forall (fun t => RiskAnalyzer.ticker (RiskAnalyzer.__init__ t) = t) tickers)
  /\ (strip line <> "" ->
      every_char (fun c => is_whitespace c || Ascii.eqb c ",") line = true ->
      get_tickers_interactively line = Ok []).
Proof.
  intros Hascii. unfold get_tickers_interactively. repeat apply conj.
  - intros ->. reflexivity.
  - case_bool_decide; [auto | discriminate].
  - intros Hne. rewrite bool_decide_eq_false_2 by exact Hne.
    eexists. split; [reflexivity|].
    apply is_ascii_strip in Hascii. rewrite is_ascii_every_char in Hascii.
    pose proof (split_from_words _ _ "" (str_replace_ascii (strip line) Hascii) eq_refl)
      as Hwords. fold (str_split (str_replace "," " " (strip line))) in Hwords.
    induction Hwords as [|t ts [Ht1 Ht2] _ IH]; [repeat split; constructor|].
    cbn [List.filter].
    assert (Hstrip : strip t = t).
    { apply strip_no_whitespace. revert Ht2. apply every_char_impl.
      intros c [H _]%andb_prop. exact H. }
    rewrite Hstrip, bool_decide_eq_false_2 by exact Ht1. cbn [negb map].
    rewrite Hstrip. destruct IH as (IH1 & IH2 & IH3).
    pose proof (upper_ticker_like t Ht1 Ht2) as Hlike.
    repeat split; constructor; try assumption.
    + apply ticker_like_ascii. exact Hlike.
    + cbn. apply ticker_like_fixed. exact Hlike.
  - intros Hne Hblank. rewrite bool_decide_eq_false_2 by exact Hne.
    unfold str_split. rewrite split_from_blank; [reflexivity|].
    apply str_replace_blank, every_char_strip. exact Hblank.
Qed.

End TickerProperties.

(** ** classifier.py: the classification and the tables *)

Section ClassifierInvariants.
Context `{Builtins}.
Import PyStr.

(** X3. For an industry given as ASCII text, classification does not
    depend on the case of the letters, nor on the liabilities handed to
    the classifier: the text in upper case and the text in lower case
    are classified as the text itself. *)
Theorem classify_case_insensitive (industry : string) (tl tl' : float) :
  is_ascii industry = true ->
  classification (Some (upper industry)) tl = classification (Some industry) tl'
  /\ classification (Some (lower_ascii_text industry)) tl
     = classification (Some industry) tl'.
Proof.
  intros Hascii.
  unfold classification, CompanyClassifier.classify, CompanyClassifier.__init__,
    CompanyClassifier._is_financial, CompanyClassifier._is_manufacturing,
    CompanyClassifier.get_model_version.
  cbn [default from_option id CompanyClassifier.industry CompanyClassifier.set_type
       CompanyClassifier.company_type CompanyClassifier.model_version].
  rewrite (lower_ascii_text_eq (upper industry))
    by (rewrite is_ascii_upper; exact Hascii).
  rewrite (lower_ascii_text_eq (lower_ascii_text industry))
    by (rewrite is_ascii_lower; exact Hascii).
  rewrite (lower_ascii_text_eq industry Hascii).
  rewrite lower_upper, lower_idempotent.
  split; repeat case_match; reflexivity.
Qed.

Lemma classification_cases (industry : option string) (tl : float) :
  classification industry tl = ("manufacturing", "Z")
  \/ classification industry tl = ("financial", "Z_double_prime")
  \/ classification industry tl = ("non_manufacturing", "Z_double_prime").
Proof.
  unfold classification, CompanyClassifier.classify, CompanyClassifier.__init__,
    CompanyClassifier.get_model_version.
  repeat case_match; simplify_eq; cbn; tauto.
Qed.

(** X4. Whatever the industry, [classify] ends in one of three pairs of
    company type and model version; the version is a key of both tables,
    so that the calculator built from it is never rejected and the
    decision never falls back on its default thresholds. *)
Theorem classify_model_known (industry : option string) (tl : float) :
  let '(company_type, model_version) := classification industry tl in
  ((company_type, model_version) = ("manufacturing", "Z")
   \/ (company_type, model_version) = ("financial", "Z_double_prime")
   \/ (company_type, model_version) = ("non_manufacturing", "Z_double_prime"))
  /\ (model_version = "Z" <-> company_type = "manufacturing")
  /\ is_Some (ZScoreCalculator.COEFFICIENTS !! model_version)
  /\ is_Some (ZScoreDecision.THRESHOLDS !! model_version)
  /\ (forall facts : FinancialFacts,
        exists z_calc, ZScoreCalculator.__init__ facts model_version = Ok z_calc
                       /\ ZScoreCalculator.data z_calc = facts
                       /\ ZScoreCalculator.model_version z_calc = model_version).
Proof.
  destruct (classification_cases industry tl) as [-> | [-> | ->]].
  - split; [tauto|]. split; [tauto|]. split; [eexists; reflexivity|].
    split; [eexists; reflexivity|]. intros facts. eexists. repeat split.
  - split; [tauto|]. split; [split; discriminate|]. split; [eexists; reflexivity|].
    split; [eexists; reflexivity|]. intros facts. eexists. repeat split.
  - split; [tauto|]. split; [split; discriminate|]. split; [eexists; reflexivity|].
    split; [eexists; reflexivity|]. intros facts. eexists. repeat split.
Qed.

End ClassifierInvariants.

(** ** The order of floats *)

Section FloatOrder.
Local Open Scope Z_scope.

Ltac order_cases :=
  repeat match goal with
         | |- context [Z.compare ?a ?b] =>
             destruct (Z.compare_spec a b); subst; cbn
         | H : context [Z.compare ?a ?b] |- _ =>
             destruct (Z.compare_spec a b); subst; cbn in H
         | |- context [Pos.compare_cont Eq ?a ?b] =>
             rewrite (Pos.compare_cont_spec a b Eq); cbn [Pos.switch_Eq]
         | H : context [Pos.compare_cont Eq ?a ?b] |- _ =>
             rewrite (Pos.compare_cont_spec a b Eq) in H; cbn [Pos.switch_Eq] in H
         | |- context [Pos.compare ?a ?b] =>
             destruct (Pos.compare_spec a b); subst; cbn
         | H : context [Pos.compare ?a ?b] |- _ =>
             destruct (Pos.compare_spec a b); subst; cbn in H
         end;
  try discriminate; try reflexivity; try lia.

Lemma fltb_fleb_trans (a b c : float) :
  (a <? b)%F = true -> (b <=? c)%F = true -> (a <? c)%F = true.
Proof.
  unfold fltb, fleb, SFltb, SFleb.
  destruct a as [[|]|[|]| |[|] ma ea], b as [[|]|[|]| |[|] mb eb],
    c as [[|]|[|]| |[|] mc ec]; cbn; try discriminate; try reflexivity;
    intros H1 H2; order_cases.
Qed.

Lemma fleb_fltb_trans (a b c : float) :
  (a <=? b)%F = true -> (b <? c)%F = true -> (a <? c)%F = true.
Proof.
  unfold fltb, fleb, SFltb, SFleb.
  destruct a as [[|]|[|]| |[|] ma ea], b as [[|]|[|]| |[|] mb eb],
    c as [[|]|[|]| |[|] mc ec]; cbn; try discriminate; try reflexivity;
    intros H1 H2; order_cases.
Qed.

End FloatOrder.

(** ** decisions.py and the reconciler: how severe a decision is *)

Lemma decision_rank_values :
  decision_rank Decision.APPROVED = 0
  /\ decision_rank Decision.APPROVED_WARNING = 1
  /\ decision_rank Decision.DENIED = 2.
Proof. repeat split. Qed.

Section DecisionOrder.
Context `{Builtins}.
Import Decision.

(** X5. Both decision engines are monotone: a higher Z-Score never gets
    a more severe decision, under any model version, and a higher
    probability of default never gets a milder one. *)
Theorem decisions_monotone :
  (forall (v : string) (z1 z2 : float),
     (z1 <=? z2)%F = true ->
     decision_rank
       (decision (ZScoreDecision.evaluate
                    {| ZScoreDecision.z_score := z2; ZScoreDecision.model_version := v |}))
     <= decision_rank
          (decision (ZScoreDecision.evaluate
                       {| ZScoreDecision.z_score := z1; ZScoreDecision.model_version := v |})))
  /\ (forall pd1 pd2 dd1 dd2 : float,
        (pd1 <=? pd2)%F = true ->
        decision_rank
          (decision (MertonDecision.evaluate
                       {| MertonDecision.PD := pd1; MertonDecision.DD := dd1 |}))
        <= decision_rank
             (decision (MertonDecision.evaluate
                          {| MertonDecision.PD := pd2; MertonDecision.DD := dd2 |}))).
Proof.
  split.
  - intros v z1 z2 Hle.
    pose proof (zscore_zone_pair
      {| ZScoreDecision.z_score := z1; ZScoreDecision.model_version := v |}) as P1.
    pose proof (zscore_zone_pair
      {| ZScoreDecision.z_score := z2; ZScoreDecision.model_version := v |}) as P2.
    cbv zeta in P1, P2.
    cbn [ZScoreDecision.z_score ZScoreDecision.model_version] in P1, P2.
    apply (f_equal snd) in P1, P2. cbn [snd] in P1, P2. rewrite P1, P2.
    set (t := ZScoreDecision.thresholds_of v). unfold fgtb. change SFltb with fltb.
    destruct decision_rank_values as (RA & RW & RD).
    destruct (ZScoreDecision.safe t <? z2)%F eqn:S2,
             (ZScoreDecision.safe t <? z1)%F eqn:S1,
             (z2 <? ZScoreDecision.distress t)%F eqn:D2,
             (z1 <? ZScoreDecision.distress t)%F eqn:D1;
      try (cbv iota; cbn [snd]; rewrite ?RA, ?RW, ?RD; lia);
      try (rewrite (fltb_fleb_trans _ _ _ S1 Hle) in S2; discriminate);
      rewrite (fleb_fltb_trans _ _ _ Hle D2) in D1; discriminate.
  - intros pd1 pd2 dd1 dd2 Hle.
    pose proof (merton_zone_pair
      {| MertonDecision.PD := pd1; MertonDecision.DD := dd1 |}) as P1.
    pose proof (merton_zone_pair
      {| MertonDecision.PD := pd2; MertonDecision.DD := dd2 |}) as P2.
    cbn [MertonDecision.PD MertonDecision.DD] in P1, P2.
    apply (f_equal snd) in P1, P2. cbn [snd] in P1, P2. rewrite P1, P2.
    unfold fgtb. change SFltb with fltb.
    destruct decision_rank_values as (RA & RW & RD).
    generalize MertonDecision.PD_SAFE, MertonDecision.PD_DISTRESS.
    intros ps pd.
    destruct (pd2 <? ps)%F eqn:S2, (pd1 <? ps)%F eqn:S1,
             (pd <? pd2)%F eqn:D2, (pd <? pd1)%F eqn:D1;
      try (cbv iota; cbn [snd]; rewrite ?RA, ?RW, ?RD; lia);
      try (rewrite (fleb_fltb_trans _ _ _ Hle S2) in S1; discriminate);
      rewrite (fltb_fleb_trans _ _ _ D1 Hle) in D2; discriminate.
Qed.

End DecisionOrder.

Section ReconcilerOrder.
Import Decision RiskAnalyzer.

(** X6. The reconciler is conservative: its answer is one of the three
    decisions, does not depend on which engine said what, and for two
    proper decisions is the more severe of the two. *)
Theorem combine_decisions_conservative (z_dec m_dec : summary) :
  let final := fd_decision (_combine_decisions z_dec (Some m_dec)) in
  is_decision final
  /\ final = fd_decision (_combine_decisions m_dec (Some z_dec))
  /\ (is_decision (decision z_dec) -> is_decision (decision m_dec) ->
      decision_rank final
      = Nat.max (decision_rank (decision z_dec)) (decision_rank (decision m_dec))).
Proof.
  unfold _combine_decisions, is_decision, APPROVED, APPROVED_WARNING, DENIED.
  cbn [fd_decision].
  assert (Hsym : ({[decision m_dec; decision z_dec]} : gset string)
                 = {[decision z_dec; decision m_dec]}) by set_solver.
  rewrite Hsym.
  destruct (decide ("DENIED" ∈ ({[decision z_dec; decision m_dec]} : gset string)))
    as [Hd|Hd];
    [|destruct (decide (({[decision z_dec; decision m_dec]} : gset string)
                        = {["APPROVED"]})) as [Ha|Ha]].
  - split; [tauto|]. split; [reflexivity|].
    intros [Hz|[Hz|Hz]] [Hm|[Hm|Hm]]; rewrite Hz, Hm in *; try reflexivity;
      exfalso; set_solver.
  - split; [tauto|]. split; [reflexivity|].
    intros [Hz|[Hz|Hz]] [Hm|[Hm|Hm]]; rewrite Hz, Hm in *; try reflexivity;
      exfalso; set_solver.
  - split; [tauto|]. split; [reflexivity|].
    intros [Hz|[Hz|Hz]] [Hm|[Hm|Hm]]; rewrite Hz, Hm in *; try reflexivity;
      exfalso; set_solver.
Qed.

End ReconcilerOrder.

(** ** zscore_fetcher.py: what [fetch_all] gives *)

Section FetcherOutcome.
Import YFinance.

Lemma fetch_all_outcome (self : ZScoreDataFetcher.t) (stock : Ticker) :
  match fetched stock with
  | Some facts =>
      first_gap (ZScoreDataFetcher.ticker self) stock = None
      /\ ZScoreDataFetcher.fetch_all self stock
         = Ok (facts, fetcher_after self stock facts)
  | None =>
      exists e, first_gap (ZScoreDataFetcher.ticker self) stock = Some e
                /\ ZScoreDataFetcher.fetch_all self stock = Raise e
  end.
Proof.
  unfold first_gap, fetched, ZScoreDataFetcher.fetch_all.
  rewrite fetch_balance_sheet_eq.
  destruct (statement (balance_sheet stock)) as [bs|]; cbn; [|eauto].
  destruct (bs !! "Total Assets") as [ta|]; cbn; [|eauto].
  destruct (bs !! "Total Liabilities Net Minority Interest") as [tl|]; cbn; [|eauto].
  rewrite fetch_income_statement_eq.
  destruct (statement (income_stmt stock)) as [inc|]; cbn; [|eauto].
  destruct (ebit_of inc) as [e|]; cbn; [|eauto].
  destruct (sales_of inc) as [s|]; cbn; [|eauto].
  unfold ZScoreDataFetcher._fetch_market_data.
  destruct (marketCap (info stock)) as [mc|]; cbn; [|eauto].
  split; reflexivity.
Qed.

Lemma fetch_all_ok (self : ZScoreDataFetcher.t) (stock : Ticker)
    (facts : FinancialFacts) (self' : ZScoreDataFetcher.t) :
  ZScoreDataFetcher.fetch_all self stock = Ok (facts, self') ->
  fetched stock = Some facts /\ self' = fetcher_after self stock facts.
Proof.
  pose proof (fetch_all_outcome self stock) as Hout.
  destruct (fetched stock) as [facts'|].
  - destruct Hout as [_ ->]. intros [= -> ->]. split; reflexivity.
  - destruct Hout as (e & _ & ->). discriminate.
Qed.

Lemma bracket_inj (ticker a b : string) :
  "[" +:+ ticker +:+ a = "[" +:+ ticker +:+ b -> a = b.
Proof. intros Heq. apply (inj (append ticker)), (inj (append "[")), Heq. Qed.

(** X7. [fetch_all] fails with the error of the first thing it cannot
    read, in the order: balance sheet, total assets, total liabilities,
    income statement, EBIT or a substitute, revenue or its substitute,
    market capitalisation.  The check of the required fields that
    closes [fetch_all] never fails: none of its errors is the
    missing-fields error. *)
Theorem fetch_all_first_gap (self : ZScoreDataFetcher.t) (stock : Ticker) :
  (forall e : exn,
     ZScoreDataFetcher.fetch_all self stock = Raise e
     <-> first_gap (ZScoreDataFetcher.ticker self) stock = Some e)
  /\ (forall (e : exn) (mentioned : string),
        ZScoreDataFetcher.fetch_all self stock = Raise e ->
        e <> ValueError ("[" +:+ ZScoreDataFetcher.ticker self +:+
                         "] Campos faltantes: " +:+ mentioned)).
Proof.
  assert (Hiff : forall e : exn,
     ZScoreDataFetcher.fetch_all self stock = Raise e
     <-> first_gap (ZScoreDataFetcher.ticker self) stock = Some e).
  { intros e. pose proof (fetch_all_outcome self stock) as Hout.
    destruct (fetched stock) as [facts|].
    - destruct Hout as [-> ->]. split; discriminate.
    - destruct Hout as (e' & -> & ->). split; congruence. }
  split; [exact Hiff|].
  intros e mentioned He%Hiff. revert He. unfold first_gap.
  repeat case_match; intros [= <-]; try discriminate;
    intros Heq%(f_equal exn_str); cbn [exn_str] in Heq;
    apply bracket_inj in Heq; vm_compute in Heq; discriminate.
Qed.

(** X8. [fetch_all] reads the latest column of each statement only: the
    earlier years of the provider's frames have no influence. *)
Theorem fetch_all_latest_column_only (self : ZScoreDataFetcher.t) (i : Info)
    (bs inc : Series) (earlier_bs earlier_inc : DataFrame) :
  ZScoreDataFetcher.fetch_all self
    {| info := i; balance_sheet := Some (bs :: earlier_bs);
       income_stmt := Some (inc :: earlier_inc) |}
  = ZScoreDataFetcher.fetch_all self
      {| info := i; balance_sheet := Some [bs]; income_stmt := Some [inc] |}.
Proof.
  set (stock := {| info := i; balance_sheet := Some (bs :: earlier_bs);
                   income_stmt := Some (inc :: earlier_inc) |}).
  set (latest := {| info := i; balance_sheet := Some [bs];
                    income_stmt := Some [inc] |}).
  pose proof (fetch_all_outcome self stock) as H1.
  pose proof (fetch_all_outcome self latest) as H2.
  change (fetched latest) with (fetched stock) in H2.
  change (first_gap (ZScoreDataFetcher.ticker self) latest)
    with (first_gap (ZScoreDataFetcher.ticker self) stock) in H2.
  destruct (fetched stock) as [facts|].
  - destruct H1 as [_ ->], H2 as [_ ->]. reflexivity.
  - destruct H1 as (e1 & G1 & ->), H2 as (e2 & G2 & ->). congruence.
Qed.

End FetcherOutcome.

(** ** risk_analyzer.py: the result of a run *)

Section RunShape.
Context `{Builtins} (world : World).
Import Decision RiskAnalyzer.

Lemma classification_liabilities (industry : option string) (tl tl' : float) :
  classification industry tl = classification industry tl'.
Proof.
  unfold classification, CompanyClassifier.classify, CompanyClassifier.__init__,
    CompanyClassifier._is_financial, CompanyClassifier._is_manufacturing,
    CompanyClassifier.get_model_version.
  cbn [CompanyClassifier.industry]. repeat case_match; reflexivity.
Qed.

Lemma zscore_evaluate_is_decision (self : ZScoreDecision.t) :
  is_decision (decision (ZScoreDecision.evaluate self)).
Proof.
  pose proof (zscore_zone_pair self) as Hp. cbv zeta in Hp.
  apply (f_equal snd) in Hp. cbn [snd] in Hp. rewrite Hp. unfold is_decision.
  destruct (_ >? _)%F; [tauto|]. destruct (_ <? _)%F; cbn; tauto.
Qed.

Lemma merton_evaluate_is_decision (self : MertonDecision.t) :
  is_decision (decision (MertonDecision.evaluate self)).
Proof.
  pose proof (merton_zone_pair self) as Hp.
  apply (f_equal snd) in Hp. cbn [snd] in Hp. rewrite Hp. unfold is_decision.
  destruct (_ <? _)%F; [tauto|]. destruct (_ >? _)%F; cbn; tauto.
Qed.

Lemma combine_is_decision (z_dec : summary) (merton_dec : option summary) :
  is_decision (decision z_dec) ->
  is_decision (fd_decision (_combine_decisions z_dec merton_dec)).
Proof.
  intros Hz. destruct merton_dec as [m_dec|]; [|exact Hz].
  unfold _combine_decisions, is_decision, APPROVED, APPROVED_WARNING, DENIED.
  cbn [fd_decision]. repeat case_match; tauto.
Qed.

(** The dict that a completed run returns, in terms of the steps that
    built it. *)
Lemma run_inversion (s : string) (r : analysis) :
  run world (__init__ s) = Ok r ->
  exists (facts : FinancialFacts) (z_results : ZScoreCalculator.ratios)
         (model_version : string) (merton : option MertonCalculator.outputs),
    let ticker := PyStr.strip (PyStr.upper s) in
    let stock := yf_Ticker world ticker in
    let industry := default "" (YFinance.info_industry (YFinance.info stock)) in
    let z_dec :=
      ZScoreDecision.evaluate
        {| ZScoreDecision.z_score := ZScoreCalculator.z_score z_results;
           ZScoreDecision.model_version := model_version |} in
    let merton_dec :=
      (fun m => MertonDecision.evaluate
                  (MertonDecision.__init__ (MertonCalculator.PD m)
                                           (MertonCalculator.DD m))) <$> merton in
    fetched stock = Some facts
    /\ zscore_compute facts model_version = Ok z_results
    /\ ZScoreCalculator.r_model_version z_results = model_version
    /\ r = {| a_ticker := ticker;
              a_company_name := default ticker (YFinance.longName (YFinance.info stock));
              a_industry := industry;
              a_company_type := (classification (Some industry) zero).1;
              a_zscore :=
                {| zs_model_version := model_version;
                   zs_ratios := z_results;
                   zs_decision := z_dec |};
              a_merton :=
                {| applicable := bool_decide (is_Some merton);
                   results := merton;
                   m_decision := merton_dec |};
              a_final_decision := _combine_decisions z_dec merton_dec |}
    /\ model_version = (classification (Some industry) zero).2.
Proof.
  unfold run. intros Hrun.
  apply bind_ok in Hrun as ([facts z_fetcher] & Hfetch & Hrun).
  apply fetch_all_ok in Hfetch as [Hfetched ->].
  cbn [fetcher_after ZScoreDataFetcher.industry ZScoreDataFetcher.company_name
       ZScoreDataFetcher.ticker ZScoreDataFetcher.__init__ ticker __init__] in *.
  rewrite normalise_idempotent in *.
  set (stock := yf_Ticker world (PyStr.strip (PyStr.upper s))) in *.
  set (industry := default "" (YFinance.info_industry (YFinance.info stock))) in *.
  assert (Hclass : forall company_type classifier,
            CompanyClassifier.classify
              (CompanyClassifier.__init__ (Some industry) (total_liabilities facts))
            = (company_type, classifier) ->
            classification (Some industry) zero
            = (company_type, CompanyClassifier.get_model_version classifier)).
  { intros company_type classifier Hcl.
    rewrite (classification_liabilities _ zero (total_liabilities facts)).
    unfold classification. rewrite Hcl. reflexivity. }
  destruct (CompanyClassifier.classify _) as [company_type classifier] eqn:Hcl
    in Hrun.
  specialize (Hclass _ _ Hcl).
  apply bind_ok in Hrun as (z_calc & Hinit & Hrun).
  apply bind_ok in Hrun as (z_results & Hcalc & Hrun).
  apply bind_ok in Hrun as (z_dec_obj & Hdec & Hrun).
  injection Hdec as <-.
  assert (Hmv : ZScoreCalculator.r_model_version z_results
                = CompanyClassifier.get_model_version classifier).
  { unfold ZScoreCalculator.__init__ in Hinit.
    destruct (ZScoreCalculator.COEFFICIENTS !! _); [|discriminate].
    injection Hinit as <-.
    unfold ZScoreCalculator.calculate in Hcalc.
    cbn [ZScoreCalculator.data ZScoreCalculator.model_version] in Hcalc.
    repeat (destruct (_ == _)%F; [discriminate|]).
    repeat (apply bind_ok in Hcalc as (? & _ & Hcalc)).
    injection Hcalc as <-. reflexivity. }
  assert (Hcompute : zscore_compute facts
                       (CompanyClassifier.get_model_version classifier)
                     = Ok z_results).
  { unfold zscore_compute. rewrite Hinit. exact Hcalc. }
  exists facts, z_results, (CompanyClassifier.get_model_version classifier).
  destruct (CompanyClassifier.get_merton_applicability classifier).
  - apply bind_ok in Hrun as ([mr md] & Hm & Hrun).
    apply bind_ok in Hm as ([mr' md'] & Hstage & Hm). injection Hm as <- <-.
    unfold merton_stage in Hstage.
    apply bind_ok in Hstage as (m_data & _ & Hstage).
    apply bind_ok in Hstage as (merton_results & _ & Hstage).
    injection Hstage as <- <-. injection Hrun as <-.
    exists (Some merton_results). cbv zeta. rewrite Hclass.
    repeat split; assumption.
  - injection Hrun as <-. exists None. cbv zeta. rewrite Hclass.
    repeat split; assumption.
Qed.




End RunShape.

(** ** The history of a balance sheet *)

Section HistoryProperties.
Import History.

Lemma insert_by_date_In (x y : Z * float) (s : DatedSeries) :
  In y (insert_by_date x s) <-> y = x \/ In y s.
Proof.
  induction s as [|z s IH]; cbn; [intuition congruence|].
  destruct (x.1 <=? z.1)%Z; cbn; [intuition congruence|].
  rewrite IH. intuition congruence.
Qed.

Lemma sort_index_cons (x : Z * float) (s : DatedSeries) :
  sort_index (x :: s) = insert_by_date x (sort_index s).
Proof. reflexivity. Qed.

Lemma sort_index_In (y : Z * float) (s : DatedSeries) :
  In y (sort_index s) <-> In y s.
Proof.
  induction s as [|x s IH]; [tauto|].
  rewrite sort_index_cons, insert_by_date_In, IH. cbn. intuition congruence.
Qed.

Lemma insert_by_date_length (x : Z * float) (s : DatedSeries) :
  length (insert_by_date x s) = S (length s).
Proof.
  induction s as [|z s IH]; cbn; [reflexivity|].
  destruct (x.1 <=? z.1)%Z; cbn; [reflexivity|]. rewrite IH. reflexivity.
Qed.

Lemma sort_index_length (s : DatedSeries) : length (sort_index s) = length s.
Proof.
  induction s as [|x s IH]; [reflexivity|].
  rewrite sort_index_cons, insert_by_date_length, IH. reflexivity.
Qed.

Lemma insert_by_date_ascending (x : Z * float) (s : DatedSeries) :
  ascending s -> ascending (insert_by_date x s).
Proof.
  induction s as [|z s IH]; cbn; [intros _; split; [intros ? []|exact I]|].
  intros [Hz Hs]. destruct (x.1 <=? z.1)%Z eqn:E; cbn.
  - apply Z.leb_le in E. split; [|split; assumption].
    intros y [<-|Hy]; [exact E|]. specialize (Hz y Hy). lia.
  - apply Z.leb_gt in E. split; [|apply IH, Hs].
    intros y [->|Hy]%insert_by_date_In; [lia | apply Hz, Hy].
Qed.

Lemma sort_index_ascending (s : DatedSeries) : ascending (sort_index s).
Proof.
  induction s as [|x s IH]; [exact I|].
  rewrite sort_index_cons. apply insert_by_date_ascending, IH.
Qed.

Lemma ascending_last (s : DatedSeries) (x : Z * float) :
  ascending s -> last s = Some x -> forall y, In y s -> (y.1 <= x.1)%Z.
Proof.
  induction s as [|z s IH]; [discriminate|].
  intros [Hz Hs] Hlast y Hy. rewrite last_cons in Hlast.
  destruct (last s) as [w|] eqn:Hw.
  - injection Hlast as ->. destruct Hy as [<-|Hy]; [|apply IH; auto].
    apply Hz. apply list_elem_of_In, last_Some_elem_of, Hw.
  - injection Hlast as ->. destruct s; [|rewrite last_cons in Hw; destruct (last s); discriminate].
    destruct Hy as [<-|[]]. lia.
Qed.

(** The row of [loc]: one entry per column, with the column's date. *)
Lemma loc_In (bs : DatedFrame) (label : string) (row : DatedSeries) :
  loc bs label = Ok row ->
  length row = length bs
  /\ forall (date : Z) (v : float),
       In (date, v) row
       <-> exists column, In (date, column) bs /\ column !! label = Some v.
Proof.
  revert row. induction bs as [|[d c] bs IH]; intros row; cbn [loc].
  - intros [= <-]. split; [reflexivity|]. intros date v. split; [intros []|].
    intros (column & [] & _).
  - unfold YFinance.getitem. destruct (c !! label) as [v0|] eqn:Hc; [|discriminate].
    cbn. destruct (loc bs label) as [row'|]; [|discriminate]. cbn.
    intros [= <-]. destruct (IH row' eq_refl) as [Hlen Hin].
    split; [cbn; rewrite Hlen; reflexivity|].
    intros date v. cbn. rewrite Hin. split.
    + intros [[= <- <-]|(column & Hb & Hv)]; eauto.
    + intros (column & [[= <- <-]|Hb] & Hv); [left; congruence | eauto].
Qed.

Lemma loc_raises (bs : DatedFrame) (label : string) (e : exn) :
  loc bs label = Raise e -> e = KeyError label.
Proof.
  induction bs as [|[d c] bs IH]; cbn [loc]; [discriminate|].
  unfold YFinance.getitem. destruct (c !! label); cbn; [|congruence].
  destruct (loc bs label); cbn; [discriminate|]. intros [= <-]. auto.
Qed.

Lemma dropna_length (bs : DatedFrame) (label : string) (row : DatedSeries) :
  loc bs label = Ok row -> length (dropna row) = years_available bs label.
Proof.
  unfold years_available, dropna.
  revert row. induction bs as [|[d c] bs IH]; intros row; cbn [loc].
  - intros [= <-]. reflexivity.
  - unfold YFinance.getitem. destruct (c !! label) as [v0|] eqn:Hc; [|discriminate].
    cbn. destruct (loc bs label) as [row'|]; [|discriminate]. cbn.
    intros [= <-]. cbn. rewrite Hc.
    destruct (is_nan v0); cbn; rewrite (IH row' eq_refl); reflexivity.
Qed.

Lemma dropna_valued (bs : DatedFrame) (label : string) (row : DatedSeries) :
  loc bs label = Ok row -> dropna row = valued_years bs label.
Proof.
  unfold valued_years, dropna.
  revert row. induction bs as [|[d c] bs IH]; intros row; cbn [loc].
  - intros [= <-]. reflexivity.
  - unfold YFinance.getitem. cbn [omap list_omap snd fst].
    destruct (c !! label) as [v|]; cbn [mbind result_bind]; [|discriminate].
    destruct (loc bs label) as [row'|]; cbn [mbind result_bind]; [|discriminate].
    intros [= <-]. cbn [List.filter snd]. rewrite (IH row' eq_refl).
    destruct (is_nan v); reflexivity.
Qed.

Lemma insert_by_date_Permutation (x : Z * float) (s : DatedSeries) :
  Permutation (insert_by_date x s) (x :: s).
Proof.
  induction s as [|z s IH]; cbn [insert_by_date]; [reflexivity|].
  destruct (x.1 <=? z.1)%Z; [reflexivity|].
  rewrite IH. apply perm_swap.
Qed.

Lemma sort_index_Permutation (s : DatedSeries) : Permutation (sort_index s) s.
Proof.
  induction s as [|x s IH]; [reflexivity|].
  rewrite sort_index_cons, insert_by_date_Permutation, IH. reflexivity.
Qed.

Lemma last_values (s : DatedSeries) (v : float) :
  last (values s) = Some v -> exists date, last s = Some (date, v).
Proof.
  unfold values. induction s as [|[d w] s IH]; [discriminate|].
  cbn [map]. rewrite !last_cons. destruct (last (map snd s)) as [u|] eqn:Hu.
  - intros [= ->]. destruct (IH eq_refl) as [date ->]. eauto.
  - intros [= ->]. destruct s; [eauto|].
    cbn [map] in Hu. rewrite last_cons in Hu. destruct (last (map snd s)); discriminate.
Qed.

(** The last entry of the sorted series without NaN. *)
Lemma last_available (bs : DatedFrame) (label : string) (row : DatedSeries)
    (v : float) :
  loc bs label = Ok row ->
  last (values (sort_index (dropna row))) = Some v ->
  latest_value bs label v.
Proof.
  intros Hloc Hlast. destruct (loc_In bs label row Hloc) as [_ Hin].
  apply last_values in Hlast as [date Hl].
  assert (Hmem : In (date, v) (dropna row)).
  { apply sort_index_In, list_elem_of_In, last_Some_elem_of, Hl. }
  unfold dropna in Hmem. apply filter_In in Hmem as [Hrow Hnan].
  cbn in Hnan. apply negb_true_iff in Hnan.
  split; [exact Hnan|].
  apply Hin in Hrow as (column & Hb & Hv).
  exists date, column. split; [exact Hb|]. split; [exact Hv|].
  intros date' column' v' Hb' Hv' Hnan'.
  apply (ascending_last _ _ (sort_index_ascending (dropna row)) Hl (date', v')).
  apply sort_index_In. unfold dropna. apply filter_In. split.
  - apply Hin. eauto.
  - cbn. rewrite Hnan'. reflexivity.
Qed.

End HistoryProperties.

(** ** merton_fetcher.py: assets and debt *)

Section MertonFetcherProperties.
Import History.

Lemma loc_outcome (bs : DatedFrame) (label : string) :
  if row_missing bs label then loc bs label = Raise (KeyError label)
  else exists row, loc bs label = Ok row.
Proof.
  unfold row_missing. induction bs as [|[d c] bs IH]; cbn [existsb loc]; [eauto|].
  unfold YFinance.getitem. cbn [snd]. destruct (c !! label) as [v|]; cbn; [|reflexivity].
  destruct (existsb _ bs).
  - rewrite IH. reflexivity.
  - destruct IH as [row ->]. cbn. eauto.
Qed.

Lemma values_length (s : DatedSeries) : length (values s) = length s.
Proof. apply length_map. Qed.

Lemma history_length (bs : DatedFrame) (label : string) (row : DatedSeries) :
  loc bs label = Ok row ->
  length (values (sort_index (dropna row))) = years_available bs label.
Proof.
  intros Hloc. rewrite values_length, sort_index_length.
  apply dropna_length, Hloc.
Qed.

Lemma last_is_Some {A : Type} (l : list A) : (0 < length l)%nat -> is_Some (last l).
Proof.
  destruct l as [|x l]; cbn [length]; [lia|]. intros _. rewrite last_cons.
  destruct (last l); eauto.
Qed.

Lemma last_None_length {A : Type} (l : list A) : last l = None -> length l = 0%nat.
Proof.
  destruct l as [|x l]; [reflexivity|]. rewrite last_cons. destruct (last l); discriminate.
Qed.

Lemma fetch_historical_balance_outcome (self : MertonDataFetcher.t) (stock : Ticker) :
  match history_gap self stock with
  | Some e => MertonDataFetcher._fetch_historical_balance self stock = Raised e
  | None =>
      exists (bs : DatedFrame) (self' : MertonDataFetcher.t),
        balance_sheet stock = Some bs
        /\ MertonDataFetcher._fetch_historical_balance self stock = Returned self'
        /\ latest_value bs "Total Assets" (MertonDataFetcher.V_A self')
        /\ latest_value bs "Total Liabilities Net Minority Interest"
             (MertonDataFetcher.D self')
        /\ MertonDataFetcher.n_years_used self' = years_available bs "Total Assets"
        /\ (2 <= MertonDataFetcher.n_years_used self')%nat
        /\ length (MertonDataFetcher.assets_history self')
           = MertonDataFetcher.n_years_used self'
        /\ Forall (fun v => is_nan v = false) (MertonDataFetcher.assets_history self')
        /\ last (MertonDataFetcher.assets_history self')
           = Some (MertonDataFetcher.V_A self')
        /\ MertonDataFetcher.ticker self' = MertonDataFetcher.ticker self
        /\ MertonDataFetcher.company_name self' = MertonDataFetcher.company_name self
        /\ MertonDataFetcher.mu self' = MertonDataFetcher.mu self
        /\ MertonDataFetcher.sigma self' = MertonDataFetcher.sigma self
        /\ MertonDataFetcher.risk_free_rate self' = MertonDataFetcher.risk_free_rate self
        /\ MertonDataFetcher.T self' = MertonDataFetcher.T self
  end.
Proof.
  unfold history_gap, MertonDataFetcher._fetch_historical_balance.
  destruct (balance_sheet stock) as [bs|]; [|reflexivity].
  destruct (empty bs); [reflexivity|].
  pose proof (loc_outcome bs "Total Assets") as Ha.
  destruct (row_missing bs "Total Assets"); [rewrite Ha; reflexivity|].
  destruct Ha as [ra Ha]. rewrite Ha. cbn [lift mbind attempt_bind].
  pose proof (loc_outcome bs "Total Liabilities Net Minority Interest") as Hl.
  destruct (row_missing bs "Total Liabilities Net Minority Interest");
    [rewrite Hl; reflexivity|].
  destruct Hl as [rl Hl]. rewrite Hl. cbn [lift mbind attempt_bind].
  rewrite (history_length _ _ _ Ha).
  change MertonDataFetcher.MIN_YEARS_ERROR with 2%nat.
  destruct (years_available bs "Total Assets" <? 2)%nat eqn:Hyears; [reflexivity|].
  apply Nat.ltb_ge in Hyears.
  unfold MertonDataFetcher.list_last, MertonDataFetcher.array_last.
  destruct (last (values (sort_index (dropna ra)))) as [va|] eqn:Hva.
  2:{ apply last_None_length in Hva. rewrite (history_length _ _ _ Ha) in Hva. lia. }
  cbn [mbind attempt_bind].
  destruct (last (values (sort_index (dropna rl)))) as [d|] eqn:Hd.
  2:{ apply last_None_length in Hd. rewrite (history_length _ _ _ Hl) in Hd.
      rewrite Hd. reflexivity. }
  assert (Hpos : (years_available bs "Total Liabilities Net Minority Interest" =? 0)%nat
                 = false).
  { apply Nat.eqb_neq. rewrite <- (history_length _ _ _ Hl).
    destruct (values (sort_index (dropna rl))); [discriminate | cbn; lia]. }
  rewrite Hpos. cbn [mbind attempt_bind].
  eexists bs, _. split; [reflexivity|]. split; [reflexivity|].
  cbn [MertonDataFetcher.V_A MertonDataFetcher.D MertonDataFetcher.n_years_used
       MertonDataFetcher.assets_history MertonDataFetcher.ticker
       MertonDataFetcher.company_name MertonDataFetcher.mu MertonDataFetcher.sigma
       MertonDataFetcher.risk_free_rate MertonDataFetcher.T].
  split; [exact (last_available _ _ _ _ Ha Hva)|].
  split; [exact (last_available _ _ _ _ Hl Hd)|].
  split; [reflexivity|]. split; [exact Hyears|].
  split; [apply (history_length _ _ _ Ha)|].
  split; [|split; [exact Hva|repeat split]].
  apply List.Forall_forall. intros v Hv. unfold values in Hv.
  apply in_map_iff in Hv as ([date v'] & <- & Hv).
  apply (proj1 (sort_index_In _ _)) in Hv. unfold dropna in Hv.
  apply filter_In in Hv as [_ Hv].
  cbn in *. apply negb_true_iff, Hv.
Qed.

Lemma fetch_historical_balance_history (self self' : MertonDataFetcher.t)
    (stock : Ticker) :
  MertonDataFetcher._fetch_historical_balance self stock = Returned self' ->
  exists (bs : DatedFrame) (row : DatedSeries),
    balance_sheet stock = Some bs
    /\ loc bs "Total Assets" = Ok row
    /\ MertonDataFetcher.assets_history self' = values (sort_index (dropna row))
    /\ MertonDataFetcher.ticker self' = MertonDataFetcher.ticker self
    /\ MertonDataFetcher.company_name self' = MertonDataFetcher.company_name self
    /\ MertonDataFetcher.sic_code self' = MertonDataFetcher.sic_code self.
Proof.
  unfold MertonDataFetcher._fetch_historical_balance.
  destruct (balance_sheet stock) as [bs|]; [|discriminate].
  destruct (empty bs); [discriminate|].
  destruct (loc bs "Total Assets") as [ra|] eqn:Hra; cbn [lift mbind attempt_bind];
    [|discriminate].
  destruct (loc bs "Total Liabilities Net Minority Interest") as [rl|];
    cbn [lift mbind attempt_bind]; [|discriminate].
  destruct (_ <? _)%nat; [discriminate|].
  destruct (MertonDataFetcher.list_last _) as [va|]; cbn [mbind attempt_bind];
    [|discriminate].
  destruct (MertonDataFetcher.array_last _) as [d|]; cbn [mbind attempt_bind];
    [|discriminate].
  intros [= <-]. exists bs, ra. repeat split. exact Hra.
Qed.

(** X11. [_fetch_historical_balance] fails with the error of the first
    thing it lacks, in this order: a balance sheet that is not empty,
    the row of total assets, the row of total liabilities, two years of
    total assets that are not NaN, and one year of total liabilities
    that is not NaN, whose absence is an [IndexError]. *)
Theorem historical_balance_failures (self : MertonDataFetcher.t) (stock : Ticker)
    (e : exception) :
  MertonDataFetcher._fetch_historical_balance self stock = Raised e
  <-> history_gap self stock = Some e.
Proof.
  pose proof (fetch_historical_balance_outcome self stock) as Hout.
  destruct (history_gap self stock) as [e0|].
  - rewrite Hout. split; congruence.
  - destruct Hout as (bs & self' & _ & -> & _). split; discriminate.
Qed.

(** X12. When [_fetch_historical_balance] returns, [V_A] and [D] are the
    values of the latest dated column of the balance sheet that has
    them, whatever the order of the columns, and are not NaN; the
    history is exactly the total assets that are not NaN, every column
    that has one giving its value once, in the order of their dates, at
    least two of them, with [V_A] last; nothing else of the fetcher
    changes. *)
Theorem historical_balance_latest (self : MertonDataFetcher.t) (stock : Ticker)
    (self' : MertonDataFetcher.t) :
  MertonDataFetcher._fetch_historical_balance self stock = Returned self' ->
  exists (bs : DatedFrame) (series : DatedSeries),
    balance_sheet stock = Some bs
    /\ latest_value bs "Total Assets" (MertonDataFetcher.V_A self')
    /\ latest_value bs "Total Liabilities Net Minority Interest"
         (MertonDataFetcher.D self')
    /\ Permutation series (valued_years bs "Total Assets")
    /\ ascending series
    /\ MertonDataFetcher.assets_history self' = values series
    /\ MertonDataFetcher.n_years_used self' = years_available bs "Total Assets"
    /\ (2 <= MertonDataFetcher.n_years_used self')%nat
    /\ length (MertonDataFetcher.assets_history self')
       = MertonDataFetcher.n_years_used self'
    /\ Forall (fun v => is_nan v = false) (MertonDataFetcher.assets_history self')
    /\ last (MertonDataFetcher.assets_history self')
       = Some (MertonDataFetcher.V_A self')
    /\ MertonDataFetcher.ticker self' = MertonDataFetcher.ticker self
    /\ MertonDataFetcher.company_name self' = MertonDataFetcher.company_name self
    /\ MertonDataFetcher.sic_code self' = MertonDataFetcher.sic_code self
    /\ MertonDataFetcher.mu self' = MertonDataFetcher.mu self
    /\ MertonDataFetcher.sigma self' = MertonDataFetcher.sigma self
    /\ MertonDataFetcher.risk_free_rate self' = MertonDataFetcher.risk_free_rate self
    /\ MertonDataFetcher.T self' = MertonDataFetcher.T self.
Proof.
  intros Hret. pose proof (fetch_historical_balance_outcome self stock) as Hout.
  destruct (history_gap self stock) as [e0|]; [congruence|].
  destruct Hout as (bs & self1 & Hbs & Hfetch & H1 & H2 & H3 & H4 & H5 & H6 & H7
                    & _ & _ & H8 & H9 & H10 & H11).
  rewrite Hfetch in Hret. injection Hret as <-.
  destruct (fetch_historical_balance_history _ _ _ Hfetch)
    as (bs' & row & Hbs' & Hrow & Hhist & Hticker & Hname & Hsic).
  rewrite Hbs in Hbs'. injection Hbs' as <-.
  exists bs, (sort_index (dropna row)).
  split; [exact Hbs|]. split; [exact H1|]. split; [exact H2|].
  split; [rewrite sort_index_Permutation, (dropna_valued _ _ _ Hrow); reflexivity|].
  split; [apply sort_index_ascending|]. split; [exact Hhist|].
  repeat (split; [assumption|]). assumption.
Qed.

End MertonFetcherProperties.

(** ** merton_fetcher.py: drift and volatility *)

Section EstimatorProperties.
Context `{Numpy}.

Lemma feqb_abs_zero (x : float) : (SFabs x == zero)%F = (x == zero)%F.
Proof. destruct x as [[|]|[|]| |[|] m e]; reflexivity. Qed.

Lemma variations_cons (prev curr : float) (rest : list float) :
  variations (prev :: curr :: rest)
  = if (prev == zero)%F then variations (curr :: rest)
    else ((curr - prev) / SFabs prev)%F :: variations (curr :: rest).
Proof.
  unfold variations. cbn [tail zip_with List.filter fst snd].
  destruct (prev == zero)%F; reflexivity.
Qed.

Lemma pct_changes_variations (assets : list float) :
  MertonDataFetcher.pct_changes assets = Ok (variations assets).
Proof.
  induction assets as [|prev rest IH]; [reflexivity|].
  destruct rest as [|curr rest]; [reflexivity|].
  change (MertonDataFetcher.pct_changes (prev :: curr :: rest))
    with (if (prev == zero)%F then MertonDataFetcher.pct_changes (curr :: rest)
          else p ← truediv (curr - prev)%F (SFabs prev);
               ps ← MertonDataFetcher.pct_changes (curr :: rest);
               Ok (p :: ps)).
  rewrite variations_cons, IH. destruct (prev == zero)%F eqn:Hz; [reflexivity|].
  unfold truediv. rewrite feqb_abs_zero, Hz. reflexivity.
Qed.


Lemma calculate_mu_and_sigma_eq (self : MertonDataFetcher.t) :
  MertonDataFetcher._calculate_mu_and_sigma self
  = match MertonDataFetcher.pct_changes (MertonDataFetcher.assets_history self) with
    | Ok [] => Raised (Builtin MertonDataFetcher.no_variations)
    | Ok [p] => Returned (with_estimates self (np_mean [p]) (SFabs p))
    | Ok pct => Returned (with_estimates self (np_mean pct) (np_std pct 1))
    | Raise e => Raised (Builtin e)
    end.
Proof.
  unfold MertonDataFetcher._calculate_mu_and_sigma.
  destruct (MertonDataFetcher.pct_changes _) as [[|p [|q pct]]|e]; reflexivity.
Qed.

(** X13. [_calculate_mu_and_sigma] computes the relative variations
    (curr - prev) / |prev|, one for every two consecutive years of the
    history of which the first is not zero, in the order of the years,
    and never divides by zero.  Without any variation it raises its
    [ValueError]; with one, the volatility is the absolute value of that
    variation; with more, it is their standard deviation; the drift is
    their mean; nothing else of the fetcher changes, and nothing else
    is raised. *)
Theorem calculate_mu_and_sigma_rule (self : MertonDataFetcher.t) :
  let pct := variations (MertonDataFetcher.assets_history self) in
  MertonDataFetcher.pct_changes (MertonDataFetcher.assets_history self) = Ok pct
  /\ MertonDataFetcher._calculate_mu_and_sigma self
     = match pct with
       | [] => Raised (Builtin MertonDataFetcher.no_variations)
       | [p] => Returned (with_estimates self (np_mean pct) (SFabs p))
       | _ => Returned (with_estimates self (np_mean pct) (np_std pct 1))
       end.
Proof.
  intros pct. split; [apply pct_changes_variations|].
  rewrite calculate_mu_and_sigma_eq, pct_changes_variations. fold pct.
  destruct pct as [|p [|q pct]]; reflexivity.
Qed.

Lemma fsub_diag (s : bool) (m : positive) (e : Z) :
  (S754_finite s m e - S754_finite s m e)%F = zero.
Proof.
  unfold fsub, SFsub. rewrite Z.min_id, Z.sub_diag. reflexivity.
Qed.

End EstimatorProperties.

Section FlatHistory.
Context `{Builtins} `{Numpy}.

(** X14. A history of two years with the same finite, non-zero total
    assets passes the fetcher's estimator with a volatility of 0.0,
    which the Merton calculator then rejects: whatever the drift, such
    data with positive assets and liabilities raise the error on sigma. *)
Theorem flat_history_rejected (self : MertonDataFetcher.t) (s : bool)
    (m : positive) (e : Z) :
  MertonDataFetcher.assets_history self = [S754_finite s m e; S754_finite s m e] ->
  exists self' : MertonDataFetcher.t,
    MertonDataFetcher._calculate_mu_and_sigma self = Returned self'
    /\ MertonDataFetcher.sigma self' = zero
    /\ MertonDataFetcher.mu self' = np_mean [zero]
    /\ forall d : AssetDynamicsFacts,
         sigma d = MertonDataFetcher.sigma self' ->
         (D d <=? zero)%F = false -> (V_A d <=? zero)%F = false ->
         MertonCalculator.calculate (MertonCalculator.__init__ d) = Raise sigma_error.
Proof.
  intros Hhist. unfold MertonDataFetcher._calculate_mu_and_sigma. rewrite Hhist.
  assert (Hpct : MertonDataFetcher.pct_changes [S754_finite s m e; S754_finite s m e]
                 = Ok [zero]).
  { cbn [MertonDataFetcher.pct_changes]. rewrite fsub_diag. destruct s; reflexivity. }
  rewrite Hpct. cbn.
  eexists. split; [reflexivity|]. cbn. split; [reflexivity|]. split; [reflexivity|].
  intros d Hs HD HV. unfold MertonCalculator.calculate.
  cbn [MertonCalculator.data MertonCalculator.__init__].
  rewrite HD, HV, Hs. reflexivity.
Qed.

End FlatHistory.

(** ** merton_fetcher.py: the risk-free rate and [fetch_all] *)

Section RiskFreeRate.
Import History.





End RiskFreeRate.

Section MertonFetchAll.
Context `{Builtins} `{Numpy}.
Import History.




End MertonFetchAll.

(** ** calculators.py: the Merton formula at the horizon of one year *)

Section UnitFactor.
Local Open Scope Z_scope.

Lemma digits2_pos_unique (m : positive) (k : Z) :
  2 ^ (k - 1) <= Zpos m < 2 ^ k -> Zpos (digits2_pos m) = k.
Proof.
  intros [Hlo Hhi]. pose proof (digits2_pos_bounds m) as [Dlo Dhi].
  set (d := Zpos (digits2_pos m)) in *.
  assert (Hd : 0 < d) by (unfold d; lia).
  assert (Hk : 0 < k).
  { destruct (Z.lt_ge_cases 0 k) as [Hpos|Hneg]; [exact Hpos|].
    exfalso. destruct (Z.eq_dec k 0) as [->|Hne].
    - change (2 ^ 0) with 1 in Hhi. lia.
    - rewrite Z.pow_neg_r in Hhi by lia. lia. }
  assert (H1 : 2 ^ (d - 1) < 2 ^ k) by lia.
  assert (H2 : 2 ^ (k - 1) < 2 ^ d) by lia.
  apply Z.pow_lt_mono_r_iff in H1; [|lia|lia].
  apply Z.pow_lt_mono_r_iff in H2; [|lia|lia].
  lia.
Qed.

(** Multiplying a valid finite float by 1.0 gives the same float. *)
Lemma fmul_one (s : bool) (m : positive) (e : Z) :
  valid_binary prec emax (S754_finite s m e) = true ->
  (S754_finite s m e * one)%F = S754_finite s m e.
Proof.
  intros Hv. unfold valid_binary, bounded, canonical_mantissa in Hv.
  apply andb_prop in Hv as [Hc Hb]. apply Z.eqb_eq in Hc.
  unfold fmul, SFmul, one. rewrite xorb_false_r.
  change (Zpos (m * 4503599627370496)) with (Zpos m * Zpos 4503599627370496).
  rewrite pow2_52.
  pose proof (digits2_pos_bounds m) as [Dlo Dhi].
  set (d := Zpos (digits2_pos m)) in *.
  assert (Hd : 0 < d) by (unfold d; lia).
  assert (Hdig : Zdigits2 (Zpos m * 2 ^ 52) = d + 52).
  { assert (Hpos : 0 < Zpos m * 2 ^ 52) by (apply Z.mul_pos_pos; [lia | reflexivity]).
    destruct (Zpos m * 2 ^ 52) as [|p|p] eqn:Hp; try lia.
    cbn [Zdigits2]. apply digits2_pos_unique. rewrite <- Hp.
    replace (d + 52 - 1) with ((d - 1) + 52) by lia.
    rewrite !pow2_split by lia.
    split; [apply Z.mul_le_mono_nonneg_r; [vm_compute; discriminate | exact Dlo]|].
    apply Z.mul_lt_mono_pos_r; [reflexivity | exact Dhi]. }
  unfold binary_round_aux.
  assert (HM : 0 <= Zpos m * 2 ^ 52) by (apply Z.mul_nonneg_nonneg; [lia | vm_compute; discriminate]).
  pose proof (shr_fexp_spec (Zpos m * 2 ^ 52) (e + -52) loc_Exact HM) as H1.
  cbv zeta in H1. rewrite Hdig in H1.
  replace (d + 52 + (e + -52)) with (d + e) in H1 by lia.
  rewrite Hc in H1.
  replace (Z.max 0 (e - (e + -52))) with 52 in H1 by lia.
  destruct (shr_fexp prec emax (Zpos m * 2 ^ 52) (e + -52) loc_Exact) as [mrs' e'].
  cbn [fst snd] in H1. destruct H1 as (He' & Hm' & _ & Hloc).
  assert (Hne : 2 ^ 52 <> 0) by (vm_compute; discriminate).
  rewrite Z.div_mul in Hm' by exact Hne.
  rewrite (Hloc eq_refl (Z.mod_mul _ _ Hne)), Hm'.
  cbn [round_nearest_even].
  replace e' with e by lia.
  pose proof (shr_fexp_spec (Zpos m) e loc_Exact ltac:(lia)) as H2.
  cbv zeta in H2. cbn [Zdigits2] in H2. fold d in H2. rewrite Hc in H2.
  rewrite Z.sub_diag in H2. cbn [Z.max] in H2.
  destruct (shr_fexp prec emax (Zpos m) e loc_Exact) as [mrs'' e''].
  cbn [fst snd] in H2. destruct H2 as (He'' & Hm'' & _ & _).
  change (2 ^ 0) with 1 in Hm''. rewrite Z.div_1_r in Hm''.
  rewrite Hm''. replace e'' with e by lia. rewrite Hb. reflexivity.
Qed.

End UnitFactor.

Section UnitHorizon.
Context `{Builtins}.

Lemma fsqrt_one : fsqrt one = one.
Proof. vm_compute. reflexivity. Qed.

Lemma positive_times_one (x : float) :
  valid x = true -> (x <=? zero)%F = false -> (x * one == zero)%F = false.
Proof.
  destruct x as [s|[|]| |[|] m e]; try (cbn; congruence).
  intros Hv _. rewrite (fmul_one false m e Hv). reflexivity.
Qed.

(** X17. At the horizon T = 1.0, the one the fetcher sets, the Merton
    formula does not divide by zero: for positive liabilities, assets
    and volatility (a binary64 value) the computation returns unless
    the ratio V_A/D underflows to zero or sigma squared overflows. *)
Theorem merton_unit_horizon (d : AssetDynamicsFacts) :
  T d = one ->
  valid (sigma d) = true ->
  (D d <=? zero)%F = false ->
  (V_A d <=? zero)%F = false ->
  (sigma d <=? zero)%F = false ->
  (V_A d / D d <=? zero)%F = false ->
  is_inf (libm_pow (sigma d) two) = false ->
  exists r : MertonCalculator.outputs,
    MertonCalculator.calculate (MertonCalculator.__init__ d) = Ok r
    /\ MertonCalculator.r_T r = one.
Proof.
  intros HT Hvalid HD HV Hs Hq Hpow.
  destruct (log_defined _ Hq) as [ln_ratio Hlog].
  destruct (pow2_defined _ Hpow) as [sigma2 Hp2].
  unfold MertonCalculator.calculate, MertonCalculator.distance_to_default,
    MertonCalculator.probability_of_default.
  cbn [MertonCalculator.data MertonCalculator.__init__].
  rewrite HD, HV, Hs, HT.
  rewrite (truediv_defined _ _ (fleb_false_feqb_false _ _ HD)).
  cbn [mbind result_bind].
  rewrite Hlog. cbn [mbind result_bind]. rewrite Hp2. cbn [mbind result_bind].
  rewrite (truediv_defined sigma2 two eq_refl). cbn [mbind result_bind].
  rewrite (sqrt_defined one eq_refl). cbn [mbind result_bind].
  rewrite fsqrt_one.
  rewrite (truediv_defined _ _ (positive_times_one _ Hvalid Hs)).
  cbn [mbind result_bind].
  rewrite normal_cdf_eq. cbn [mbind result_bind].
  eexists. split; reflexivity.
Qed.

End UnitHorizon.

(** ** Not-a-number, the single run, and the two fetchers *)

Section NotANumber.
Context `{Builtins}.
Import Decision.

Lemma fdiv_nan_r (x : float) : (x / S754_nan)%F = S754_nan.
Proof. destruct x; reflexivity. Qed.

Lemma fmul_nan_r (x : float) : (x * S754_nan)%F = S754_nan.
Proof. destruct x; reflexivity. Qed.

Lemma fadd_nan_l (x : float) : (S754_nan + x)%F = S754_nan.
Proof. reflexivity. Qed.

Lemma fgtb_nan_l (x : float) : (S754_nan >? x)%F = false.
Proof. destruct x; reflexivity. Qed.

Lemma nan_grey (v : string) :
  let s := ZScoreDecision.evaluate
             {| ZScoreDecision.z_score := S754_nan; ZScoreDecision.model_version := v |} in
  zone s = ZONE_GREY /\ decision s = APPROVED_WARNING.
Proof.
  cbv zeta.
  pose proof (zscore_zone_pair
    {| ZScoreDecision.z_score := S754_nan; ZScoreDecision.model_version := v |}) as Hp.
  cbv zeta in Hp. cbn [ZScoreDecision.z_score ZScoreDecision.model_version] in Hp.
  rewrite fgtb_nan_l in Hp. change (S754_nan <? ?x)%F with false in Hp.
  injection Hp as -> ->. split; reflexivity.
Qed.

(** X18. A NaN is not a missing value for the Z-Score: with total assets
    that are NaN (what the provider's frame holds where a value is
    missing) the checks for zero pass, every ratio over total assets
    and the score before rounding are NaN, and, [round] leaving NaN as
    it is, the score is NaN and the decision APPROVED WITH WARNING in
    the GREY ZONE; nothing is raised. *)
Theorem nan_total_assets_not_rejected (facts : FinancialFacts) (variant : string) :
  total_assets facts = S754_nan ->
  (total_liabilities facts == zero)%F = false ->
  variant = "Z" \/ variant = "Z_double_prime" ->
  round S754_nan 4 = S754_nan ->
  exists r : ZScoreCalculator.ratios,
    zscore_compute facts variant = Ok r
    /\ ZScoreCalculator.x1 r = S754_nan
    /\ ZScoreCalculator.x2 r = S754_nan
    /\ ZScoreCalculator.x3 r = S754_nan
    /\ ZScoreCalculator.z_score r = S754_nan
    /\ let s := ZScoreDecision.evaluate
                  {| ZScoreDecision.z_score := ZScoreCalculator.z_score r;
                     ZScoreDecision.model_version := variant |} in
       zone s = ZONE_GREY /\ decision s = APPROVED_WARNING.
Proof.
  intros Hta Htl Hv Hround. unfold zscore_compute, ZScoreCalculator.__init__.
  assert (Hc : exists c, ZScoreCalculator.COEFFICIENTS !! variant = Some c).
  { destruct Hv as [-> | ->]; eexists; reflexivity. }
  destruct Hc as [c ->]. cbn [mbind result_bind].
  unfold ZScoreCalculator.calculate.
  cbn [ZScoreCalculator.data ZScoreCalculator.model_version ZScoreCalculator.coeffs].
  rewrite Hta, Htl. change (S754_nan == zero)%F with false. cbv iota.
  unfold truediv. change (S754_nan == zero)%F with false. rewrite Htl. cbv iota.
  cbn [mbind result_bind]. rewrite !fdiv_nan_r.
  destruct (bool_decide (variant = "Z")); cbn [mbind result_bind];
    rewrite !fmul_nan_r, !fadd_nan_l, !Hround; eexists; (split; [reflexivity|]);
    cbn [ZScoreCalculator.x1 ZScoreCalculator.x2 ZScoreCalculator.x3
         ZScoreCalculator.z_score];
    repeat (split; [reflexivity|]); apply nan_grey.
Qed.

End NotANumber.

Section SingleAndBatch.
Context `{Builtins} (world : World).
Import RiskAnalyzer.

(** X19. [main] isolates failures only in a batch.  Whenever its
    [results_list] returns, it returns what [analyze_multiple] returns
    for the same tickers; with any number of tickers but one it always
    returns; with a single ticker whose run raises, the exception is
    not turned into an error record but propagates. *)
Theorem results_list_rule (tickers : list string) :
  (forall l, Main.results_list world tickers = Ok l ->
             l = analyze_multiple world tickers)
  /\ (length tickers <> 1%nat ->
      Main.results_list world tickers = Ok (analyze_multiple world tickers))
  /\ (forall (ticker : string) (e : exn),
        tickers = [ticker] -> run world (__init__ ticker) = Raise e ->
        Main.results_list world tickers = Raise e
        /\ analyze_multiple world tickers = [ErrorRecord ticker (exn_str e)]).
Proof.
  unfold Main.results_list, analyze_multiple. split_and!.
  - destruct tickers as [|t [|t' ts]]; try (intros l [= <-]; reflexivity).
    intros l Hl. apply bind_ok in Hl as (r & Hr & [= <-]).
    cbn [fold_left]. unfold analyze_step. rewrite Hr. reflexivity.
  - intros Hlen. destruct tickers as [|t [|t' ts]]; try reflexivity.
    contradiction Hlen. reflexivity.
  - intros ticker e -> Hr. rewrite Hr. split; [reflexivity|].
    cbn [fold_left]. unfold analyze_step. rewrite Hr. reflexivity.
Qed.

End SingleAndBatch.

Section TwoFetchers.
Import History.

(** X20. The two fetchers read the same balance sheet: when the column
    listed first is the latest by date and its total assets and total
    liabilities are not NaN, the Merton fetcher's [V_A] and [D] are the
    total assets and total liabilities that the Z-Score fetcher reads. *)
Theorem fetchers_read_the_same_balance (date : Z) (latest : gmap string float)
    (earlier : DatedFrame) (ta tl : float)
    (m_stock : Ticker) (z_stock : YFinance.Ticker)
    (m_self m_self' : MertonDataFetcher.t) (z_self z_self' : ZScoreDataFetcher.t) :
  balance_sheet m_stock = Some ((date, latest) :: earlier) ->
  YFinance.balance_sheet z_stock = Some (undated ((date, latest) :: earlier)) ->
  (forall d c, In (d, c) earlier -> (d < date)%Z) ->
  latest !! "Total Assets" = Some ta -> is_nan ta = false ->
  latest !! "Total Liabilities Net Minority Interest" = Some tl ->
  is_nan tl = false ->
  MertonDataFetcher._fetch_historical_balance m_self m_stock = Returned m_self' ->
  ZScoreDataFetcher._fetch_balance_sheet z_self z_stock = Ok z_self' ->
  MertonDataFetcher.V_A m_self' = ta
  /\ MertonDataFetcher.D m_self' = tl
  /\ ZScoreDataFetcher.total_assets z_self' = Some ta
  /\ ZScoreDataFetcher.total_liabilities z_self' = Some tl.
Proof.
  intros Hm Hz Hlatest Hta Hta_nan Htl Htl_nan Hmf Hzf.
  assert (Hpick : forall label v w,
            latest !! label = Some v -> is_nan v = false ->
            latest_value ((date, latest) :: earlier) label w -> w = v).
  { intros label v w Hv Hnan (_ & d0 & c0 & Hin & Hc0 & Hmax).
    specialize (Hmax date latest v (or_introl eq_refl) Hv Hnan).
    destruct Hin as [[= <- <-]|Hin]; [congruence|].
    specialize (Hlatest d0 c0 Hin). lia. }
  pose proof (fetch_historical_balance_outcome m_self m_stock) as Hout.
  destruct (history_gap m_self m_stock) as [e|]; [congruence|].
  destruct Hout as (bs & self1 & Hbs & Hfetch & HVA & HD & _).
  rewrite Hm in Hbs. injection Hbs as <-.
  rewrite Hfetch in Hmf. injection Hmf as <-.
  split; [exact (Hpick _ _ _ Hta Hta_nan HVA)|].
  split; [exact (Hpick _ _ _ Htl Htl_nan HD)|].
  rewrite fetch_balance_sheet_eq, Hz in Hzf. cbn [undated map snd statement] in Hzf.
  rewrite bool_decide_eq_false_2 in Hzf.
  - rewrite Hta, Htl in Hzf. injection Hzf as <-. split; reflexivity.
  - intros Hsize. apply map_size_empty_iff in Hsize. rewrite Hsize in Hta.
    rewrite lookup_empty in Hta. discriminate.
Qed.

End TwoFetchers.

(** ** report_generator.py: the tables of the report *)

Section ReportTables.
Context `{Builtins} (world : World).
Import Decision RiskAnalyzer.

Lemma gauge_limits_eq (mv : string) :
  ReportGenerator.gauge_limits mv
  = (ZScoreDecision.distress (ZScoreDecision.thresholds_of mv),
     ZScoreDecision.safe (ZScoreDecision.thresholds_of mv)).
Proof.
  unfold ReportGenerator.gauge_limits, ReportGenerator.gauge_thresholds,
    ZScoreDecision.thresholds_of, ZScoreDecision.THRESHOLDS.
  destruct (decide (mv = "Z")) as [->|HZ]; [reflexivity|].
  destruct (decide (mv = "Z_double_prime")) as [->|HZ2]; [reflexivity|].
  rewrite !lookup_insert_ne, !lookup_singleton_ne by congruence. reflexivity.
Qed.

Lemma console_color_found (decision : string) :
  is_decision decision -> ReportGenerator.console_color decision <> "".
Proof.
  unfold is_decision, APPROVED, APPROVED_WARNING, DENIED.
  intros [-> | [-> | ->]]; vm_compute; discriminate.
Qed.

Lemma bg_color_found (decision : string) :
  is_decision decision -> ReportGenerator.bg_color decision <> "#7f8c8d".
Proof.
  unfold is_decision, APPROVED, APPROVED_WARNING, DENIED.
  intros [-> | [-> | ->]]; vm_compute; discriminate.
Qed.

(** X21. The tables of the report agree with the engines.  The gauge of
    the Z-Score is drawn with the thresholds by which the decision was
    taken, under every model version, the unknown ones included; and in
    the report of a completed run every decision has its colour: neither
    the console's empty default nor the panel's grey is used, and the
    charts include the Merton rows exactly when Merton was applicable. *)
Theorem report_tables_agree :
  (forall mv : string,
     ReportGenerator.gauge_limits mv
     = (ZScoreDecision.distress (ZScoreDecision.thresholds_of mv),
        ZScoreDecision.safe (ZScoreDecision.thresholds_of mv)))
  /\ (forall (s : string) (r : analysis),
        run world (__init__ s) = Ok r ->
        ReportGenerator.console_color (decision (zs_decision (a_zscore r))) <> ""
        /\ (forall m_dec, m_decision (a_merton r) = Some m_dec ->
                          ReportGenerator.console_color (decision m_dec) <> "")
        /\ ReportGenerator.console_color (fd_decision (a_final_decision r)) <> ""
        /\ ReportGenerator.bg_color (fd_decision (a_final_decision r)) <> "#7f8c8d"
        /\ ReportGenerator.merton_ok r = applicable (a_merton r)
        /\ ReportGenerator.n_rows r = if applicable (a_merton r) then 3 else 2).
Proof.
  split; [exact gauge_limits_eq|].
  intros s r (facts & z_results & mv & merton & _ & _ & _ & -> & _)%run_inversion.
  cbn [a_zscore a_merton a_final_decision zs_decision applicable results
       m_decision].
  pose proof (zscore_evaluate_is_decision
    {| ZScoreDecision.z_score := ZScoreCalculator.z_score z_results;
       ZScoreDecision.model_version := mv |}) as Hz.
  split; [exact (console_color_found _ Hz)|].
  split.
  { intros m_dec Hm. destruct merton as [m|]; [|discriminate].
    injection Hm as <-.
    exact (console_color_found _ (merton_evaluate_is_decision _)). }
  split; [exact (console_color_found _ (combine_is_decision _ _ Hz))|].
  split; [exact (bg_color_found _ (combine_is_decision _ _ Hz))|].
  unfold ReportGenerator.n_rows, ReportGenerator.merton_ok.
  cbn [a_merton applicable results]. rewrite andb_diag. split; reflexivity.
Qed.

End ReportTables.

(** ** Instances *)

Lemma ticker_normalised_once_witness :
  PyStr.is_ascii " aapl " = true
  /\ RiskAnalyzer.ticker (RiskAnalyzer.__init__ " aapl ") = "AAPL"
  /\ RiskAnalyzer.ticker (RiskAnalyzer.__init__ "AAPL") = "AAPL"
  /\ MertonDataFetcher.ticker (MertonDataFetcher.__init__ "AAPL") = "AAPL".
Proof.
  split; [reflexivity|]. split; [reflexivity|].
  pose proof (ticker_normalised_once " aapl " eq_refl) as H. cbv zeta in H.
  destruct H as (_ & _ & _ & H1 & _ & H2 & _).
  split; [exact H1 | exact H2].
Defined.

Lemma get_tickers_interactively_rule_witness :
  PyStr.is_ascii " , ," = true
  /\ Main.get_tickers_interactively " aapl, msft,f " = Ok ["AAPL"; "MSFT"; "F"]
  /\ Main.get_tickers_interactively " , ," = Ok [].
Proof.
  split; [reflexivity|]. split; [reflexivity|].
  apply (proj2 (proj2 (get_tickers_interactively_rule " , ," eq_refl)));
    [discriminate | reflexivity].
Defined.

Lemma classify_case_insensitive_witness :
  PyStr.is_ascii "Auto Parts" = true
  /\ classification (H := Reference.builtins) (Some "AUTO PARTS") zero
     = classification (H := Reference.builtins) (Some "Auto Parts") one
  /\ classification (H := Reference.builtins) (Some "Auto Parts") one
     = ("manufacturing", "Z").
Proof.
  split; [reflexivity|].
  split; [|reflexivity].
  apply (proj1 (classify_case_insensitive (H := Reference.builtins)
                  "Auto Parts" zero one eq_refl)).
Defined.

Lemma nan_total_assets_not_rejected_witness :
  total_assets nan_facts = S754_nan
  /\ exists r : ZScoreCalculator.ratios,
       zscore_compute (H := Reference.builtins) nan_facts "Z" = Ok r
       /\ ZScoreCalculator.z_score r = S754_nan
       /\ Decision.decision
            (ZScoreDecision.evaluate (H := Reference.builtins)
               {| ZScoreDecision.z_score := ZScoreCalculator.z_score r;
                  ZScoreDecision.model_version := "Z" |})
          = "APPROVED WITH WARNING".
Proof.
  split; [reflexivity|].
  destruct (nan_total_assets_not_rejected (H := Reference.builtins) nan_facts "Z")
    as (r & Hr & _ & _ & _ & Hz & _ & Hd).
  - reflexivity.
  - reflexivity.
  - left. reflexivity.
  - reflexivity.
  - exists r. split; [exact Hr|]. split; [exact Hz | exact Hd].
Defined.



Lemma historical_balance_latest_witness :
  MertonDataFetcher._fetch_historical_balance (MertonDataFetcher.__init__ "acme")
    sample_history = Returned sample_balance_fetcher
  /\ latest_value sample_frame "Total Assets" (of_Z 1000)
  /\ latest_value sample_frame "Total Liabilities Net Minority Interest" (of_Z 600).
Proof.
  assert (Hf : MertonDataFetcher._fetch_historical_balance
                 (MertonDataFetcher.__init__ "acme") sample_history
               = Returned sample_balance_fetcher) by (vm_compute; reflexivity).
  split; [exact Hf|].
  destruct (historical_balance_latest _ _ _ Hf) as (bs & series & Hbs & HVA & HD & _).
  injection Hbs as <-. split; [exact HVA | exact HD].
Defined.

Lemma fetchers_read_the_same_balance_witness :
  MertonDataFetcher._fetch_historical_balance (MertonDataFetcher.__init__ "acme")
    sample_history = Returned sample_balance_fetcher
  /\ ZScoreDataFetcher._fetch_balance_sheet (ZScoreDataFetcher.__init__ "acme")
       sample_stock = Ok sample_balance_zfetcher
  /\ MertonDataFetcher.V_A sample_balance_fetcher = of_Z 1000
  /\ MertonDataFetcher.D sample_balance_fetcher = of_Z 600
  /\ ZScoreDataFetcher.total_assets sample_balance_zfetcher = Some (of_Z 1000)
  /\ ZScoreDataFetcher.total_liabilities sample_balance_zfetcher = Some (of_Z 600).
Proof.
  assert (Hm : MertonDataFetcher._fetch_historical_balance
                 (MertonDataFetcher.__init__ "acme") sample_history
               = Returned sample_balance_fetcher) by (vm_compute; reflexivity).
  assert (Hz : ZScoreDataFetcher._fetch_balance_sheet
                 (ZScoreDataFetcher.__init__ "acme") sample_stock
               = Ok sample_balance_zfetcher) by (vm_compute; reflexivity).
  split; [exact Hm|]. split; [exact Hz|].
  apply (fetchers_read_the_same_balance 19722
           {[ "Total Assets" := of_Z 1000;
              "Total Liabilities Net Minority Interest" := of_Z 600 ]}
           [ (19357%Z, {[ "Total Assets" := of_Z 800;
                          "Total Liabilities Net Minority Interest" := of_Z 500 ]}) ]
           (of_Z 1000) (of_Z 600) sample_history sample_stock
           (MertonDataFetcher.__init__ "acme") sample_balance_fetcher
           (ZScoreDataFetcher.__init__ "acme") sample_balance_zfetcher);
    try reflexivity; try assumption.
  intros d c [[= <- <-]|[]]. reflexivity.
Defined.

Lemma flat_history_rejected_witness :
  MertonDataFetcher.assets_history flat_fetcher = [of_Z 1000; of_Z 1000]
  /\ exists self' : MertonDataFetcher.t,
       MertonDataFetcher._calculate_mu_and_sigma (H := sample_numpy) flat_fetcher
       = Returned self'
       /\ MertonDataFetcher.sigma self' = zero.
Proof.
  split; [vm_compute; reflexivity|].
  destruct (flat_history_rejected (H := Reference.builtins) (H0 := sample_numpy)
              flat_fetcher false 8796093022208000 (-43) eq_refl)
    as (self' & Hc & Hs & _).
  exists self'. split; [exact Hc | exact Hs].
Defined.

Lemma merton_unit_horizon_witness :
  T unit_horizon_facts = one
  /\ exists r : MertonCalculator.outputs,
       MertonCalculator.calculate (H := Reference.builtins)
         (MertonCalculator.__init__ unit_horizon_facts) = Ok r
       /\ MertonCalculator.r_T r = one.
Proof.
  split; [reflexivity|].
  apply (merton_unit_horizon (H := Reference.builtins) unit_horizon_facts);
    vm_compute; reflexivity.
Defined.

(** ** The model at work *)

(** The Z-Score of the sample company: ratios 0.25, 0.4, 0.15, 3.0 and
    1.2, and the score 4.355. *)
Example zscore_of_sample_facts :
  zscore_compute (H := Reference.builtins) sample_facts "Z" =
    Ok {| ZScoreCalculator.r_model_version := "Z";
          ZScoreCalculator.x1 := lit 25 100;
          ZScoreCalculator.x2 := lit 4 10;
          ZScoreCalculator.x3 := lit 15 100;
          ZScoreCalculator.x4 := of_Z 3;
          ZScoreCalculator.x5 := lit 12 10;
          ZScoreCalculator.z_score := lit 4355 1000 |}.
Proof. vm_compute. reflexivity. Qed.

(** The wording of a Z-Score decision. *)
Example reasoning_of_a_distressed_score :
  ZScoreDecision.evaluate (H := Reference.builtins)
    {| ZScoreDecision.z_score := lit 802 1000;
       ZScoreDecision.model_version := "Z_double_prime" |}
  = {| Decision.zone := "DISTRESS";
       Decision.decision := "DENIED";
       Decision.reasoning :=
         "Z''-Score = 0.8020 | Zona segura: >2.6 | Zona distress: <1.1 | Resultado: DISTRESS" |}.
Proof. vm_compute. reflexivity. Qed.

(** The wording of a Merton decision, for assets at par with the debt
    (PD = 0.559618, DD = -0.15). *)
Example reasoning_of_the_par_example :
  MertonDecision.evaluate (H := Reference.builtins)
    {| MertonDecision.PD := lit 559618 1000000; MertonDecision.DD := SFopp (lit 15 100) |}
  = {| Decision.zone := "DISTRESS";
       Decision.decision := "DENIED";
       Decision.reasoning :=
         "PD = 55.9618% | DD = -0.1500 | Umbral seguro: <2% | Umbral distress: >5% | Resultado: DISTRESS" |}.
Proof. vm_compute. reflexivity. Qed.

(** A run with negative liabilities: financial company, Z_double_prime,
    Merton skipped, final decision from the Z-Score alone. *)
Example run_of_shell :
  exists r : RiskAnalyzer.analysis,
    RiskAnalyzer.run (H := Reference.builtins) sample_world
      (RiskAnalyzer.__init__ " shell ") = Ok r
    /\ RiskAnalyzer.a_ticker r = "SHELL"
    /\ RiskAnalyzer.a_company_type r = "financial"
    /\ ZScoreCalculator.z_score (RiskAnalyzer.zs_ratios (RiskAnalyzer.a_zscore r))
       = lit 802 1000
    /\ RiskAnalyzer.a_merton r
       = {| RiskAnalyzer.applicable := false; RiskAnalyzer.results := None;
            RiskAnalyzer.m_decision := None |}
    /\ RiskAnalyzer.a_final_decision r
       = {| RiskAnalyzer.fd_decision := "DENIED";
            RiskAnalyzer.fd_basis := "Z-Score únicamente (Merton no aplicable)" |}.
Proof. eexists. split; [vm_compute; reflexivity|]. repeat split. Qed.

(** A batch of three tickers of which the second cannot be fetched:
    three entries in order, the second an error record that keeps the
    ticker as it was given. *)
Example batch_of_three :
  exists first third : RiskAnalyzer.analysis,
    RiskAnalyzer.analyze_multiple (H := Reference.builtins) sample_world
      ["acme"; "nocap"; "shell"]
    = [ RiskAnalyzer.Analysis first;
        RiskAnalyzer.ErrorRecord "nocap"
          "float() argument must be a string or a real number, not 'NoneType'";
        RiskAnalyzer.Analysis third ]
    /\ RiskAnalyzer.a_ticker first = "ACME"
    /\ RiskAnalyzer.a_ticker third = "SHELL".
Proof. eexists _, _. split; [vm_compute; reflexivity|]. split; reflexivity. Qed.
